(** * go-acme: certificate lifecycle, shallow embedding

    The development follows the Go sources of jtblin/go-acme:

    - package [types]   (account.go, certificate.go): the data model and the
      [DomainCertificate] methods [tlsCert], [Init], [RenewCertificate],
      [AddCertificate];
    - package [acme]    (acme.go, crypto.go, provider.go): [needsUpdate],
      [renewCertificate], [getDomainCertificate], [retrieveCertificate],
      [CreateConfig], [newDNSProvider], [generateDerCert];
    - package [backend] (backend.go) and the filesystem backend (fs.go).

    Modelling conventions.

    - A Go pointer [*T] to an object that is never mutated in place
      ([*Certificate], [*Domain], [*tls.Certificate]) is an [option T], [None]
      being [nil].  The [DomainCertificate] object is mutated in place through
      several aliases (the account, the renewal tasks, the TLS callback), so it
      lives in a heap and a [*DomainCertificate] is an optional location.
    - A run-time panic (nil dereference, explicit [panic]) is the outcome
      [Panic]; a Go [error] result is an ordinary value.
    - The Go standard library, the lego ACME client, the storage backends and
      the DNS providers are collaborators: their answers are given by the
      fields of [GoLib], [Runtime], [Client], [backend.Interface] and
      [fs.FileSystem]; the answer of an effectful one may depend on the calls
      made so far, which are recorded in the [trace].
    - [time.Now] is a sequence of clock readings, one per call.
    - The [Logger] field of [ACME] is kept, with the assignment that
      [CreateConfig] makes to it; what is written to a logger is not modelled.
    - Goroutines are recorded as spawned tasks and not interleaved. *)

From stdpp Require Import base option list strings gmap.
From Stdlib Require Import ZArith Lia.
From Stdlib Require Import Ascii.
From Stdlib.Strings Require Byte.

Set Warnings "-register-all".

Local Open Scope string_scope.
Local Open Scope Z_scope.

(** ** Go base types *)

(** [[]byte]: no code path here tells a nil byte slice from an empty one. *)
Definition bytes := list Byte.byte.

(** A slice whose nil-ness is observable ([reflect.DeepEqual] tells a nil
  slice from an empty one): [None] is the nil slice. *)
Definition slice (A : Type) := option (list A).

Definition slice_elems {A : Type} (s : slice A) : list A := default [] s.

(** ** Errors and panics *)

Inductive Errno := ENOENT | EACCES | EIO.

(** [errorString] is [errors.New] (and any error text made by a collaborator),
  [wrapError fmt e] is [fmt.Errorf(fmt, ..., e.Error())], [formatError fmt s] is
  [fmt.Errorf(fmt, s)] for a string [s], [failuresError fmt m]
  is [fmt.Errorf(fmt, m)] for a map [m] of failures by domain, [PathError] is
  [*os.PathError]. *)
Inductive error : Type :=
| errorString (msg : string)
| wrapError (format : string) (cause : error)
| formatError (format : string) (arg : string)
| failuresError (format : string) (failures : list (string * error))
| PathError (op path : string) (errno : Errno).

(** Outcome of running Go code: it returns, or the goroutine panics. *)
Inductive Res (A : Type) : Type :=
| Ret (a : A)
| Panic (msg : string).
Arguments Ret {A} a.
Arguments Panic {A} msg.

Definition nil_dereference : string :=
  "runtime error: invalid memory address or nil pointer dereference".

(** ** Time *)

(** [time.Time] as nanoseconds since the zero [Time] (January 1, year 1 UTC);
    [time.Duration] is a count of nanoseconds.  Both are unbounded here: the
    code adds 365 ns and 7 days to clock readings, far from the limits of
    Go's representation. *)
Definition Time := Z.
Definition Duration := Z.

Module time.
Definition Nanosecond : Duration := 1.
Definition Microsecond : Duration := 1000 * Nanosecond.
Definition Millisecond : Duration := 1000 * Microsecond.
Definition Second : Duration := 1000 * Millisecond.
Definition Minute : Duration := 60 * Second.
Definition Hour : Duration := 60 * Minute.
Definition zero : Time := 0.
Definition IsZero (t : Time) : bool := bool_decide (t = 0).
Definition Add (t : Time) (d : Duration) : Time := t + d.
Definition Before (t u : Time) : bool := bool_decide (t < u).
End time.

(** Successive readings of the wall clock: [clock k] is what the [k]-th call
  of [time.Now] returns. *)
Definition Clock := nat → Time.

(** ** crypto/tls, crypto/x509 and lego data *)

Inductive PrivateKey := RSAKey (material : bytes).

Module tls.
(** [tls.Certificate]: the DER chain and the parsed key. *)
Record Certificate := mkCertificate {
  Certificate_chain : list bytes;
  Certificate_key : PrivateKey
}.
Record ClientHelloInfo := { ServerName : string }.
End tls.

Module x509.
(** The fields of a parsed [x509.Certificate] that the code reads. *)
Record Certificate := { NotAfter : Time }.

Inductive KeyUsage := KeyUsageKeyEncipherment.

(** The [x509.Certificate] template handed to [x509.CreateCertificate]. *)
Record Template := {
  SerialNumber : Z;
  CommonName : string;
  NotBefore : Time;
  tpl_NotAfter : Time;
  tpl_KeyUsage : KeyUsage;
  BasicConstraintsValid : bool;
  DNSNames : list string
}.
End x509.

Module lego.
(** [acme.CertificateResource] of lego. *)
Record CertificateResource := {
  Domain : string;
  CertURL : string;
  CertStableURL : string;
  PrivateKey : bytes;
  Certificate : bytes
}.
Record RegistrationResource := { URI : string; NewAuthzURL : string; TosURL : string }.
Inductive Challenge := HTTP01 | TLSSNI01 | DNS01.
Inductive KeyType := RSA4096.
End lego.

(** ** Pure functions of the Go standard library

    Parsers and encoders of crypto/tls, crypto/x509, encoding/pem and path,
    taken as given. *)
Class GoLib := {
  (** [tls.X509KeyPair(certPEMBlock, keyPEMBlock)] *)
  tls_X509KeyPair : bytes → bytes → tls.Certificate + error;
  (** [x509.ParseCertificate(der)] *)
  x509_ParseCertificate : bytes → x509.Certificate + error;
  (** [x509.MarshalPKCS1PrivateKey(key)] *)
  x509_MarshalPKCS1PrivateKey : PrivateKey → bytes;
  (** [pem.EncodeToMemory(&pem.Block{Type: t, Bytes: b})] *)
  pem_EncodeToMemory : string → bytes → bytes;
  (** [path.Join(dir, name)] *)
  path_Join : string → string → string
}.

(** ** State and panics

    Go code acting on a state [S]: it returns a value and a new state, or
    panics. *)
Definition SP (S A : Type) : Type := S → Res (A * S).

Definition ret {S A : Type} (a : A) : SP S A := λ s, Ret (a, s).

Definition bind {S A B : Type} (m : SP S A) (k : A → SP S B) : SP S B :=
  λ s, match m s with
       | Ret (a, s') => k a s'
       | Panic msg => Panic msg
       end.

Definition panic {S A : Type} (msg : string) : SP S A := λ _, Panic msg.

Notation "'do' x <- m ; k" := (bind m (λ x, k))
  (at level 10, x pattern, m at level 100, k at level 200,
   format "'[v' 'do'  x  <-  m ; '/' k ']'").

(** ** Package types: the data model *)

Definition loc := positive.

Module types.

Record Certificate := mkCertificate {
  cert_Domain : string;
  cert_CertURL : string;
  cert_CertStableURL : string;
  cert_PrivateKey : bytes;
  cert_Cert : bytes
}.

(** [&Certificate{}] *)
Definition emptyCertificate : Certificate :=
  mkCertificate EmptyString EmptyString EmptyString [] [].

Record Domain := mkDomain {
  Main : string;
  SANs : slice string
}.

Record DomainCertificate := mkDomainCertificate {
  dc_Certificate : option Certificate;
  dc_Domain : option Domain;
  dc_TLSCert : option tls.Certificate
}.

(** [DomainCertificate{}] *)
Definition emptyDomainCertificate : DomainCertificate :=
  mkDomainCertificate None None None.

Record Account := mkAccount {
  acct_Email : string;
  acct_Registration : option lego.RegistrationResource;
  acct_PrivateKey : bytes;
  acct_DomainsCertificate : option loc
}.

Global Instance Byte_eq_dec : EqDecision Byte.byte := Strings.Byte.byte_eq_dec.
Global Instance Certificate_eq_dec : EqDecision Certificate.
Proof. solve_decision. Defined.
Global Instance Domain_eq_dec : EqDecision Domain.
Proof. solve_decision. Defined.

(** [reflect.DeepEqual] at type [*Domain]: two nil pointers are equal, a nil
    and a non-nil pointer are not, two non-nil pointers are equal when the
    structs are (strings by content, slices by nil-ness and content). *)
Definition DeepEqual (x y : option Domain) : bool := bool_decide (x = y).

(** The heap of [DomainCertificate] objects. *)
Abbreviation Heap := (gmap loc DomainCertificate).

(** Code of package [types] acts on the heap only. *)
Abbreviation St := (SP Heap).

(** Reading through a [*DomainCertificate]; a nil receiver panics at its first
    field access.  Go has no dangling pointers: a location outside the heap
    is treated like nil. *)
Definition load (dc : option loc) : St DomainCertificate :=
  λ h, match dc ≫= (h !!.) with
       | Some v => Ret (v, h)
       | None => Panic nil_dereference
       end.

(** Writing a field through a [*DomainCertificate]. *)
Definition update (dc : option loc) (f : DomainCertificate → DomainCertificate) : St unit :=
  λ h, match dc with
       | Some l => match h !! l with
                   | Some v => Ret (tt, <[l := f v]> h)
                   | None => Panic nil_dereference
                   end
       | None => Panic nil_dereference
       end.

Definition set_Certificate (c : option Certificate) (v : DomainCertificate) :=
  mkDomainCertificate c (dc_Domain v) (dc_TLSCert v).
Definition set_Domain (d : option Domain) (v : DomainCertificate) :=
  mkDomainCertificate (dc_Certificate v) d (dc_TLSCert v).
Definition set_TLSCert (t : option tls.Certificate) (v : DomainCertificate) :=
  mkDomainCertificate (dc_Certificate v) (dc_Domain v) t.

Section Methods.
Context {lib : GoLib}.

(** certificate.go, [func (dc *DomainCertificate) tlsCert()] *)
Definition tlsCert (dc : option loc) : St (tls.Certificate + error) :=
  do v <- load dc;
  match dc_Certificate v with
  | None => panic nil_dereference
  | Some c =>
      match tls_X509KeyPair (cert_Cert c) (cert_PrivateKey c) with
      | inr err => ret (inr err)
      | inl cert => ret (inl cert)
      end
  end.

(** certificate.go, [func (dc *DomainCertificate) Init() error] *)
Definition Init (dc : option loc) : St (option error) :=
  do r <- tlsCert dc;
  match r with
  | inr err => ret (Some err)
  | inl tlsCert =>
      do _ <- update dc (set_TLSCert (Some tlsCert));
      ret None
  end.

(** certificate.go, [func (dc *DomainCertificate) RenewCertificate] *)
Definition RenewCertificate (dc : option loc)
    (acmeCert : option Certificate) (domain : option Domain) : St (option error) :=
  do v <- load dc;
  if DeepEqual domain (dc_Domain v) then
    do _ <- update dc (set_Certificate acmeCert);
    do err <- Init dc;
    match err with
    | Some err => ret (Some err)
    | None => ret None
    end
  else
    match domain with
    | None => panic nil_dereference
    | Some d =>
        ret (Some (errorString ("Certificate to renew not found for domain " +:+ Main d)))
    end.

(** certificate.go, [func (dc *DomainCertificate) AddCertificate] *)
Definition AddCertificate (dc : option loc)
    (acmeCert : option Certificate) (domain : option Domain) : St (option error) :=
  do _ <- update dc (set_Domain domain);
  do _ <- update dc (set_Certificate acmeCert);
  Init dc.

End Methods.

End types.

(** ** Collaborators and the trace of their calls *)

(** An [Account] with its [DomainCertificate] by value: what a backend
    serialises and what it hands back on load. *)
Record AccountValue := mkAccountValue {
  av_Email : string;
  av_Registration : option lego.RegistrationResource;
  av_PrivateKey : bytes;
  av_DomainsCertificate : option types.DomainCertificate
}.

Inductive Event :=
| EvFactory (name : string)
| EvLoadAccount (backendName domain : string)
| EvSaveAccount (backendName : string) (account : AccountValue)
| EvGenerateKey (bits : Z)
| EvRandInt (limit : Z)
| EvCreateCertificate (template : x509.Template) (key : PrivateKey)
| EvNewClient (caServer : string) (account : AccountValue) (keyType : lego.KeyType)
| EvExcludeChallenges (challenges : list lego.Challenge)
| EvNewDNSProvider (name : string)
| EvSetChallengeProvider (challenge : lego.Challenge) (provider : string)
| EvRegister
| EvAgreeToTOS
| EvObtainCertificate (domains : list string) (bundle : bool)
| EvRenewCertificate (cert : lego.CertificateResource) (bundle : bool).

(** Calls that reach the validation authority. *)
Definition is_authority_call (ev : Event) : bool :=
  match ev with
  | EvRegister | EvAgreeToTOS | EvObtainCertificate _ _ | EvRenewCertificate _ _ => true
  | _ => false
  end.

Definition is_save (ev : Event) : bool :=
  match ev with EvSaveAccount _ _ => true | _ => false end.

Definition authority_calls (tr : list Event) : nat :=
  length (filter (λ ev, is_authority_call ev = true) tr).

Definition saves (tr : list Event) : nat :=
  length (filter (λ ev, is_save ev = true) tr).

(** [*acme.Client] of lego: each answer may depend on the calls so far. *)
Record Client := {
  client_Register : list Event → option lego.RegistrationResource * option error;
  client_AgreeToTOS : list Event → option error;
  client_ObtainCertificate :
    list Event → list string → bool → lego.CertificateResource * list (string * error);
  client_RenewCertificate :
    list Event → lego.CertificateResource → bool → lego.CertificateResource + error
}.

(** The process state the code acts on. *)
Record World := mkWorld {
  heap : gmap loc types.DomainCertificate;
  trace : list Event
}.

Abbreviation M := (SP World).

Definition liftHeap {A : Type} (m : types.St A) : M A :=
  λ w, match m (heap w) with
       | Ret (a, h) => Ret (a, mkWorld h (trace w))
       | Panic msg => Panic msg
       end.

(** A call to a collaborator: its answer is taken on the trace so far, and the
    call is appended to the trace. *)
Definition call {A : Type} (ev : Event) (answer : list Event → A) : M A :=
  λ w, Ret (answer (trace w), mkWorld (heap w) (trace w ++ [ev])).

Module backend.

(** backend.go, [type Interface interface] *)
Record Interface := {
  LoadAccount : list Event → string → option AccountValue * option error;
  Name : string;
  SaveAccount : list Event → AccountValue → option error
}.

(** backend.go, [type Factory func() (Interface, error)] *)
Definition Factory := list Event → option Interface * option error.

(** backend.go, [func RegisterBackend], on the registry [backends] *)
Definition RegisterBackend (name : string) (backend : Factory)
    (backends : gmap string Factory) : Res (gmap string Factory) :=
  match backends !! name with
  | Some _ => Panic "Authenticator backend %q was registered twice"
  | None => Ret (<[name := backend]> backends)
  end.

(** backend.go, [func GetBackend] *)
Definition GetBackend (backends : gmap string Factory) (name : string)
    : M (option Interface * option error) :=
  match backends !! name with
  | None => ret (None, None)
  | Some f => call (EvFactory name) f
  end.

(** backend.go, [func InitBackend] *)
Definition InitBackend (backends : gmap string Factory) (name : string)
    : M (option Interface * option error) :=
  if bool_decide (name = EmptyString) then ret (None, None)
  else
    do (backend, err) <- GetBackend backends name;
    match err with
    | Some err => ret (None, Some (wrapError "Could not init backend %q: %v" err))
    | None =>
        match backend with
        | None => ret (None, Some (formatError "Unknown backend %q" name))
        | Some b => ret (Some b, None)
        end
    end.

End backend.

(** ** Loggers *)

(** The flags of package log that the code uses. *)
Module log.

Definition Ldate : Z := 1.
Definition Ltime : Z := 2.
Definition Lshortfile : Z := 16.

End log.

(** [logger.Interface] of go-logger: a logger of the caller, or the
    [*log.Logger] that [log.New(out, prefix, flag)] makes.  What a logger
    prints is not modelled; its [Panic] panics with the message. *)
Module logger.

Inductive Interface :=
| Custom (name : string)
| log_New (out prefix : string) (flag : Z).

End logger.

(** acme.go, [type ACME struct].  [Logger] is nil until [CreateConfig] sets
    it; the methods of [ACME] other than [CreateConfig] are called by it and
    by its goroutines, after that, and their log lines are not modelled. *)
Record ACME := mkACME {
  acme_backend : option backend.Interface;
  acme_Domain : option types.Domain;
  acme_Logger : option logger.Interface;
  acme_BackendName : string;
  acme_CAServer : string;
  acme_DNSProvider : string;
  acme_Email : string;
  acme_SelfSigned : bool
}.

(** The value behind an [*Account], as a backend sees it. *)
Definition snapshot (account : types.Account) : M AccountValue :=
  λ w, Ret (mkAccountValue (types.acct_Email account) (types.acct_Registration account)
              (types.acct_PrivateKey account)
              (types.acct_DomainsCertificate account ≫= (heap w !!.)), w).

(** [a.backend.SaveAccount(account)] *)
Definition backend_SaveAccount (b : option backend.Interface) (account : types.Account)
    : M (option error) :=
  match b with
  | None => panic nil_dereference
  | Some b =>
      do v <- snapshot account;
      call (EvSaveAccount (backend.Name b) v) (λ tr, backend.SaveAccount b tr v)
  end.

Definition bundleCA : bool := true.
Definition defaultCAServer : string := "https://acme-v01.api.letsencrypt.org/directory".

Definition of_resource (r : lego.CertificateResource) : types.Certificate :=
  types.mkCertificate (lego.Domain r) (lego.CertURL r) (lego.CertStableURL r)
    (lego.PrivateKey r) (lego.Certificate r).

Definition to_resource (c : types.Certificate) : lego.CertificateResource :=
  {| lego.Domain := types.cert_Domain c;
     lego.CertURL := types.cert_CertURL c;
     lego.CertStableURL := types.cert_CertStableURL c;
     lego.PrivateKey := types.cert_PrivateKey c;
     lego.Certificate := types.cert_Cert c |}.

Section Orchestrator.
Context {lib : GoLib}.

(** acme.go, the loop of [needsUpdate] from the [k]-th clock reading on.
    [time.Now] is called once for every segment that parses. *)
Fixpoint needsUpdate_range (clock : Clock) (k : nat) (chain : list bytes) : bool :=
  match chain with
  | [] => false
  | c :: rest =>
      match x509_ParseCertificate c with
      | inr _ => true
      | inl crt =>
          if time.Before (x509.NotAfter crt) (time.Add (clock k) (24 * 7 * time.Hour))
          then true
          else needsUpdate_range clock (S k) rest
      end
  end.

(** acme.go, [func needsUpdate(cert *tls.Certificate) bool] *)
Definition needsUpdate (clock : Clock) (cert : option tls.Certificate) : Res bool :=
  match cert with
  | None => Panic nil_dereference
  | Some c => Ret (needsUpdate_range clock 0 (tls.Certificate_chain c))
  end.

(** acme.go, [func (a *ACME) renewCertificate] *)
Definition renewCertificate (clock : Clock) (a : ACME) (client : Client)
    (account : types.Account) : M (option error) :=
  let dc := types.acct_DomainsCertificate account in
  do v <- liftHeap (types.load dc);
  match needsUpdate clock (types.dc_TLSCert v) with
  | Panic msg => panic msg
  | Ret false => ret None
  | Ret true =>
      match types.dc_Certificate v with
      | None => panic nil_dereference
      | Some c =>
          do r <- call (EvRenewCertificate (to_resource c) false)
                       (λ tr, client_RenewCertificate client tr (to_resource c) false);
          match r with
          | inr err => ret (Some err)
          | inl renewedCert =>
              let renewedACMECert := of_resource renewedCert in
              do v' <- liftHeap (types.load dc);
              do err <- liftHeap (types.RenewCertificate dc (Some renewedACMECert)
                                    (types.dc_Domain v'));
              match err with
              | Some err => ret (Some err)
              | None =>
                  do err <- backend_SaveAccount (acme_backend a) account;
                  match err with
                  | Some err => ret (Some err)
                  | None => ret None
                  end
              end
          end
      end
  end.

(** acme.go, [func (a *ACME) getDomainCertificate] *)
Definition getDomainCertificate (a : ACME) (client : Client) (domains : list string)
    : M (types.Certificate + error) :=
  do (certificate, failures) <-
     call (EvObtainCertificate domains bundleCA)
          (λ tr, client_ObtainCertificate client tr domains bundleCA);
  if bool_decide (0 < length failures)%nat then
    ret (inr (failuresError "Cannot obtain certificates %s+v" failures))
  else
    ret (inl (of_resource certificate)).

(** acme.go, [func (a *ACME) retrieveCertificate] *)
Definition retrieveCertificate (a : ACME) (client : Client) (account : types.Account)
    : M (option tls.Certificate * option error) :=
  match acme_Domain a with
  | None => panic nil_dereference
  | Some d =>
      let domain := (([] ++ [types.Main d]) ++ slice_elems (types.SANs d))%list in
      do r <- getDomainCertificate a client domain;
      match r with
      | inr err =>
          ret (None, Some (wrapError "Error getting ACME certificate for domain %s: %s" err))
      | inl certificate =>
          do err <- liftHeap (types.AddCertificate (types.acct_DomainsCertificate account)
                                (Some certificate) (acme_Domain a));
          match err with
          | Some err =>
              ret (None, Some (wrapError "Error adding ACME certificate for domain %s: %s" err))
          | None =>
              do err <- backend_SaveAccount (acme_backend a) account;
              match err with
              | Some err =>
                  ret (None, Some (wrapError "Error Saving ACME account %+v: %s" err))
              | None =>
                  do v <- liftHeap (types.load (types.acct_DomainsCertificate account));
                  ret (types.dc_TLSCert v, None)
              end
          end
      end
  end.

End Orchestrator.

(** ** Effectful collaborators of the bootstrap *)

Inductive ChallengeProvider := DNSProvider (package : string).

(** Key generation, random numbers, certificate signing, the lego client
    constructor, the DNS provider constructors (they read the environment) and
    the registry of storage backends filled by the [init] functions. *)
Class Runtime := {
  (** [rsa.GenerateKey(rand.Reader, bits)] *)
  rsa_GenerateKey : list Event → Z → PrivateKey + error;
  (** [rand.Int(rand.Reader, max)] *)
  rand_Int : list Event → Z → Z + error;
  (** [x509.CreateCertificate(rand.Reader, &template, &template, pub, priv)] *)
  x509_CreateCertificate : list Event → x509.Template → PrivateKey → bytes + error;
  (** [acme.NewClient(caServer, account, keyType)] *)
  acme_NewClient : list Event → string → AccountValue → lego.KeyType → Client + error;
  (** [<package>.NewDNSProvider()] *)
  NewDNSProvider : list Event → string → ChallengeProvider + error;
  (** [backend.backends] *)
  backends : gmap string backend.Factory
}.

(** [crypto/tls.Config], the two fields the code assigns.  The callback
    captures pointers: it is applied to the live [ACME] struct and process
    state when a handshake calls it. *)
Record tls_Config := mk_tls_Config {
  Certificates : list tls.Certificate;
  GetCertificate :
    option (ACME → World → tls.ClientHelloInfo → Res (option tls.Certificate * option error))
}.

(** The goroutines [CreateConfig] starts. *)
Inductive Task :=
| RenewOnce (client : Client) (account : types.Account)
| RenewEvery (period : Duration) (client : Client) (account : types.Account).

(** [&DomainCertificate{...}]: a new object in the heap. *)
Definition alloc (v : types.DomainCertificate) : types.St loc :=
  λ h, let l := fresh (dom h) in Ret (l, <[l := v]> h).

(** The [*Account] a backend returns for the value it has read. *)
Definition materialise (v : AccountValue) : M types.Account :=
  match av_DomainsCertificate v with
  | None =>
      ret (types.mkAccount (av_Email v) (av_Registration v) (av_PrivateKey v) None)
  | Some dcv =>
      do l <- liftHeap (alloc dcv);
      ret (types.mkAccount (av_Email v) (av_Registration v) (av_PrivateKey v) (Some l))
  end.

Definition set_Registration (reg : option lego.RegistrationResource) (account : types.Account) :=
  types.mkAccount (types.acct_Email account) reg (types.acct_PrivateKey account)
    (types.acct_DomainsCertificate account).

Definition set_Logger (l : option logger.Interface) (a : ACME) : ACME :=
  mkACME (acme_backend a) (acme_Domain a) l (acme_BackendName a) (acme_CAServer a)
    (acme_DNSProvider a) (acme_Email a) (acme_SelfSigned a).

Definition set_BackendName (name : string) (a : ACME) : ACME :=
  mkACME (acme_backend a) (acme_Domain a) (acme_Logger a) name (acme_CAServer a)
    (acme_DNSProvider a) (acme_Email a) (acme_SelfSigned a).

Definition set_backend (b : option backend.Interface) (a : ACME) : ACME :=
  mkACME b (acme_Domain a) (acme_Logger a) (acme_BackendName a) (acme_CAServer a)
    (acme_DNSProvider a) (acme_Email a) (acme_SelfSigned a).

(** crypto.go, the template built by [generateDerCert]; [time.Now] is read
    once for a zero [expiration] and once for [NotBefore]. *)
Definition derTemplate (clock : Clock) (serialNumber : Z) (expiration : Time)
    (domain : string) : x509.Template :=
  let (expiration, k) :=
    if time.IsZero expiration then (time.Add (clock 0%nat) 365, 1%nat)
    else (expiration, 0%nat) in
  {| x509.SerialNumber := serialNumber;
     x509.CommonName := "DEFAULT CERT";
     x509.NotBefore := clock k;
     x509.tpl_NotAfter := expiration;
     x509.tpl_KeyUsage := x509.KeyUsageKeyEncipherment;
     x509.BasicConstraintsValid := true;
     x509.DNSNames := [domain] |}.

(** acme.go lines 223-228, the closure assigned to [tlsConfig.GetCertificate];
    it captures the pointers [a] and [dc]. *)
Definition resolver (dc : option loc) (a : ACME) (w : World)
    (clientHello : tls.ClientHelloInfo) : Res (option tls.Certificate * option error) :=
  match acme_Domain a with
  | None => Panic nil_dereference
  | Some d =>
      if bool_decide (tls.ServerName clientHello ≠ types.Main d) then
        Ret (None, Some (errorString "Unknown server name"))
      else
        match dc ≫= (heap w !!.) with
        | None => Panic nil_dereference
        | Some v => Ret (types.dc_TLSCert v, None)
        end
  end.

Section Bootstrap.
Context {lib : GoLib} {rt : Runtime}.

(** account.go, [func NewAccount] *)
Definition NewAccount (email : string) (domain : option types.Domain)
    : M (types.Account + error) :=
  do r <- call (EvGenerateKey 4096) (λ tr, rsa_GenerateKey tr 4096);
  match r with
  | inr err => ret (inr err)
  | inl privateKey =>
      do l <- liftHeap (alloc (types.mkDomainCertificate (Some types.emptyCertificate)
                                 domain None));
      ret (inl (types.mkAccount email None (x509_MarshalPKCS1PrivateKey privateKey) (Some l)))
  end.

(** acme.go, [func (a *ACME) buildACMEClient] *)
Definition buildACMEClient (a : ACME) (Account : types.Account) : M (Client + error) :=
  let caServer :=
    if bool_decide (0 < String.length (acme_CAServer a))%nat then acme_CAServer a
    else defaultCAServer in
  do v <- snapshot Account;
  do r <- call (EvNewClient caServer v lego.RSA4096)
               (λ tr, acme_NewClient tr caServer v lego.RSA4096);
  match r with
  | inr err => ret (inr err)
  | inl client => ret (inl client)
  end.

(** provider.go, [func newDNSProvider] *)
Definition newDNSProvider (dns : string) : M (ChallengeProvider + error) :=
  let new (package : string) := call (EvNewDNSProvider package) (λ tr, NewDNSProvider tr package) in
  if bool_decide (dns = "cloudflare") then new "cloudflare"
  else if bool_decide (dns = "digitalocean") then new "digitalocean"
  else if bool_decide (dns = "dnsimple") then new "dnsimple"
  else if bool_decide (dns = "dyn") then new "dyn"
  else if bool_decide (dns = "gandi") then new "gandi"
  else if bool_decide (dns = "gcloud") then new "googlecloud"
  else if bool_decide (dns = "manual") then new "acme.NewDNSProviderManual"
  else if bool_decide (dns = "namecheap") then new "namecheap"
  else if bool_decide (dns = "route53") then new "route53"
  else if bool_decide (dns = "rfc2136") then new "rfc2136"
  else if bool_decide (dns = "vultr") then new "vultr"
  else panic ("Unknown dns provider " +:+ dns).

(** crypto.go, [func generateDerCert] *)
Definition generateDerCert (clock : Clock) (privateKey : PrivateKey) (expiration : Time)
    (domain : string) : M (bytes + error) :=
  let serialNumberLimit := Z.shiftl 1 128 in
  do r <- call (EvRandInt serialNumberLimit) (λ tr, rand_Int tr serialNumberLimit);
  match r with
  | inr err => ret (inr err)
  | inl serialNumber =>
      let template := derTemplate clock serialNumber expiration domain in
      call (EvCreateCertificate template privateKey)
           (λ tr, x509_CreateCertificate tr template privateKey)
  end.

(** crypto.go, [func generatePemCert] *)
Definition generatePemCert (clock : Clock) (privateKey : PrivateKey) (domain : string)
    : M (bytes + error) :=
  do r <- generateDerCert clock privateKey time.zero domain;
  match r with
  | inr err => ret (inr err)
  | inl derBytes => ret (inl (pem_EncodeToMemory "CERTIFICATE" derBytes))
  end.

(** crypto.go, [func generateSelfSignedCertificate] *)
Definition generateSelfSignedCertificate (clock : Clock) (domain : string)
    : M (tls.Certificate + error) :=
  do r <- call (EvGenerateKey 2048) (λ tr, rsa_GenerateKey tr 2048);
  match r with
  | inr err => ret (inr err)
  | inl rsaPrivKey =>
      let rsaPrivatePEM :=
        pem_EncodeToMemory "RSA PRIVATE KEY" (x509_MarshalPKCS1PrivateKey rsaPrivKey) in
      do r <- generatePemCert clock rsaPrivKey domain;
      match r with
      | inr err => ret (inr err)
      | inl tempCertPEM =>
          match tls_X509KeyPair tempCertPEM rsaPrivatePEM with
          | inr err => ret (inr err)
          | inl certificate => ret (inl certificate)
          end
      end
  end.

End Bootstrap.

(** provider.go, the case labels of the switch in [newDNSProvider]. *)
Definition knownDNSProviders : list string :=
  ["cloudflare"; "digitalocean"; "dnsimple"; "dyn"; "gandi"; "gcloud"; "manual";
   "namecheap"; "route53"; "rfc2136"; "vultr"].

Section CreateConfig.
Context {lib : GoLib} {rt : Runtime}.

(** acme.go lines 164-181 of [CreateConfig]: load the account of the main
    domain from the backend, or make a new one; the boolean is
    [needRegister]. *)
Definition CreateConfig_loadAccount (a : ACME) (b : backend.Interface) (d : types.Domain)
    : M (types.Account * bool + error) :=
  do (loaded, err) <-
     call (EvLoadAccount (backend.Name b) (types.Main d))
          (λ tr, backend.LoadAccount b tr (types.Main d));
  match err with
  | Some err => ret (inr err)
  | None =>
      match loaded with
      | Some v =>
          do account <- materialise v;
          do err <- liftHeap (types.Init (types.acct_DomainsCertificate account));
          match err with
          | Some err => ret (inr err)
          | None => ret (inl (account, false))
          end
      | None =>
          do r <- NewAccount (acme_Email a) (acme_Domain a);
          match r with
          | inr err => ret (inr err)
          | inl account => ret (inl (account, true))
          end
      end
  end.

(** acme.go lines 150-187 of [CreateConfig]: backend, account and client.
    The [ACME] struct comes back with the fields assigned on the way. *)
Definition CreateConfig_client (a : ACME) (d : types.Domain)
    : M (ACME * types.Account * bool * Client + error * ACME) :=
  let a := if bool_decide (acme_BackendName a = EmptyString) then set_BackendName "fs" a
           else a in
  do (b, err) <- backend.InitBackend backends (acme_BackendName a);
  match err with
  | Some err => ret (inr (err, a))
  | None =>
      let a := set_backend b a in
      match b with
      | None => panic nil_dereference
      | Some bk =>
          do r <- CreateConfig_loadAccount a bk d;
          match r with
          | inr err => ret (inr (err, a))
          | inl (account, needRegister) =>
              do r <- buildACMEClient a account;
              match r with
              | inr err => ret (inr (err, a))
              | inl client =>
                  do _ <- call (EvExcludeChallenges [lego.HTTP01; lego.TLSSNI01]) (λ _, tt);
                  ret (inl (a, account, needRegister, client))
              end
          end
      end
  end.

(** acme.go lines 194-208 of [CreateConfig]: registration of a new account. *)
Definition CreateConfig_register (client : Client) (account : types.Account)
    (needRegister : bool) : M (types.Account + error) :=
  if needRegister then
    do (reg, err) <- call EvRegister (client_Register client);
    match err with
    | Some err => ret (inr err)
    | None =>
        let account := set_Registration reg account in
        do err <- call EvAgreeToTOS (client_AgreeToTOS client);
        match err with
        | Some err => ret (inr err)
        | None => ret (inl account)
        end
    end
  else ret (inl account).

(** acme.go lines 134-136 of [CreateConfig]: a nil [Logger] is replaced by a
    logger to standard output. *)
Definition CreateConfig_logger (a : ACME) : ACME :=
  match acme_Logger a with
  | None =>
      set_Logger
        (Some (logger.log_New "os.Stdout" "[go-acme] "
                 (Z.lor (Z.lor log.Ldate log.Ltime) log.Lshortfile))) a
  | Some _ => a
  end.

(** acme.go, [func (a *ACME) CreateConfig(tlsConfig *tls.Config) error].
    The result carries the error, the [ACME] struct and the [tls.Config] as
    the call leaves them, and the goroutines started.  [a.Logger.Panic] logs
    and panics, as the default logger (a [log.Logger]) does. *)
Definition CreateConfig (clock : Clock) (a : ACME) (tlsConfig : tls_Config)
    : M (option error * ACME * tls_Config * list Task) :=
  let a := CreateConfig_logger a in
  match acme_Domain a with
  | None => panic "The main domain name must be provided"
  | Some d =>
      if bool_decide (types.Main d = EmptyString) then
        panic "The main domain name must be provided"
      else if acme_SelfSigned a then
        do r <- generateSelfSignedCertificate clock (types.Main d);
        match r with
        | inr err => ret (Some err, a, tlsConfig, [])
        | inl cert =>
            ret (None, a, mk_tls_Config [cert] (GetCertificate tlsConfig), [])
        end
      else
        do r <- CreateConfig_client a d;
        match r with
        | inr (err, a) => ret (Some err, a, tlsConfig, [])
        | inl (a, account, needRegister, client) =>
            do r <- newDNSProvider (acme_DNSProvider a);
            match r with
            | inr err => ret (Some err, a, tlsConfig, [])
            | inl provider =>
                do _ <- call (EvSetChallengeProvider lego.DNS01
                                (let 'DNSProvider p := provider in p)) (λ _, tt);
                do r <- CreateConfig_register client account needRegister;
                match r with
                | inr err => ret (Some err, a, tlsConfig, [])
                | inl account =>
                    let dc := types.acct_DomainsCertificate account in
                    do v <- liftHeap (types.load dc);
                    match types.dc_Certificate v with
                    | None => panic nil_dereference
                    | Some c =>
                        do r <-
                           (if bool_decide (0 < length (types.cert_Cert c))%nat
                               && bool_decide (0 < length (types.cert_PrivateKey c))%nat
                            then ret (inl [RenewOnce client account])
                            else
                              do (_, err) <- retrieveCertificate a client account;
                              match err with
                              | Some err => ret (inr err)
                              | None => ret (inl [])
                              end);
                        match r with
                        | inr err => ret (Some err, a, tlsConfig, [])
                        | inl started =>
                            ret (None, a,
                                 mk_tls_Config (Certificates tlsConfig) (Some (resolver dc)),
                                 (started ++ [RenewEvery (24 * time.Hour) client account])%list)
                        end
                    end
                end
            end
        end
  end.

End CreateConfig.

(** ** The filesystem backend (backend/backends/fs/fs.go) *)

Module fs.

Definition backendName : string := "fs".

(** [type storage struct]; the lock is not modelled. *)
Record storage := { StorageDir : string }.

Record FileInfo := { Size : Z }.

(** The file system as [os.Stat] and [ioutil.ReadFile] see it, and
    [json.Unmarshal(file, &account)] on an account value. *)
Class FileSystem := {
  os_Stat : string → FileInfo + error;
  ioutil_ReadFile : string → bytes + error;
  json_Unmarshal : bytes → AccountValue → AccountValue + error
}.

(** [os.IsNotExist(err)]; it is false of a nil error. *)
Definition os_IsNotExist (err : option error) : bool :=
  match err with
  | Some (PathError _ _ ENOENT) => true
  | _ => false
  end.

Section Storage.
Context {lib : GoLib} {fsys : FileSystem}.

(** [func (s *storage) Name() string] *)
Definition Name (s : storage) : string := backendName.

(** [func (s *storage) key(domain string) string] *)
Definition key (s : storage) (domain : string) : string :=
  path_Join (StorageDir s) domain +:+ ".json".

(** [func (s *storage) LoadAccount(domain string)]; a nil account is [None]. *)
Definition LoadAccount (s : storage) (domain : string)
    : option AccountValue * option error :=
  let storageFile := key s domain in
  let stat := os_Stat storageFile in
  let err := match stat with inr e => Some e | inl _ => None end in
  if match stat with
     | inr _ => true
     | inl fileInfo => bool_decide (Size fileInfo = 0)
     end
  then
    if os_IsNotExist err then (None, None) else (None, err)
  else
    let account :=
      mkAccountValue EmptyString None [] (Some types.emptyDomainCertificate) in
    match ioutil_ReadFile storageFile with
    | inr err => (None, Some err)
    | inl file =>
        match json_Unmarshal file account with
        | inr err => (None, Some (wrapError "Error loading account: %v" err))
        | inl account => (Some account, None)
        end
    end.

End Storage.

End fs.

(** ** Package strings, for one-byte separators *)

(** [strings.Split(s, sep)] for a separator [sep] of one byte: the pieces of
    [s] between the separators; a string without separator, the empty string
    too, gives one piece. *)
Fixpoint strings_Split (sep : Ascii.ascii) (s : string) : list string :=
  match s with
  | EmptyString => [EmptyString]
  | String c rest =>
      if decide (c = sep) then EmptyString :: strings_Split sep rest
      else
        match strings_Split sep rest with
        | [] => [String c EmptyString]
        | piece :: pieces => String c piece :: pieces
        end
  end.

(** [strings.Join(elems, sep)] *)
Fixpoint strings_Join (elems : list string) (sep : string) : string :=
  match elems with
  | [] => EmptyString
  | [x] => x
  | x :: rest => x +:+ sep +:+ strings_Join rest sep
  end.

(** [s] holds no byte [c]. *)
Fixpoint free_of (c : Ascii.ascii) (s : string) : Prop :=
  match s with
  | EmptyString => True
  | String c' rest => c' ≠ c ∧ free_of c rest
  end.

(** ** The null backend (backend/backends/null) *)

Module null.

Definition backendName : string := "null".

(** [&types.Account{}]: every field zero, the [DomainsCertificate] pointer
    nil. *)
Definition emptyAccount : AccountValue := mkAccountValue EmptyString None [] None.

(** [type null struct{}] with its methods [Name], [SaveAccount] and
    [LoadAccount], as a [backend.Interface]. *)
Definition null : backend.Interface := {|
  backend.LoadAccount _ domain := (Some emptyAccount, None);
  backend.Name := backendName;
  backend.SaveAccount _ account := None
|}.

(** [func newBackend() (backend.Interface, error)] *)
Definition newBackend : backend.Factory := λ _, (Some null, None).

End null.

(** ** The filesystem backend, writing (backend/backends/fs/fs.go) *)

(** [json.MarshalIndent] on an account and [ioutil.WriteFile(name, data,
    0644)]; the latter answers with the error, if any, and the files as they
    are after the call. *)
Class FileWriter := {
  json_MarshalIndent : AccountValue → bytes + error;
  ioutil_WriteFile : gmap string bytes → string → bytes → option error * gmap string bytes
}.

(** Files by path and content, as [os.Stat] and [ioutil.ReadFile] see them: a
    path without file is [ENOENT]. *)
Definition filesOnDisk (unmarshal : bytes → AccountValue → AccountValue + error)
    (files : gmap string bytes) : fs.FileSystem := {|
  fs.os_Stat p :=
    match files !! p with
    | Some content => inl {| fs.Size := Z.of_nat (length content) |}
    | None => inr (PathError "stat" p ENOENT)
    end;
  fs.ioutil_ReadFile p :=
    match files !! p with
    | Some content => inl content
    | None => inr (PathError "open" p ENOENT)
    end;
  fs.json_Unmarshal := unmarshal
|}.

(** fs.go, [func (s *storage) SaveAccount(account *types.Account) error], on
    the files [files]. *)
Definition fs_SaveAccount {lib : GoLib} {fw : FileWriter} (s : fs.storage)
    (account : AccountValue) (files : gmap string bytes)
    : Res (option error * gmap string bytes) :=
  match json_MarshalIndent account with
  | inr err => Ret (Some err, files)
  | inl data =>
      match av_DomainsCertificate account with
      | None => Panic nil_dereference
      | Some dc =>
          match types.dc_Domain dc with
          | None => Panic nil_dereference
          | Some d =>
              Ret (ioutil_WriteFile files (fs.key s (types.Main d)) data)
          end
      end
  end.

(** ** The S3 backend (backend/backends/s3) *)

Module s3.

Definition backendName : string := "s3".
Definition awsBucketEnv : string := "AWS_BUCKET".
Definition awsEncryptKeyEnv : string := "AWS_ENCRYPTION_KEY".
Definition awsEncryptAlgEnv : string := "AWS_ENCRYPTION_ALG".
Definition awsErrorNotFound : string := "NoSuchKey".
Definition awsRegionEnv : string := "AWS_REGION".
Definition storageFilename : string := "cert.json".

(** The fields of [s3.GetObjectInput] and [s3.PutObjectInput] that the code
    sets; an unset [*string] is [None]. *)
Record ObjectInput := mkObjectInput {
  Body : option bytes;
  Bucket : option string;
  Key : option string;
  SSECustomerAlgorithm : option string;
  SSECustomerKey : option string;
  SSECustomerKeyMD5 : option string
}.

(** [s3.GetObjectOutput]: what [ioutil.ReadAll(resp.Body)] gives. *)
Record GetObjectOutput := { ReadAll : bytes + error }.

(** [type S3 interface] *)
Record S3 := {
  GetObject : ObjectInput → option GetObjectOutput * option error;
  PutObject : ObjectInput → option error
}.

(** An error of the AWS SDK: [code] is [awsErr.Code()] when the error is an
    [awserr.Error]. *)
Record SdkError := { code : option string; err : error }.

(** [func (s *awsSdkS3) GetObject]: [sdk] is [s.s3.GetObject]. *)
Definition awsSdkS3_GetObject (sdk : ObjectInput → GetObjectOutput + SdkError)
    (request : ObjectInput) : option GetObjectOutput * option error :=
  match sdk request with
  | inr e =>
      match code e with
      | Some c => if bool_decide (c = awsErrorNotFound) then (None, None) else (None, Some (err e))
      | None => (None, Some (err e))
      end
  | inl response => (Some response, None)
  end.

(** [type storage struct]; [client] is its field [s3], and the lock is not
    modelled. *)
Record storage := {
  bucket : string;
  encryptionAlgorithm : string;
  encryptionKey : string;
  client : S3
}.

(** [fmt.Sprintf("%x", md5.Sum(b))], [json.MarshalIndent], [json.Unmarshal]
    on an account, [json.Unmarshal] on the instance identity document, and
    [os.Getenv]. *)
Class Lib := {
  md5_hex : string → string;
  MarshalIndent : AccountValue → bytes + error;
  Unmarshal : bytes → AccountValue → AccountValue + error;
  Unmarshal_document : string → option error;
  Getenv : string → string
}.

(** The loop of [key]: [keySlice[l-idx] = part] for the parts from index
    [idx] on. *)
Fixpoint key_loop (l idx : nat) (parts keySlice : list string) : list string :=
  match parts with
  | [] => keySlice
  | part :: rest => key_loop l (S idx) rest (<[(l - idx)%nat := part]> keySlice)
  end.

(** [func key(domain string) string] *)
Definition key (domain : string) : string :=
  let parts := strings_Split "."%char domain in
  let keySlice := replicate (length parts) EmptyString in
  let l := (length parts - 1)%nat in
  let keySlice := key_loop l 0 parts keySlice in
  let keySlice := (keySlice ++ [storageFilename])%list in
  strings_Join keySlice "/".

(** Where a request points: bucket, key and the encryption parameters. *)
Definition address (req : ObjectInput)
    : option string * option string * option string * option string * option string :=
  (Bucket req, Key req, SSECustomerAlgorithm req, SSECustomerKey req, SSECustomerKeyMD5 req).

Section Storage.
Context {lib : Lib}.

(** The server-side encryption fields, set when both the algorithm and the
    key are configured. *)
Definition withSSE (s : storage) (req : ObjectInput) : ObjectInput :=
  if bool_decide (encryptionAlgorithm s ≠ EmptyString)
     && bool_decide (encryptionKey s ≠ EmptyString)
  then mkObjectInput (Body req) (Bucket req) (Key req)
         (Some (encryptionAlgorithm s)) (Some (encryptionKey s))
         (Some (md5_hex (encryptionKey s)))
  else req.

(** [func (s *storage) SaveAccount(account *types.Account) error] *)
Definition SaveAccount (s : storage) (account : AccountValue) : Res (option error) :=
  match MarshalIndent account with
  | inr err => Ret (Some err)
  | inl data =>
      match av_DomainsCertificate account with
      | None => Panic nil_dereference
      | Some dc =>
          match types.dc_Domain dc with
          | None => Panic nil_dereference
          | Some d =>
              let req := mkObjectInput (Some data) (Some (bucket s))
                           (Some (key (types.Main d))) None None None in
              let req := withSSE s req in
              Ret (PutObject (client s) req)
          end
      end
  end.

(** [func (s *storage) LoadAccount(domain string)] *)
Definition LoadAccount (s : storage) (domain : string)
    : option AccountValue * option error :=
  let req := mkObjectInput None (Some (bucket s)) (Some (key domain)) None None None in
  let req := withSSE s req in
  let (resp, err) := GetObject (client s) req in
  match err, resp with
  | Some _, _ | _, None => (None, err)
  | None, Some resp =>
      match ReadAll resp with
      | inr err => (None, Some err)
      | inl file =>
          let account :=
            mkAccountValue EmptyString None [] (Some types.emptyDomainCertificate) in
          match Unmarshal file account with
          | inr err => (None, Some (wrapError "Error loading account: %v" err))
          | inl account => (Some account, None)
          end
      end
  end.

(** [type EC2Metadata interface] and [type Services interface] *)
Record EC2Metadata := { GetMetadata : string → string + error }.
Record Services := {
  Metadata : EC2Metadata + error;
  Storage : string → S3 + error
}.

(** [func newBackend(awsServices Services)].  The instance identity document
    is decoded into [struct{ region string }]: [encoding/json] sets exported
    fields only, so [document.region] stays the empty string. *)
Definition newBackend (awsServices : Services) : storage + error :=
  let bucket := Getenv awsBucketEnv in
  if bool_decide (bucket = EmptyString) then inr (errorString "missing bucket name")
  else
    let region := Getenv awsRegionEnv in
    let region_or_error :=
      if bool_decide (region = EmptyString) then
        match Metadata awsServices with
        | inr err => inr (wrapError "error creating AWS metadata client: %v" err)
        | inl metadata =>
            match GetMetadata metadata "dynamic/instance-identity/document" with
            | inr err => inr (wrapError "error getting region: %v" err)
            | inl doc =>
                match Unmarshal_document doc with
                | Some err => inr (wrapError "error parsing region: %v" err)
                | None => inl EmptyString
                end
            end
        end
      else inl region in
    match region_or_error with
    | inr err => inr err
    | inl region =>
        match Storage awsServices region with
        | inr err => inr err
        | inl s3 =>
            inl {| bucket := bucket;
                   encryptionAlgorithm := Getenv awsEncryptAlgEnv;
                   encryptionKey := Getenv awsEncryptKeyEnv;
                   client := s3 |}
        end
    end.

End Storage.

End s3.

(** ** Counting calls *)

(** [w'] comes from [w] by [n] calls to the authority and [m] saves, and any
    number of other calls. *)
Definition cost (w w' : World) (n m : nat) : Prop :=
  authority_calls (trace w') = (authority_calls (trace w) + n)%nat
  ∧ saves (trace w') = (saves (trace w) + m)%nat.

(** ** A small model of the collaborators

    Concrete stand-ins for the Go library, the lego client and a backend, to
    run the code on concrete inputs.  A certificate segment is one byte: the
    number of days from the zero time to its expiry; an empty input does not
    parse (as [tls.X509KeyPair] and [x509.ParseCertificate] reject empty
    input). *)

Definition day : Duration := 24 * time.Hour.

Definition toyGoLib : GoLib := {|
  tls_X509KeyPair cert key :=
    match cert, key with
    | [], _ => inr (errorString "tls: failed to find any PEM data in certificate input")
    | _, [] => inr (errorString "tls: failed to find any PEM data in key input")
    | _, _ => inl (tls.mkCertificate (map (λ b, [b]) cert) (RSAKey key))
    end;
  x509_ParseCertificate der :=
    match der with
    | [] => inr (errorString "x509: malformed certificate")
    | b :: _ => inl {| x509.NotAfter := Z.of_N (Byte.to_N b) * day |}
    end;
  x509_MarshalPKCS1PrivateKey key := let 'RSAKey m := key in m;
  pem_EncodeToMemory _ b := b;
  path_Join dir name := dir +:+ "/" +:+ name
|}.

(** A client that answers every renewal and issuance with [renewed]. *)
Definition toyClient (renewed : lego.CertificateResource) : Client := {|
  client_Register _ := (Some (lego.Build_RegistrationResource "reg" "authz" "tos"), None);
  client_AgreeToTOS _ := None;
  client_ObtainCertificate _ _ _ := (renewed, []);
  client_RenewCertificate _ _ _ := inl renewed
|}.

(** A backend with no stored account whose saves answer [saveResult]. *)
Definition toyBackend (saveResult : option error) : backend.Interface := {|
  backend.LoadAccount _ _ := (None, None);
  backend.Name := "toy";
  backend.SaveAccount _ _ := saveResult
|}.

Definition toyRuntime : Runtime := {|
  rsa_GenerateKey _ _ := inl (RSAKey [Byte.x01]);
  rand_Int _ _ := inl 7;
  x509_CreateCertificate _ _ _ := inl [Byte.x0a];
  acme_NewClient _ _ _ _ :=
    inl (toyClient (lego.Build_CertificateResource "example.com" "u" "s"
                      [Byte.x01] [Byte.x5a]));
  NewDNSProvider _ package := inl (DNSProvider package);
  backends := {[ "toy" := (λ _, (Some (toyBackend None), None)) ]}
|}.

(** The clock stands at the zero time. *)
Definition toyClock : Clock := λ _, 0.

Definition exampleDomain : types.Domain := types.mkDomain "example.com" None.

(** A certificate with 90 days left and its parsed form. *)
Definition goodCert : types.Certificate :=
  types.mkCertificate "example.com" "url" "stable" [Byte.x01] [Byte.x5a].
Definition goodTLS : tls.Certificate :=
  tls.mkCertificate [[Byte.x5a]] (RSAKey [Byte.x01]).

(** A certificate with 3 days left and its parsed form. *)
Definition staleCert : types.Certificate :=
  types.mkCertificate "example.com" "url" "stable" [Byte.x01] [Byte.x03].
Definition staleTLS : tls.Certificate :=
  tls.mkCertificate [[Byte.x03]] (RSAKey [Byte.x01]).

(** Certificate bytes that do not parse. *)
Definition brokenCert : types.Certificate :=
  types.mkCertificate "example.com" "url" "stable" [Byte.x01] [].

(** A certificate issued for another domain. *)
Definition foreignCert : types.Certificate :=
  types.mkCertificate "other.org" "url2" "stable2" [Byte.x02] [Byte.x5a].
Definition foreignTLS : tls.Certificate :=
  tls.mkCertificate [[Byte.x5a]] (RSAKey [Byte.x02]).

Definition goodDC : types.DomainCertificate :=
  types.mkDomainCertificate (Some goodCert) (Some exampleDomain) (Some goodTLS).
Definition staleDC : types.DomainCertificate :=
  types.mkDomainCertificate (Some staleCert) (Some exampleDomain) (Some staleTLS).

Definition exampleAccount : types.Account :=
  types.mkAccount "admin@example.com" None [Byte.x09] (Some 1%positive).

Definition toyLogger : logger.Interface := logger.Custom "toy".

Definition exampleACME (saveResult : option error) : ACME :=
  mkACME (Some (toyBackend saveResult)) (Some exampleDomain) (Some toyLogger) "toy"
    EmptyString "route53" "admin@example.com" false.

(** The example object after the foreign certificate has been attached, and
    the account as saved then. *)
Definition foreignDC : types.DomainCertificate :=
  types.mkDomainCertificate (Some foreignCert) (Some exampleDomain) (Some foreignTLS).

Definition foreignSaved : AccountValue :=
  mkAccountValue "admin@example.com" None [Byte.x09] (Some foreignDC).

(** The [DomainCertificate] of a new account. *)
Definition newDC : types.DomainCertificate :=
  types.mkDomainCertificate (Some types.emptyCertificate) (Some exampleDomain) None.

(** A file system given by the content of its files; every JSON document
    decodes to the account value it is decoded into. *)
Definition toyFileSystem (files : gmap string bytes) : fs.FileSystem := {|
  fs.os_Stat p :=
    match files !! p with
    | Some content => inl {| fs.Size := Z.of_nat (length content) |}
    | None => inr (PathError "stat" p ENOENT)
    end;
  fs.ioutil_ReadFile p :=
    match files !! p with
    | Some content => inl content
    | None => inr (PathError "open" p ENOENT)
    end;
  fs.json_Unmarshal _ account := inl account
|}.

Definition exampleStorage : fs.storage := {| fs.StorageDir := "/var/lib/acme" |}.

(** Configurations for a first boot on the toy backend: with an empty main
    domain, with a provider name that is no case of the switch, and a valid
    one. *)
Definition emptyDomainACME : ACME :=
  mkACME None (Some (types.mkDomain EmptyString None)) None "toy" EmptyString "route53"
    "admin@example.com" false.

Definition unknownProviderACME : ACME :=
  mkACME None (Some exampleDomain) None "toy" EmptyString "bogus" "admin@example.com" false.

Definition bootACME : ACME :=
  mkACME None (Some exampleDomain) None "toy" EmptyString "route53" "admin@example.com" false.

(** A writer that encodes every account as "{}" and whose writes succeed. *)
Definition toyFileWriter : FileWriter := {|
  json_MarshalIndent _ := inl [Byte.x7b; Byte.x7d];
  ioutil_WriteFile files name data := (None, <[name := data]> files)
|}.

(** The example account with its certificate, as a backend sees it. *)
Definition goodSaved : AccountValue :=
  mkAccountValue "admin@example.com" None [Byte.x09] (Some goodDC).

(** An S3 whose every object reads as "{}", a library whose decoder returns
    the value it decodes into and whose environment sets the bucket only, and
    a storage on them with encryption configured. *)
Definition toyS3 : s3.S3 := {|
  s3.GetObject _ := (Some {| s3.ReadAll := inl [Byte.x7b; Byte.x7d] |}, None);
  s3.PutObject _ := None
|}.

Definition toyS3Lib : s3.Lib := {|
  s3.md5_hex k := "md5:" +:+ k;
  s3.MarshalIndent _ := inl [Byte.x7b; Byte.x7d];
  s3.Unmarshal _ account := inl account;
  s3.Unmarshal_document _ := None;
  s3.Getenv name := if bool_decide (name = "AWS_BUCKET") then "certs" else EmptyString
|}.

Definition toyS3Storage : s3.storage := {|
  s3.bucket := "certs";
  s3.encryptionAlgorithm := "AES256";
  s3.encryptionKey := "secret";
  s3.client := toyS3
|}.

(** A storage on the SDK client, for an SDK that finds no object. *)
Definition emptyBucketStorage : s3.storage := {|
  s3.bucket := "certs";
  s3.encryptionAlgorithm := EmptyString;
  s3.encryptionKey := EmptyString;
  s3.client := {|
    s3.GetObject :=
      s3.awsSdkS3_GetObject
        (λ _, inr {| s3.code := Some "NoSuchKey";
                     s3.err := errorString "NoSuchKey: The specified key does not exist." |});
    s3.PutObject _ := None |}
|}.

(** AWS services whose metadata document names a region. *)
Definition toyServices : s3.Services := {|
  s3.Metadata := inl {| s3.GetMetadata _ := inl "{region: eu-west-1}" |};
  s3.Storage region :=
    if bool_decide (region = EmptyString) then inl toyS3
    else inr (errorString "unexpected region")
|}.

(** A client whose renewals and issuances fail with [e]. *)
Definition failingClient (e : error) : Client := {|
  client_Register _ := (None, Some e);
  client_AgreeToTOS _ := Some e;
  client_ObtainCertificate _ domains _ :=
    (to_resource types.emptyCertificate, map (λ d, (d, e)) domains);
  client_RenewCertificate _ _ _ := inr e
|}.

(** A backend that holds the account [stored], and the toy runtime with this
    backend registered as "stored", or with the null backend registered. *)
Definition storedBackend (stored : AccountValue) : backend.Interface := {|
  backend.LoadAccount _ _ := (Some stored, None);
  backend.Name := "stored";
  backend.SaveAccount _ _ := None
|}.

Definition withBackends (registry : gmap string backend.Factory) : Runtime := {|
  rsa_GenerateKey := rsa_GenerateKey (Runtime := toyRuntime);
  rand_Int := rand_Int (Runtime := toyRuntime);
  x509_CreateCertificate := x509_CreateCertificate (Runtime := toyRuntime);
  acme_NewClient := acme_NewClient (Runtime := toyRuntime);
  NewDNSProvider := NewDNSProvider (Runtime := toyRuntime);
  backends := registry
|}.

Definition storedRuntime (stored : AccountValue) : Runtime :=
  withBackends {[ "stored" := (λ _, (Some (storedBackend stored), None)) ]}.

Definition nullRuntime : Runtime := withBackends {[ "null" := null.newBackend ]}.

(** The example account as a backend stores it: without the TLS object; and
    a stored account whose certificate bytes do not parse. *)
Definition goodStored : AccountValue :=
  mkAccountValue "admin@example.com" None [Byte.x09]
    (Some (types.mkDomainCertificate (Some goodCert) (Some exampleDomain) None)).

Definition brokenStored : AccountValue :=
  mkAccountValue "admin@example.com" None [Byte.x09]
    (Some (types.mkDomainCertificate (Some brokenCert) (Some exampleDomain) None)).

(** Configurations: for the backend "stored", for the null backend, with the
    default backend, and in self-signed mode. *)
Definition storedACME : ACME :=
  mkACME None (Some exampleDomain) (Some toyLogger) "stored" EmptyString "route53"
    "admin@example.com" false.

Definition nullACME : ACME :=
  mkACME None (Some exampleDomain) None "null" EmptyString "route53" "admin@example.com"
    false.

Definition defaultBackendACME : ACME :=
  mkACME None (Some exampleDomain) None EmptyString EmptyString "route53"
    "admin@example.com"
    false.

Definition selfSignedACME : ACME :=
  mkACME None (Some exampleDomain) None EmptyString EmptyString EmptyString EmptyString
    true.

(** * Properties *)

Section TypesProperties.
Context {lib : GoLib}.

Lemma load_allocated (h : gmap loc types.DomainCertificate) l v :
  h !! l = Some v → types.load (Some l) h = Ret (v, h).
Proof. intros Hl. unfold types.load. simpl. by rewrite Hl. Qed.

Lemma update_allocated (h : gmap loc types.DomainCertificate) l v f :
  h !! l = Some v → types.update (Some l) f h = Ret (tt, <[l := f v]> h).
Proof. intros Hl. unfold types.update. by rewrite Hl. Qed.

(** [Init] on an allocated object holding certificate [c]: the parse decides
    the outcome. *)
Lemma Init_allocated (h : gmap loc types.DomainCertificate) l v c :
  h !! l = Some v → types.dc_Certificate v = Some c →
  types.Init (Some l) h =
    match tls_X509KeyPair (types.cert_Cert c) (types.cert_PrivateKey c) with
    | inl t => Ret (None, <[l := types.set_TLSCert (Some t) v]> h)
    | inr e => Ret (Some e, h)
    end.
Proof.
  intros Hl Hc. unfold types.Init, types.tlsCert, bind.
  rewrite (load_allocated _ _ _ Hl), Hc.
  destruct (tls_X509KeyPair _ _) as [t|e]; unfold ret; [|done].
  by rewrite (update_allocated _ _ _ _ Hl).
Qed.

End TypesProperties.

Section CertificateAssignment.
Context {lib : GoLib}.

Lemma AddCertificate_allocated (h : gmap loc types.DomainCertificate) l v c domain :
  h !! l = Some v →
  types.AddCertificate (Some l) (Some c) domain h =
    match tls_X509KeyPair (types.cert_Cert c) (types.cert_PrivateKey c) with
    | inl t => Ret (None, <[l := types.mkDomainCertificate (Some c) domain (Some t)]> h)
    | inr e =>
        Ret (Some e, <[l := types.mkDomainCertificate (Some c) domain (types.dc_TLSCert v)]> h)
    end.
Proof.
  intros Hl. unfold types.AddCertificate, bind.
  rewrite (update_allocated _ _ _ _ Hl).
  erewrite update_allocated by apply lookup_insert_eq.
  rewrite insert_insert_eq.
  erewrite Init_allocated; [|apply lookup_insert_eq|reflexivity].
  destruct (tls_X509KeyPair _ _); [|done].
  by rewrite insert_insert_eq.
Qed.

Lemma RenewCertificate_same_domain (h : gmap loc types.DomainCertificate) l v c :
  h !! l = Some v →
  types.RenewCertificate (Some l) (Some c) (types.dc_Domain v) h =
    match tls_X509KeyPair (types.cert_Cert c) (types.cert_PrivateKey c) with
    | inl t =>
        Ret (None, <[l := types.mkDomainCertificate (Some c) (types.dc_Domain v) (Some t)]> h)
    | inr e =>
        Ret (Some e, <[l := types.mkDomainCertificate (Some c) (types.dc_Domain v)
                                (types.dc_TLSCert v)]> h)
    end.
Proof.
  intros Hl. unfold types.RenewCertificate, bind.
  rewrite (load_allocated _ _ _ Hl).
  unfold types.DeepEqual. rewrite bool_decide_eq_true_2 by done.
  rewrite (update_allocated _ _ _ _ Hl).
  erewrite Init_allocated; [|apply lookup_insert_eq|reflexivity].
  destruct (tls_X509KeyPair _ _); [|done].
  by rewrite insert_insert_eq.
Qed.

End CertificateAssignment.

(** ** C1: the derived TLS object after an assignment to [Certificate] *)

(** C1, amended.  On an allocated [DomainCertificate], [AddCertificate],
    [RenewCertificate] (called with the recorded domain) and [Init] do this:
    when the current [Certificate] bytes parse as a key pair, the call returns
    no error and [TLSCert] is the parse of exactly these bytes; when they do
    not parse, the call returns the parse error, [Certificate] holds the
    assigned bytes and [TLSCert] is what it was before the call. *)
Theorem TLSCert_after_assignment {lib : GoLib} (h : gmap loc types.DomainCertificate)
    l v c domain :
  h !! l = Some v →
  match tls_X509KeyPair (types.cert_Cert c) (types.cert_PrivateKey c) with
  | inl t =>
      types.AddCertificate (Some l) (Some c) domain h
        = Ret (None, <[l := types.mkDomainCertificate (Some c) domain (Some t)]> h)
      ∧ types.RenewCertificate (Some l) (Some c) (types.dc_Domain v) h
        = Ret (None, <[l := types.mkDomainCertificate (Some c) (types.dc_Domain v)
                               (Some t)]> h)
      ∧ (types.dc_Certificate v = Some c →
         types.Init (Some l) h
         = Ret (None, <[l := types.mkDomainCertificate (Some c) (types.dc_Domain v)
                                (Some t)]> h))
  | inr e =>
      types.AddCertificate (Some l) (Some c) domain h
        = Ret (Some e, <[l := types.mkDomainCertificate (Some c) domain
                                 (types.dc_TLSCert v)]> h)
      ∧ types.RenewCertificate (Some l) (Some c) (types.dc_Domain v) h
        = Ret (Some e, <[l := types.mkDomainCertificate (Some c) (types.dc_Domain v)
                                 (types.dc_TLSCert v)]> h)
      ∧ (types.dc_Certificate v = Some c → types.Init (Some l) h = Ret (Some e, h))
  end.
Proof.
  intros Hl.
  pose proof (AddCertificate_allocated h l v c domain Hl) as HA.
  pose proof (RenewCertificate_same_domain h l v c Hl) as HR.
  pose proof (Init_allocated h l v c Hl) as HI.
  destruct (tls_X509KeyPair _ _) as [t|e]; (split; [exact HA|split; [exact HR|]]).
  - intros Hc. rewrite (HI Hc). by destruct v; simplify_eq/=.
  - intros Hc. exact (HI Hc).
Qed.

Lemma TLSCert_after_assignment_witness :
  let h : gmap loc types.DomainCertificate := {[1%positive := goodDC]} in
  h !! 1%positive = Some goodDC
  ∧ types.AddCertificate (lib := toyGoLib) (Some 1%positive) (Some goodCert)
      (Some exampleDomain) h = Ret (None, <[1%positive := goodDC]> h)
  ∧ types.RenewCertificate (lib := toyGoLib) (Some 1%positive) (Some goodCert)
      (Some exampleDomain) h = Ret (None, <[1%positive := goodDC]> h)
  ∧ types.Init (lib := toyGoLib) (Some 1%positive) h
    = Ret (None, <[1%positive := goodDC]> h).
Proof.
  cbv zeta.
  assert (Hl : ({[1%positive := goodDC]} : gmap loc types.DomainCertificate) !! 1%positive
               = Some goodDC) by reflexivity.
  split; [exact Hl|].
  destruct (TLSCert_after_assignment (lib := toyGoLib) {[1%positive := goodDC]}
              1%positive goodDC goodCert (Some exampleDomain) Hl)
    as (HAdd & HRenew & HInit).
  split; [exact HAdd|]. split; [exact HRenew|]. exact (HInit eq_refl).
Defined.

(** C1 as stated fails: [RenewCertificate] and [AddCertificate] with bytes
    that do not parse, on an object that holds a parsed certificate, return the
    parse error and leave the object with the new raw bytes next to the TLS
    object parsed from the old ones. *)
Lemma assignment_unparsable_diverges :
  let err := errorString "tls: failed to find any PEM data in certificate input" in
  let h : gmap loc types.DomainCertificate := {[1%positive := staleDC]} in
  let after := types.mkDomainCertificate (Some brokenCert) (Some exampleDomain)
                 (Some staleTLS) in
  types.RenewCertificate (lib := toyGoLib) (Some 1%positive) (Some brokenCert)
    (Some exampleDomain) h = Ret (Some err, <[1%positive := after]> h)
  ∧ types.AddCertificate (lib := toyGoLib) (Some 1%positive) (Some brokenCert)
      (Some exampleDomain) h = Ret (Some err, <[1%positive := after]> h)
  ∧ (<[1%positive := after]> h) !! 1%positive = Some after
  ∧ types.dc_TLSCert after = Some staleTLS
  ∧ tls_X509KeyPair (GoLib := toyGoLib) (types.cert_Cert brokenCert)
      (types.cert_PrivateKey brokenCert) = inr err
  ∧ tls_X509KeyPair (GoLib := toyGoLib) (types.cert_Cert staleCert)
      (types.cert_PrivateKey staleCert) = inl staleTLS.
Proof.
  cbv zeta. split; [|split; [|by repeat split]].
  - exact (RenewCertificate_same_domain (lib := toyGoLib) {[1%positive := staleDC]}
             1%positive staleDC brokenCert eq_refl).
  - exact (AddCertificate_allocated (lib := toyGoLib) {[1%positive := staleDC]}
             1%positive staleDC brokenCert (Some exampleDomain) eq_refl).
Qed.

(** ** C4: [RenewCertificate] with another domain *)

(** C4, amended.  [RenewCertificate] compares its [domain] argument, not the
    [Domain] field of the certificate, with the recorded [Domain]: called with
    a non-nil [domain] that is not deeply equal to the recorded one, it returns
    the error "Certificate to renew not found for domain ..." and leaves the
    whole [DomainCertificate] as it was. *)
Theorem RenewCertificate_other_domain {lib : GoLib} (h : gmap loc types.DomainCertificate)
    l v acmeCert d :
  h !! l = Some v →
  types.DeepEqual (Some d) (types.dc_Domain v) = false →
  types.RenewCertificate (Some l) acmeCert (Some d) h
  = Ret (Some (errorString ("Certificate to renew not found for domain " +:+ types.Main d)),
         h).
Proof.
  intros Hl Hd. unfold types.RenewCertificate, bind.
  by rewrite (load_allocated _ _ _ Hl), Hd.
Qed.

Lemma RenewCertificate_other_domain_witness :
  ({[1%positive := goodDC]} : gmap loc types.DomainCertificate) !! 1%positive = Some goodDC
  ∧ types.DeepEqual (Some (types.mkDomain "other.org" None)) (types.dc_Domain goodDC) = false
  ∧ types.RenewCertificate (lib := toyGoLib) (Some 1%positive) (Some foreignCert)
      (Some (types.mkDomain "other.org" None)) {[1%positive := goodDC]}
    = Ret (Some (errorString "Certificate to renew not found for domain other.org"),
           {[1%positive := goodDC]}).
Proof.
  split; [reflexivity|split; [reflexivity|]].
  exact (RenewCertificate_other_domain (lib := toyGoLib) {[1%positive := goodDC]} 1%positive
           goodDC (Some foreignCert) (types.mkDomain "other.org" None) eq_refl eq_refl).
Defined.

(** C4 as stated fails: a certificate whose [Domain] field is "other.org",
    passed with the recorded domain "example.com", replaces the existing
    certificate and no error is returned. *)
Lemma RenewCertificate_foreign_certificate_attached :
  let after := types.mkDomainCertificate (Some foreignCert) (Some exampleDomain)
                 (Some foreignTLS) in
  types.cert_Domain foreignCert ≠ types.Main exampleDomain
  ∧ types.RenewCertificate (lib := toyGoLib) (Some 1%positive) (Some foreignCert)
      (Some exampleDomain) {[1%positive := goodDC]}
    = Ret (None, <[1%positive := after]> {[1%positive := goodDC]})
  ∧ (<[1%positive := after]> {[1%positive := goodDC]} : gmap loc _) !! 1%positive = Some after.
Proof.
  cbv zeta. split; [done|]. split; [|done].
  exact (RenewCertificate_same_domain (lib := toyGoLib) {[1%positive := goodDC]}
           1%positive goodDC foreignCert eq_refl).
Qed.

(** A nil [domain] against a recorded domain is a nil dereference when the
    error message is built. *)
Lemma RenewCertificate_nil_domain_panics {lib : GoLib} (h : gmap loc types.DomainCertificate)
    l v acmeCert :
  h !! l = Some v → is_Some (types.dc_Domain v) →
  types.RenewCertificate (Some l) acmeCert None h = Panic nil_dereference.
Proof.
  intros Hl [d Hd]. unfold types.RenewCertificate, bind.
  rewrite (load_allocated _ _ _ Hl), Hd. done.
Qed.

(** ** C2: the expiration policy *)

Section ExpirationPolicy.
Context {lib : GoLib}.

(** The loop with its clock readings: it answers true exactly when some
    segment does not parse, or expires less than 7 days after the reading
    taken for it. *)
Lemma needsUpdate_range_true (clock : Clock) (chain : list bytes) (k : nat) :
  needsUpdate_range clock k chain = true ↔
  ∃ (i : nat) (c : bytes), chain !! i = Some c ∧
    match x509_ParseCertificate c with
    | inr _ => True
    | inl crt => x509.NotAfter crt < clock (k + i)%nat + 7 * (24 * time.Hour)
    end.
Proof.
  revert k. induction chain as [|c rest IH]; intros k; simpl.
  - split; [done|]. by intros (i & c & Hi & _).
  - destruct (x509_ParseCertificate c) as [crt|e] eqn:Hp.
    + unfold time.Before, time.Add. case_bool_decide as Hlt.
      * split; [intros _|done]. exists 0%nat, c. rewrite Hp, Nat.add_0_r.
        split; [done|lia].
      * rewrite IH. split.
        -- intros (i & c' & Hi & Hd). exists (S i), c'. split; [done|].
           replace (k + S i)%nat with (S k + i)%nat by lia. exact Hd.
        -- intros ([|i] & c' & Hi & Hd); simplify_eq/=.
           ++ rewrite Hp, Nat.add_0_r in Hd. lia.
           ++ exists i, c'. split; [done|].
              replace (k + S i)%nat with (S k + i)%nat in Hd by lia. exact Hd.
    + split; [intros _|done]. exists 0%nat, c. by rewrite Hp.
Qed.

End ExpirationPolicy.

(** C2.  With the clock standing at [now] during the call, [needsUpdate]
    returns true if and only if some segment of the chain fails to parse or
    some parsed segment has [NotAfter] strictly before [now] + 7 days, and it
    returns false exactly when every segment parses with [NotAfter] at or
    after [now] + 7 days. *)
Theorem needsUpdate_iff {lib : GoLib} (now : Time) (cert : tls.Certificate) :
  (needsUpdate (λ _, now) (Some cert) = Ret true ↔
   Exists (λ c, (∃ e, x509_ParseCertificate c = inr e)
                ∨ (∃ crt, x509_ParseCertificate c = inl crt
                          ∧ x509.NotAfter crt < now + 7 * (24 * time.Hour)))
          (tls.Certificate_chain cert))
  ∧ (needsUpdate (λ _, now) (Some cert) = Ret false ↔
     Forall (λ c, ∃ crt, x509_ParseCertificate c = inl crt
                         ∧ now + 7 * (24 * time.Hour) ≤ x509.NotAfter crt)
            (tls.Certificate_chain cert)).
Proof.
  assert (Htrue : needsUpdate_range (λ _, now) 0 (tls.Certificate_chain cert) = true ↔
    Exists (λ c, (∃ e, x509_ParseCertificate c = inr e)
                 ∨ (∃ crt, x509_ParseCertificate c = inl crt
                           ∧ x509.NotAfter crt < now + 7 * (24 * time.Hour)))
           (tls.Certificate_chain cert)).
  { rewrite needsUpdate_range_true, Exists_exists. split.
    - intros (i & c & Hi & Hd). exists c. split; [by eapply list_elem_of_lookup_2|].
      destruct (x509_ParseCertificate c) as [crt|e]; [right|left]; eauto.
    - intros (c & Hc & Hd). apply list_elem_of_lookup_1 in Hc as [i Hi].
      exists i, c. split; [done|].
      destruct Hd as [[e ->]|(crt & -> & Hlt)]; done. }
  unfold needsUpdate. split.
  - rewrite <- Htrue. split; [by intros [=]|by intros ->].
  - transitivity (needsUpdate_range (λ _, now) 0 (tls.Certificate_chain cert) ≠ true).
    { destruct (needsUpdate_range _ _ _); split; done || by intros [=]. }
    rewrite Htrue, <- Forall_Exists_neg. apply Forall_iff. intros c. split.
    + intros Hn. destruct (x509_ParseCertificate c) as [crt|e] eqn:Hp.
      * exists crt. split; [done|].
        destruct (decide (x509.NotAfter crt < now + 7 * (24 * time.Hour))); [|lia].
        destruct Hn. right. eauto.
      * destruct Hn. left. eauto.
    + intros (crt & Hp & Hge) [[e He]|(crt' & Hp' & Hlt)]; rewrite Hp in *; [done|].
      injection Hp' as <-. lia.
Qed.

Example needsUpdate_fresh :
  needsUpdate (lib := toyGoLib) toyClock (Some goodTLS) = Ret false.
Proof. reflexivity. Qed.

Example needsUpdate_stale :
  needsUpdate (lib := toyGoLib) toyClock (Some staleTLS) = Ret true.
Proof. reflexivity. Qed.

(** ** Renewal and issuance *)

Section Renewal.
Context {lib : GoLib}.

Lemma liftHeap_load w l v :
  heap w !! l = Some v → liftHeap (types.load (Some l)) w = Ret (v, w).
Proof.
  intros Hl. unfold liftHeap. rewrite (load_allocated _ _ _ Hl). by destruct w.
Qed.

Lemma snapshot_allocated account w l v :
  types.acct_DomainsCertificate account = Some l → heap w !! l = Some v →
  snapshot account w =
    Ret (mkAccountValue (types.acct_Email account) (types.acct_Registration account)
           (types.acct_PrivateKey account) (Some v), w).
Proof. intros Hdc Hl. unfold snapshot. rewrite Hdc. simpl. by rewrite Hl. Qed.

(** A fresh certificate: nothing is called, nothing changes. *)
Lemma renewCertificate_fresh clock a client account w l v :
  types.acct_DomainsCertificate account = Some l →
  heap w !! l = Some v →
  needsUpdate clock (types.dc_TLSCert v) = Ret false →
  renewCertificate clock a client account w = Ret (None, w).
Proof.
  intros Hdc Hl Hfresh. unfold renewCertificate, bind.
  by rewrite Hdc, (liftHeap_load _ _ _ Hl), Hfresh.
Qed.

(** Issuance that succeeds up to the save. *)
Lemma retrieveCertificate_issued a client account w l v d b r t :
  types.acct_DomainsCertificate account = Some l →
  heap w !! l = Some v →
  acme_Domain a = Some d →
  acme_backend a = Some b →
  client_ObtainCertificate client (trace w)
    (types.Main d :: slice_elems (types.SANs d)) bundleCA = (r, []) →
  tls_X509KeyPair (lego.Certificate r) (lego.PrivateKey r) = inl t →
  retrieveCertificate a client account w =
    let tr := (trace w ++ [EvObtainCertificate
                             (types.Main d :: slice_elems (types.SANs d)) bundleCA])%list in
    let v' := types.mkDomainCertificate (Some (of_resource r)) (Some d) (Some t) in
    let av := mkAccountValue (types.acct_Email account) (types.acct_Registration account)
                (types.acct_PrivateKey account) (Some v') in
    let w' := mkWorld (<[l := v']> (heap w)) (tr ++ [EvSaveAccount (backend.Name b) av]) in
    match backend.SaveAccount b tr av with
    | Some e => Ret ((None, Some (wrapError "Error Saving ACME account %+v: %s" e)), w')
    | None => Ret ((Some t, None), w')
    end.
Proof.
  intros Hdc Hl Hd Hb Hr Ht. unfold retrieveCertificate, getDomainCertificate, bind.
  rewrite Hd. cbv zeta. simpl app. unfold call at 1. rewrite Hr. simpl.
  rewrite Hdc. unfold liftHeap at 1. simpl heap.
  rewrite (AddCertificate_allocated _ _ _ _ _ Hl).
  cbn [types.cert_Cert types.cert_PrivateKey of_resource]. rewrite Ht. simpl.
  rewrite Hb. unfold backend_SaveAccount, bind.
  erewrite snapshot_allocated; [|done|apply lookup_insert_eq].
  unfold call. simpl. destruct (backend.SaveAccount _ _ _); [done|].
  erewrite liftHeap_load by apply lookup_insert_eq. done.
Qed.

End Renewal.

(** ** C7: renewal of a fresh certificate *)

(** C7.  When [needsUpdate] answers false for the account's certificate,
    [renewCertificate] returns no error and leaves the whole process state as
    it was: the heap is unchanged and the trace gets no call, neither to the
    client nor to the backend.  Two calls in succession on a certificate that
    is fresh at both times leave the trace as it was: the second call makes no
    authority call. *)
Theorem renewCertificate_fresh_noop {lib : GoLib} (clock1 clock2 : Clock) a client account w l v :
  types.acct_DomainsCertificate account = Some l →
  heap w !! l = Some v →
  needsUpdate clock1 (types.dc_TLSCert v) = Ret false →
  renewCertificate clock1 a client account w = Ret (None, w)
  ∧ (needsUpdate clock2 (types.dc_TLSCert v) = Ret false →
     ∃ w1 w2,
       renewCertificate clock1 a client account w = Ret (None, w1)
       ∧ renewCertificate clock2 a client account w1 = Ret (None, w2)
       ∧ heap w2 = heap w
       ∧ trace w2 = trace w1
       ∧ authority_calls (trace w2) = authority_calls (trace w1)).
Proof.
  intros Hdc Hl H1.
  pose proof (renewCertificate_fresh clock1 a client account w l v Hdc Hl H1) as Hfirst.
  split; [done|]. intros H2. exists w, w. split; [done|]. split; [|done].
  by apply (renewCertificate_fresh clock2 a client account w l v).
Qed.

Lemma renewCertificate_fresh_noop_witness :
  let w := mkWorld {[1%positive := goodDC]} [] in
  let renew := renewCertificate (lib := toyGoLib) toyClock (exampleACME None)
                 (toyClient (to_resource staleCert)) exampleAccount in
  renew w = Ret (None, w)
  ∧ ∃ w1 w2, renew w = Ret (None, w1) ∧ renew w1 = Ret (None, w2)
             ∧ heap w2 = heap w ∧ trace w2 = trace w1
             ∧ authority_calls (trace w2) = authority_calls (trace w1).
Proof.
  cbv zeta.
  assert (Hl : heap (mkWorld {[1%positive := goodDC]} []) !! 1%positive = Some goodDC)
    by reflexivity.
  destruct (renewCertificate_fresh_noop (lib := toyGoLib) toyClock toyClock
              (exampleACME None) (toyClient (to_resource staleCert)) exampleAccount
              (mkWorld {[1%positive := goodDC]} []) 1%positive goodDC
              eq_refl Hl eq_refl) as [Hfirst Htwice].
  split; [exact Hfirst|]. exact (Htwice eq_refl).
Defined.

(** A certificate with 3 days left is renewed by the first call, with one call
    to the client and one save; the second call finds the new certificate
    fresh and calls nothing. *)
Example renewCertificate_twice_after_renewal :
  ∃ w1,
    renewCertificate (lib := toyGoLib) toyClock (exampleACME None)
      (toyClient (to_resource goodCert)) exampleAccount
      (mkWorld {[1%positive := staleDC]} []) = Ret (None, w1)
    ∧ heap w1 !! 1%positive = Some goodDC
    ∧ authority_calls (trace w1) = 1%nat
    ∧ saves (trace w1) = 1%nat
    ∧ renewCertificate (lib := toyGoLib) toyClock (exampleACME None)
        (toyClient (to_resource goodCert)) exampleAccount w1 = Ret (None, w1).
Proof. eexists. split; [vm_compute; reflexivity|]. repeat split; vm_compute; reflexivity. Qed.

(** ** C3: the domain of a renewed certificate *)

(** C3, amended.  [renewCertificate] hands the recorded [Domain] of the
    [DomainCertificate] itself to [RenewCertificate], so the comparison of
    domains cannot fail and the domain of the renewed resource is compared with
    nothing.  When a certificate is due and the client answers with a renewed
    resource [r], whatever its domain: if the bytes of [r] parse as a key
    pair, [r] becomes the account's certificate, the account is saved and the
    result is the result of the save; if they do not parse, the parse error is
    returned. *)
Theorem renewCertificate_attaches_any_domain {lib : GoLib} (clock : Clock) a client account
    w l v c r b :
  types.acct_DomainsCertificate account = Some l →
  heap w !! l = Some v →
  needsUpdate clock (types.dc_TLSCert v) = Ret true →
  types.dc_Certificate v = Some c →
  client_RenewCertificate client (trace w) (to_resource c) false = inl r →
  acme_backend a = Some b →
  renewCertificate clock a client account w =
    let tr := (trace w ++ [EvRenewCertificate (to_resource c) false])%list in
    match tls_X509KeyPair (lego.Certificate r) (lego.PrivateKey r) with
    | inr e =>
        Ret (Some e,
             mkWorld (<[l := types.mkDomainCertificate (Some (of_resource r))
                               (types.dc_Domain v) (types.dc_TLSCert v)]> (heap w)) tr)
    | inl t =>
        let v' := types.mkDomainCertificate (Some (of_resource r)) (types.dc_Domain v)
                    (Some t) in
        let av := mkAccountValue (types.acct_Email account)
                    (types.acct_Registration account) (types.acct_PrivateKey account)
                    (Some v') in
        Ret (backend.SaveAccount b tr av,
             mkWorld (<[l := v']> (heap w)) (tr ++ [EvSaveAccount (backend.Name b) av]))
    end.
Proof.
  intros Hdc Hl Hdue Hc Hr Hb. unfold renewCertificate, bind.
  rewrite Hdc, (liftHeap_load _ _ _ Hl), Hdue, Hc.
  unfold call at 1. rewrite Hr. cbv zeta.
  rewrite (liftHeap_load _ l v) by done.
  unfold liftHeap at 1. simpl heap.
  rewrite (RenewCertificate_same_domain _ _ _ _ Hl). simpl.
  destruct (tls_X509KeyPair _ _) as [t|e]; [|done].
  rewrite Hb. unfold backend_SaveAccount, bind.
  erewrite snapshot_allocated; [|done|apply lookup_insert_eq].
  unfold call. simpl. by destruct (backend.SaveAccount _ _ _).
Qed.

Lemma renewCertificate_attaches_any_domain_witness :
  renewCertificate (lib := toyGoLib) toyClock (exampleACME None)
    (toyClient (to_resource foreignCert)) exampleAccount
    (mkWorld {[1%positive := staleDC]} [])
  = Ret (None,
         mkWorld (<[1%positive := foreignDC]> {[1%positive := staleDC]})
           [EvRenewCertificate (to_resource staleCert) false;
            EvSaveAccount "toy" foreignSaved]).
Proof.
  exact (renewCertificate_attaches_any_domain (lib := toyGoLib) toyClock (exampleACME None)
           (toyClient (to_resource foreignCert)) exampleAccount
           (mkWorld {[1%positive := staleDC]} []) 1%positive staleDC staleCert
           (to_resource foreignCert) (toyBackend None)
           eq_refl eq_refl eq_refl eq_refl eq_refl eq_refl).
Defined.

(** C3 as stated fails: the recorded domain is "example.com", the client
    answers the renewal with a resource for "other.org", and [renewCertificate]
    returns no error, with the foreign certificate attached and saved. *)
Lemma renewCertificate_foreign_domain_attached :
  lego.Domain (to_resource foreignCert) ≠ types.Main exampleDomain
  ∧ types.dc_Domain staleDC = Some exampleDomain
  ∧ renewCertificate (lib := toyGoLib) toyClock (exampleACME None)
      (toyClient (to_resource foreignCert)) exampleAccount
      (mkWorld {[1%positive := staleDC]} [])
    = Ret (None,
           mkWorld (<[1%positive := foreignDC]> {[1%positive := staleDC]})
             [EvRenewCertificate (to_resource staleCert) false;
              EvSaveAccount "toy" foreignSaved])
  ∧ (<[1%positive := foreignDC]> {[1%positive := staleDC]} : gmap loc _) !! 1%positive
    = Some foreignDC.
Proof. split; [done|]. split; [done|]. split; [|done]. vm_compute. reflexivity. Qed.

(** ** C8: a failed save after issuance *)

Lemma saves_snoc (tr : list Event) (ev : Event) :
  saves (tr ++ [ev]) = (saves tr + if is_save ev then 1 else 0)%nat.
Proof.
  unfold saves. rewrite filter_app, length_app. f_equal.
  destruct (is_save ev) eqn:E.
  - by rewrite filter_cons_True.
  - rewrite filter_cons_False; [done|]. by rewrite E.
Qed.

(** C8.  In [retrieveCertificate], when the client issues a certificate whose
    bytes parse and the backend's [SaveAccount] then fails with [e], the call
    returns the error "Error Saving ACME account ...: e" and no certificate,
    while the [DomainCertificate] in memory holds the newly issued certificate
    and its parsed TLS object. *)
Theorem retrieveCertificate_save_failure {lib : GoLib} a client account w l v d b r t e :
  types.acct_DomainsCertificate account = Some l →
  heap w !! l = Some v →
  acme_Domain a = Some d →
  acme_backend a = Some b →
  client_ObtainCertificate client (trace w)
    (types.Main d :: slice_elems (types.SANs d)) bundleCA = (r, []) →
  tls_X509KeyPair (lego.Certificate r) (lego.PrivateKey r) = inl t →
  backend.SaveAccount b
    (trace w ++ [EvObtainCertificate (types.Main d :: slice_elems (types.SANs d)) bundleCA])
    (mkAccountValue (types.acct_Email account) (types.acct_Registration account)
       (types.acct_PrivateKey account)
       (Some (types.mkDomainCertificate (Some (of_resource r)) (Some d) (Some t))))
  = Some e →
  ∃ w',
    retrieveCertificate a client account w
    = Ret ((None, Some (wrapError "Error Saving ACME account %+v: %s" e)), w')
    ∧ heap w' !! l
      = Some (types.mkDomainCertificate (Some (of_resource r)) (Some d) (Some t))
    ∧ saves (trace w') = S (saves (trace w)).
Proof.
  intros Hdc Hl Hd Hb Hr Ht He.
  rewrite (retrieveCertificate_issued a client account w l v d b r t Hdc Hl Hd Hb Hr Ht).
  cbv zeta. rewrite He. eexists. split; [done|]. simpl. split.
  - apply lookup_insert_eq.
  - rewrite !saves_snoc. simpl. lia.
Qed.

Lemma retrieveCertificate_save_failure_witness :
  ∃ w',
    retrieveCertificate (lib := toyGoLib) (exampleACME (Some (errorString "disk full")))
      (toyClient (to_resource goodCert)) exampleAccount
      (mkWorld {[1%positive := newDC]} [])
    = Ret ((None, Some (wrapError "Error Saving ACME account %+v: %s"
                          (errorString "disk full"))), w')
    ∧ heap w' !! 1%positive = Some goodDC
    ∧ saves (trace w') = 1%nat.
Proof.
  exact (retrieveCertificate_save_failure (lib := toyGoLib)
           (exampleACME (Some (errorString "disk full")))
           (toyClient (to_resource goodCert)) exampleAccount
           (mkWorld {[1%positive := newDC]} []) 1%positive newDC exampleDomain
           (toyBackend (Some (errorString "disk full"))) (to_resource goodCert) goodTLS
           (errorString "disk full") eq_refl eq_refl eq_refl eq_refl eq_refl eq_refl eq_refl).
Defined.

(** ** C9: the validity of the self-signed certificate *)

(** C9.  Called with the zero time as [expiration], [generateDerCert] asks
    [x509.CreateCertificate] for a certificate whose [NotAfter] is the clock
    reading plus 365 nanoseconds: less than a microsecond after that reading,
    and not 365 days after it. *)
Theorem generateDerCert_zero_expiration {lib : GoLib} {rt : Runtime} (clock : Clock)
    privateKey expiration domain w serialNumber :
  time.IsZero expiration = true →
  rand_Int (trace w) (Z.shiftl 1 128) = inl serialNumber →
  let template := derTemplate clock serialNumber expiration domain in
  let tr := (trace w ++ [EvRandInt (Z.shiftl 1 128)])%list in
  generateDerCert clock privateKey expiration domain w
  = Ret (x509_CreateCertificate tr template privateKey,
         mkWorld (heap w) (tr ++ [EvCreateCertificate template privateKey]))
  ∧ x509.tpl_NotAfter template = time.Add (clock 0%nat) (365 * time.Nanosecond)
  ∧ x509.tpl_NotAfter template - clock 0%nat = 365
  ∧ x509.tpl_NotAfter template - clock 0%nat < time.Microsecond
  ∧ x509.tpl_NotAfter template ≠ time.Add (clock 0%nat) (365 * (24 * time.Hour)).
Proof.
  intros Hz Hr template tr. split.
  - unfold generateDerCert, bind, call. by rewrite Hr.
  - subst template. unfold derTemplate. rewrite Hz. simpl.
    unfold time.Add, time.Microsecond, time.Nanosecond, time.Hour, time.Minute,
      time.Second, time.Millisecond, time.Microsecond, time.Nanosecond.
    repeat split; lia.
Qed.

Lemma generateDerCert_zero_expiration_witness :
  x509.tpl_NotAfter (derTemplate toyClock 7 time.zero "internal.example") = 365.
Proof.
  exact (proj1 (proj2 (generateDerCert_zero_expiration (lib := toyGoLib) (rt := toyRuntime)
                         toyClock (RSAKey [Byte.x01]) time.zero "internal.example"
                         (mkWorld ∅ []) 7 eq_refl eq_refl))).
Defined.

(** ** C10: the filesystem backend on an absent or empty file *)

Section FilesystemBackend.
Context {lib : GoLib} {fsys : fs.FileSystem}.

Lemma LoadAccount_not_exist s domain e :
  fs.os_Stat (fs.key s domain) = inr e → fs.os_IsNotExist (Some e) = true →
  fs.LoadAccount s domain = (None, None).
Proof. intros Hs He. unfold fs.LoadAccount. by rewrite Hs, He. Qed.

Lemma LoadAccount_empty_file s domain fileInfo :
  fs.os_Stat (fs.key s domain) = inl fileInfo → fs.Size fileInfo = 0 →
  fs.LoadAccount s domain = (None, None).
Proof.
  intros Hs Hz. unfold fs.LoadAccount. rewrite Hs.
  by rewrite bool_decide_eq_true_2.
Qed.

End FilesystemBackend.

(** A backend that finds no account and reports no error sends
    [CreateConfig] to [NewAccount], with registration needed. *)
Lemma CreateConfig_loadAccount_nil {lib : GoLib} {rt : Runtime} a b d w :
  backend.LoadAccount b (trace w) (types.Main d) = (None, None) →
  CreateConfig_loadAccount a b d w =
    (do r <- NewAccount (acme_Email a) (acme_Domain a);
     match r with
     | inr err => ret (inr err)
     | inl account => ret (inl (account, true))
     end)
      (mkWorld (heap w) (trace w ++ [EvLoadAccount (backend.Name b) (types.Main d)])).
Proof. intros Hload. unfold CreateConfig_loadAccount, bind at 1, call. by rewrite Hload. Qed.

(** C10.  The filesystem backend's [LoadAccount] returns a nil account and a
    nil error when the storage file does not exist, and also when it exists
    with size zero; [CreateConfig], given this answer by its backend, makes a
    new account (and will register it) instead of reporting an error. *)
Theorem fs_LoadAccount_absent_or_empty {lib : GoLib} {fsys : fs.FileSystem} {rt : Runtime}
    (s : fs.storage) (domain : string) :
  (∀ e, fs.os_Stat (fs.key s domain) = inr e → fs.os_IsNotExist (Some e) = true →
        fs.LoadAccount s domain = (None, None))
  ∧ (∀ fileInfo, fs.os_Stat (fs.key s domain) = inl fileInfo → fs.Size fileInfo = 0 →
        fs.LoadAccount s domain = (None, None))
  ∧ (∀ a b d w,
        types.Main d = domain →
        backend.LoadAccount b (trace w) domain = fs.LoadAccount s domain →
        fs.LoadAccount s domain = (None, None) →
        CreateConfig_loadAccount a b d w =
          (do r <- NewAccount (acme_Email a) (acme_Domain a);
           match r with
           | inr err => ret (inr err)
           | inl account => ret (inl (account, true))
           end)
            (mkWorld (heap w) (trace w ++ [EvLoadAccount (backend.Name b) domain]))).
Proof.
  split; [|split].
  - intros e. apply LoadAccount_not_exist.
  - intros fileInfo. apply LoadAccount_empty_file.
  - intros a b d w <- Hb Hnil. apply CreateConfig_loadAccount_nil. by rewrite Hb.
Qed.

Lemma fs_LoadAccount_absent_or_empty_witness :
  fs.LoadAccount (lib := toyGoLib) (fsys := toyFileSystem ∅) exampleStorage "example.com"
    = (None, None)
  ∧ fs.LoadAccount (lib := toyGoLib)
      (fsys := toyFileSystem {[ "/var/lib/acme/example.com.json" := [] ]})
      exampleStorage "example.com"
    = (None, None)
  ∧ ∃ w',
      CreateConfig_loadAccount (lib := toyGoLib) (rt := toyRuntime) bootACME (toyBackend None)
        exampleDomain (mkWorld ∅ [])
      = Ret (inl (types.mkAccount "admin@example.com" None [Byte.x01] (Some 1%positive),
                  true), w')
      ∧ heap w' !! 1%positive = Some newDC.
Proof.
  split; [|split].
  - exact (proj1 (fs_LoadAccount_absent_or_empty (lib := toyGoLib) (fsys := toyFileSystem ∅)
                    (rt := toyRuntime) exampleStorage "example.com")
             (PathError "stat" "/var/lib/acme/example.com.json" ENOENT) eq_refl eq_refl).
  - exact (proj1 (proj2 (fs_LoadAccount_absent_or_empty (lib := toyGoLib)
                    (fsys := toyFileSystem {[ "/var/lib/acme/example.com.json" := [] ]})
                    (rt := toyRuntime) exampleStorage "example.com"))
             {| fs.Size := 0 |} eq_refl eq_refl).
  - assert (Hb : backend.LoadAccount (toyBackend None) (trace (mkWorld ∅ [])) "example.com"
                 = fs.LoadAccount (lib := toyGoLib) (fsys := toyFileSystem ∅)
                     exampleStorage "example.com") by reflexivity.
    assert (Hnil : fs.LoadAccount (lib := toyGoLib) (fsys := toyFileSystem ∅)
                     exampleStorage "example.com" = (None, None)) by reflexivity.
    eexists.
    rewrite (proj2 (proj2 (fs_LoadAccount_absent_or_empty (lib := toyGoLib)
                    (fsys := toyFileSystem ∅) (rt := toyRuntime) exampleStorage
                    "example.com")) bootACME (toyBackend None) exampleDomain
               (mkWorld ∅ []) eq_refl Hb Hnil).
    split; vm_compute; reflexivity.
Defined.

(** ** C5: invalid configuration *)

Section Configuration.
Context {lib : GoLib} {rt : Runtime}.

Lemma newDNSProvider_unknown dns w :
  dns ∉ knownDNSProviders →
  newDNSProvider dns w = Panic ("Unknown dns provider " +:+ dns).
Proof.
  unfold knownDNSProviders. rewrite !not_elem_of_cons. intros Hdns. destruct_and!.
  unfold newDNSProvider. by rewrite !bool_decide_eq_false_2 by done.
Qed.

(** Setting the logger leaves the other fields of the [ACME] struct alone, and
    a logger that is set stays. *)
Lemma CreateConfig_logger_fields a :
  acme_backend (CreateConfig_logger a) = acme_backend a
  ∧ acme_Domain (CreateConfig_logger a) = acme_Domain a
  ∧ acme_BackendName (CreateConfig_logger a) = acme_BackendName a
  ∧ acme_CAServer (CreateConfig_logger a) = acme_CAServer a
  ∧ acme_DNSProvider (CreateConfig_logger a) = acme_DNSProvider a
  ∧ acme_Email (CreateConfig_logger a) = acme_Email a
  ∧ acme_SelfSigned (CreateConfig_logger a) = acme_SelfSigned a.
Proof. unfold CreateConfig_logger. by destruct (acme_Logger a). Qed.

Lemma CreateConfig_logger_Domain a : acme_Domain (CreateConfig_logger a) = acme_Domain a.
Proof. apply CreateConfig_logger_fields. Qed.

Lemma CreateConfig_logger_SelfSigned a :
  acme_SelfSigned (CreateConfig_logger a) = acme_SelfSigned a.
Proof. apply CreateConfig_logger_fields. Qed.

Lemma CreateConfig_logger_BackendName a :
  acme_BackendName (CreateConfig_logger a) = acme_BackendName a.
Proof. apply CreateConfig_logger_fields. Qed.

Lemma CreateConfig_logger_set a :
  is_Some (acme_Logger (CreateConfig_logger a))
  ∧ CreateConfig_logger (CreateConfig_logger a) = CreateConfig_logger a.
Proof. unfold CreateConfig_logger. by destruct (acme_Logger a) eqn:Hl; simpl; rewrite ?Hl. Qed.

(** The steps up to the client do not look at the logger and do not change
    it: they commute with setting it. *)
Lemma CreateConfig_loadAccount_ext a1 a2 b d :
  acme_Email a1 = acme_Email a2 → acme_Domain a1 = acme_Domain a2 →
  CreateConfig_loadAccount a1 b d = CreateConfig_loadAccount a2 b d.
Proof. intros He Hd. unfold CreateConfig_loadAccount. by rewrite He, Hd. Qed.

Lemma buildACMEClient_ext a1 a2 account :
  acme_CAServer a1 = acme_CAServer a2 →
  buildACMEClient a1 account = buildACMEClient a2 account.
Proof. intros Hc. unfold buildACMEClient. by rewrite Hc. Qed.

Lemma CreateConfig_client_set_Logger lg a d w :
  CreateConfig_client (set_Logger lg a) d w
  = match CreateConfig_client a d w with
    | Ret (inl (a', account, needRegister, client), w') =>
        Ret (inl (set_Logger lg a', account, needRegister, client), w')
    | Ret (inr (err, a'), w') => Ret (inr (err, set_Logger lg a'), w')
    | Panic msg => Panic msg
    end.
Proof.
  unfold CreateConfig_client. cbn [acme_BackendName set_Logger].
  case_bool_decide; cbv zeta.
  all: unfold bind; cbn [acme_BackendName set_Logger set_BackendName].
  all: try change (set_BackendName "fs" (set_Logger lg a)) with (set_Logger lg (set_BackendName "fs" a)).
  all: destruct (backend.InitBackend _ _ _) as [[[b [e|]] w0]|]; [done| |done].
  all: destruct b as [bk|]; [|done].
  all: match goal with
       | |- context [CreateConfig_loadAccount (set_backend ?b0 ?a1) ?bk0 ?d0 ?w1] =>
           rewrite (CreateConfig_loadAccount_ext (set_backend b0 (set_Logger lg a1))
                      (set_backend b0 a1) bk0 d0 eq_refl eq_refl);
           destruct (CreateConfig_loadAccount (set_backend b0 a1) bk0 d0 w1)
             as [[[[account needRegister]|err] w2]|]; [|done|done];
           rewrite (buildACMEClient_ext (set_backend b0 (set_Logger lg a1))
                      (set_backend b0 a1) account eq_refl)
       end.
  all: destruct (buildACMEClient _ _ _) as [[[client|err] w3]|]; done.
Qed.
Lemma CreateConfig_client_Logger a d w r w' :
  CreateConfig_client a d w = Ret (r, w') →
  acme_Logger (match r with inl (a', _, _, _) => a' | inr (_, a') => a' end) = acme_Logger a.
Proof.
  unfold CreateConfig_client, bind, ret, panic. intros Hrun.
  repeat case_match; simplify_eq; done.
Qed.

Lemma CreateConfig_client_logger a d w :
  CreateConfig_client (CreateConfig_logger a) d w
  = match CreateConfig_client a d w with
    | Ret (inl (a', account, needRegister, client), w') =>
        Ret (inl (CreateConfig_logger a', account, needRegister, client), w')
    | Ret (inr (err, a'), w') => Ret (inr (err, CreateConfig_logger a'), w')
    | Panic msg => Panic msg
    end.
Proof.
  unfold CreateConfig_logger at 1. destruct (acme_Logger a) as [lg|] eqn:Hlg.
  - destruct (CreateConfig_client a d w) as [[r w']|] eqn:Hrun; [|done].
    apply CreateConfig_client_Logger in Hrun. rewrite Hlg in Hrun.
    destruct r as [[[[a' ?] ?] ?]|[? a']]; unfold CreateConfig_logger; by rewrite Hrun.
  - rewrite CreateConfig_client_set_Logger.
    destruct (CreateConfig_client a d w) as [[r w']|] eqn:Hrun; [|done].
    apply CreateConfig_client_Logger in Hrun. rewrite Hlg in Hrun.
    destruct r as [[[[a' ?] ?] ?]|[? a']]; unfold CreateConfig_logger; by rewrite Hrun.
Qed.

(** What [CreateConfig] assigns to the [ACME] struct on the way to the client
    leaves the configured domain, DNS provider and mode alone. *)
Lemma CreateConfig_client_fields a d w a' account needRegister client w' :
  CreateConfig_client a d w = Ret (inl (a', account, needRegister, client), w') →
  acme_Domain a' = acme_Domain a
  ∧ acme_DNSProvider a' = acme_DNSProvider a
  ∧ acme_SelfSigned a' = acme_SelfSigned a.
Proof.
  unfold CreateConfig_client, bind, ret, panic. intros Hrun.
  repeat case_match; simplify_eq; done.
Qed.

End Configuration.

(** C5, amended.  [CreateConfig] does not return an error for a missing main
    domain or an unknown DNS provider: it panics.  With a nil [Domain] or an
    empty [Domain.Main] it panics with "The main domain name must be provided"
    before anything else is done; [newDNSProvider] panics with "Unknown dns
    provider ..." on a name that is none of its cases, and so does a
    [CreateConfig] run that has set up backend, account and client and comes to
    an unknown provider name. *)
Theorem CreateConfig_invalid_configuration_panics {lib : GoLib} {rt : Runtime} (clock : Clock)
    a tlsConfig w :
  (acme_Domain a = None ∨ (∃ d, acme_Domain a = Some d ∧ types.Main d = EmptyString) →
   CreateConfig clock a tlsConfig w = Panic "The main domain name must be provided")
  ∧ (acme_DNSProvider a ∉ knownDNSProviders →
     newDNSProvider (acme_DNSProvider a) w
     = Panic ("Unknown dns provider " +:+ acme_DNSProvider a))
  ∧ (∀ d a' account needRegister client w',
       acme_Domain a = Some d → types.Main d ≠ EmptyString →
       acme_SelfSigned a = false →
       CreateConfig_client a d w = Ret (inl (a', account, needRegister, client), w') →
       acme_DNSProvider a ∉ knownDNSProviders →
       CreateConfig clock a tlsConfig w
       = Panic ("Unknown dns provider " +:+ acme_DNSProvider a)).
Proof.
  split; [|split].
  - intros [Hnil|(d & Hd & Hmain)]; unfold CreateConfig; cbv zeta;
      rewrite CreateConfig_logger_Domain; [by rewrite Hnil|].
    rewrite Hd. by rewrite bool_decide_eq_true_2.
  - apply newDNSProvider_unknown.
  - intros d a' account needRegister client w' Hd Hmain Hself Hclient Hdns.
    destruct (CreateConfig_client_fields _ _ _ _ _ _ _ _ Hclient) as (_ & Hp & _).
    unfold CreateConfig. cbv zeta.
    rewrite CreateConfig_logger_Domain, CreateConfig_logger_SelfSigned.
    rewrite Hd, bool_decide_eq_false_2, Hself by done.
    unfold bind at 1. rewrite CreateConfig_client_logger, Hclient. unfold bind at 1.
    destruct (CreateConfig_logger_fields a') as (_ & _ & _ & _ & -> & _).
    rewrite Hp. by rewrite newDNSProvider_unknown.
Qed.

Lemma CreateConfig_invalid_configuration_panics_witness :
  CreateConfig (lib := toyGoLib) (rt := toyRuntime) toyClock emptyDomainACME
    (mk_tls_Config [] None) (mkWorld ∅ [])
  = Panic "The main domain name must be provided"
  ∧ CreateConfig (lib := toyGoLib) (rt := toyRuntime) toyClock unknownProviderACME
      (mk_tls_Config [] None) (mkWorld ∅ [])
    = Panic "Unknown dns provider bogus".
Proof.
  split.
  - apply (proj1 (CreateConfig_invalid_configuration_panics (lib := toyGoLib)
                    (rt := toyRuntime) toyClock emptyDomainACME (mk_tls_Config [] None)
                    (mkWorld ∅ []))).
    right. exists (types.mkDomain EmptyString None). split; reflexivity.
  - eapply (proj2 (proj2 (CreateConfig_invalid_configuration_panics (lib := toyGoLib)
                    (rt := toyRuntime) toyClock unknownProviderACME (mk_tls_Config [] None)
                    (mkWorld ∅ []))) exampleDomain).
    + reflexivity.
    + discriminate.
    + reflexivity.
    + vm_compute. reflexivity.
    + unfold knownDNSProviders. rewrite !not_elem_of_cons.
      repeat split; try discriminate. apply not_elem_of_nil.
Defined.

(** C5 as stated fails: with an empty main domain, and with the provider name
    "bogus", [CreateConfig] returns nothing, neither an error nor success: it
    panics. *)
Lemma CreateConfig_panics_not_error :
  CreateConfig (lib := toyGoLib) (rt := toyRuntime) toyClock emptyDomainACME
    (mk_tls_Config [] None) (mkWorld ∅ [])
  = Panic "The main domain name must be provided"
  ∧ CreateConfig (lib := toyGoLib) (rt := toyRuntime) toyClock unknownProviderACME
      (mk_tls_Config [] None) (mkWorld ∅ [])
    = Panic "Unknown dns provider bogus".
Proof. split; vm_compute; reflexivity. Qed.

(** ** C6: the TLS certificate resolver *)

Section Resolver.
Context {lib : GoLib} {rt : Runtime}.

Lemma liftHeap_load_inv dc w v w' :
  liftHeap (types.load dc) w = Ret (v, w') → w' = w ∧ dc ≫= (heap w !!.) = Some v.
Proof.
  unfold liftHeap, types.load. destruct (dc ≫= _) as [v0|]; [|done].
  intros [= -> <-]. by destruct w.
Qed.

(** An [Init] without error has parsed the certificate of the object and has
    stored the result as its TLS object, nothing else. *)
Lemma Init_parsed (dc : option loc) (h h' : gmap loc types.DomainCertificate) :
  types.Init dc h = Ret (None, h') →
  ∃ l v c t,
    dc = Some l ∧ h !! l = Some v ∧ types.dc_Certificate v = Some c
    ∧ tls_X509KeyPair (types.cert_Cert c) (types.cert_PrivateKey c) = inl t
    ∧ h' = <[l := types.set_TLSCert (Some t) v]> h.
Proof.
  unfold types.Init, types.tlsCert, types.load, types.update, bind, ret, panic.
  destruct dc as [l|]; simpl; [|done].
  destruct (h !! l) as [v|] eqn:Hl; [|done].
  destruct (types.dc_Certificate v) as [c|] eqn:Hc; [|done].
  destruct (tls_X509KeyPair _ _) as [t|] eqn:Ht; [|done].
  rewrite Hl. intros [= <-]. eauto 10.
Qed.

(** An [AddCertificate] without error leaves the given certificate, the given
    domain and the parse of the certificate in the object. *)
Lemma AddCertificate_parsed (dc : option loc) acmeCert domain
    (h h' : gmap loc types.DomainCertificate) :
  types.AddCertificate dc acmeCert domain h = Ret (None, h') →
  ∃ l c t,
    dc = Some l ∧ is_Some (h !! l) ∧ acmeCert = Some c
    ∧ tls_X509KeyPair (types.cert_Cert c) (types.cert_PrivateKey c) = inl t
    ∧ h' = <[l := types.mkDomainCertificate (Some c) domain (Some t)]> h.
Proof.
  unfold types.AddCertificate, bind. intros Hrun.
  destruct (types.update dc (types.set_Domain domain) h) as [[[] h1]|] eqn:H1; [|done].
  destruct (types.update dc _ h1) as [[[] h2]|] eqn:H2; [|done].
  apply Init_parsed in Hrun as (l & v & c & t & -> & Hl & Hc & Ht & ->).
  unfold types.update in H1, H2.
  destruct (h !! l) as [v0|] eqn:Hl0; [|done]. injection H1 as <-.
  rewrite lookup_insert_eq in H2. injection H2 as <-.
  rewrite lookup_insert_eq in Hl. injection Hl as <-. simpl in Hc. subst acmeCert.
  exists l, c, t. rewrite !insert_insert_eq. eauto 10.
Qed.

(** A successful issuance returns the TLS object of the account's
    [DomainCertificate], which is the parse of the certificate that the object
    holds. *)
Lemma retrieveCertificate_parsed a client account w r w' :
  retrieveCertificate a client account w = Ret ((r, None), w') →
  ∃ l v c t,
    types.acct_DomainsCertificate account = Some l ∧ heap w' !! l = Some v
    ∧ types.dc_Certificate v = Some c
    ∧ tls_X509KeyPair (types.cert_Cert c) (types.cert_PrivateKey c) = inl t
    ∧ types.dc_TLSCert v = Some t ∧ r = Some t.
Proof.
  unfold retrieveCertificate, bind, ret, panic. intros Hrun.
  repeat case_match; simplify_eq.
  match goal with
  | H : liftHeap (types.load _) _ = Ret _ |- _ => apply liftHeap_load_inv in H as [-> Hv]
  end.
  match goal with
  | H : backend_SaveAccount _ _ _ = Ret _ |- _ =>
      unfold backend_SaveAccount, bind, snapshot, call in H;
      destruct (acme_backend a); [|done]; injection H as _ <-
  end.
  match goal with
  | H : liftHeap (types.AddCertificate _ _ _) ?w0 = Ret (None, _) |- _ =>
      unfold liftHeap in H;
      destruct (types.AddCertificate _ _ _ (heap w0)) as [[? ?]|] eqn:HAdd; [|done];
      injection H as -> <-;
      apply AddCertificate_parsed in HAdd as (l & c1 & t & Hdc & _ & _ & Ht & ->)
  end.
  simpl in Hv. rewrite Hdc in Hv. simpl in Hv. rewrite lookup_insert_eq in Hv.
  injection Hv as <-. exists l. eexists _, c1, t. simpl.
  rewrite lookup_insert_eq. eauto 10.
Qed.

(** Where the account of [CreateConfig] comes from.  The backend has
    answered the load without error.  A stored account is in memory as it was
    stored, with the parse of its certificate as TLS object, and needs no
    registration; without a stored account the account is new, with the empty
    certificate, and needs registration. *)
Lemma CreateConfig_loadAccount_loaded a b d w account needRegister w' :
  CreateConfig_loadAccount a b d w = Ret (inl (account, needRegister), w') →
  ∃ loaded l v,
    backend.LoadAccount b (trace w) (types.Main d) = (loaded, None)
    ∧ types.acct_DomainsCertificate account = Some l ∧ heap w' !! l = Some v
    ∧ match loaded with
      | None =>
          needRegister = true ∧ types.dc_Certificate v = Some types.emptyCertificate
      | Some stored =>
          needRegister = false
          ∧ ∃ dcv c t,
              av_DomainsCertificate stored = Some dcv
              ∧ types.dc_Certificate dcv = Some c
              ∧ tls_X509KeyPair (types.cert_Cert c) (types.cert_PrivateKey c) = inl t
              ∧ v = types.set_TLSCert (Some t) dcv
      end.
Proof.
  unfold CreateConfig_loadAccount, bind at 1, call at 1.
  destruct (backend.LoadAccount b (trace w) (types.Main d)) as [loaded [err|]] eqn:Hload;
    [by intros [=]|].
  destruct loaded as [stored|]; intros Hrun; [exists (Some stored)|exists None].
  - unfold materialise, bind, ret in Hrun.
    destruct (av_DomainsCertificate stored) as [dcv|] eqn:Hdcv; [|done].
    unfold liftHeap at 1, alloc in Hrun. simpl in Hrun.
    unfold liftHeap in Hrun. simpl in Hrun.
    destruct (types.Init _ _) as [[[e|] h']|] eqn:HInit; [by injection Hrun| |done].
    injection Hrun as <- <- <-.
    apply Init_parsed in HInit as (l & v & c & t & [= <-] & Hl & Hc & Ht & ->).
    rewrite lookup_insert_eq in Hl. injection Hl as <-.
    eexists _, _. split; [done|]. split; [done|]. simpl.
    split; [apply lookup_insert_eq|]. split; [done|]. eauto 10.
  - unfold NewAccount, bind, call, ret in Hrun.
    repeat case_match; simplify_eq.
    match goal with
    | H : liftHeap (alloc _) _ = Ret _ |- _ =>
        unfold liftHeap, alloc in H; simpl in H; injection H as <- <-
    end.
    eexists _, _. split; [done|]. split; [done|]. simpl.
    split; [apply lookup_insert_eq|]. done.
Qed.

Lemma buildACMEClient_heap a account w r w' :
  buildACMEClient a account w = Ret (r, w') → heap w' = heap w.
Proof.
  unfold buildACMEClient, bind, snapshot, call, ret. intros Hrun.
  repeat case_match; simplify_eq; done.
Qed.

Lemma newDNSProvider_heap dns w r w' :
  newDNSProvider dns w = Ret (r, w') → heap w' = heap w.
Proof.
  unfold newDNSProvider, call, panic. intros Hrun.
  repeat case_match; simplify_eq; done.
Qed.

Lemma CreateConfig_register_account client account needRegister w account' w' :
  CreateConfig_register client account needRegister w = Ret (inl account', w') →
  heap w' = heap w
  ∧ types.acct_DomainsCertificate account' = types.acct_DomainsCertificate account.
Proof.
  unfold CreateConfig_register, bind, call, ret. intros Hrun.
  repeat case_match; simplify_eq; done.
Qed.

(** The same for the steps up to the client: the backend is the one that
    [InitBackend] made for the configured name, and it is in the struct. *)
Lemma CreateConfig_client_loaded a d w a' account needRegister client w' :
  CreateConfig_client a d w = Ret (inl (a', account, needRegister, client), w') →
  ∃ b w0 loaded l v,
    backend.InitBackend backends (acme_BackendName a') w = Ret ((Some b, None), w0)
    ∧ acme_backend a' = Some b
    ∧ backend.LoadAccount b (trace w0) (types.Main d) = (loaded, None)
    ∧ types.acct_DomainsCertificate account = Some l ∧ heap w' !! l = Some v
    ∧ match loaded with
      | None =>
          needRegister = true ∧ types.dc_Certificate v = Some types.emptyCertificate
      | Some stored =>
          needRegister = false
          ∧ ∃ dcv c t,
              av_DomainsCertificate stored = Some dcv
              ∧ types.dc_Certificate dcv = Some c
              ∧ tls_X509KeyPair (types.cert_Cert c) (types.cert_PrivateKey c) = inl t
              ∧ v = types.set_TLSCert (Some t) dcv
      end.
Proof.
  unfold CreateConfig_client. cbv zeta. unfold bind at 1.
  destruct (backend.InitBackend _ _ w) as [[[b [e|]] w0]|] eqn:Hinit; [by intros [=]| |done].
  destruct b as [b|]; [|done]. unfold bind at 1.
  destruct (CreateConfig_loadAccount _ b d w0) as [[[[account0 need]|e] w1]|] eqn:Hload;
    [|by intros [=]|done].
  apply CreateConfig_loadAccount_loaded in Hload as (loaded & l & v & Hload & Hdc & Hl & Hm).
  unfold bind at 1.
  destruct (buildACMEClient _ account0 w1) as [[[client0|e] w2]|] eqn:Hclient;
    [|by intros [=]|done].
  apply buildACMEClient_heap in Hclient.
  unfold bind, call, ret. intros [= <- <- <- <- <-].
  exists b, w0, loaded, l, v. simpl. rewrite <- Hclient in Hl.
  split; [|done].
  by case_bool_decide.
Qed.

End Resolver.

(** C6.  The callback that [CreateConfig] installs as [GetCertificate] is
    [resolver] on the [DomainCertificate] of the account, the one that the
    renewal tasks work on.  Called with a server name, [resolver] returns the
    TLS certificate that the [DomainCertificate] holds at that moment, and no
    error, if and only if the name equals the configured main domain; for
    every other name it returns the error "Unknown server name" and no
    certificate.  When [CreateConfig] returns, the [DomainCertificate] of the
    account holds a certificate and, as TLS object, the parse of its bytes:
    this is what the callback returns for the main domain. *)
Theorem resolver_iff_main_domain {lib : GoLib} {rt : Runtime} :
  (∀ (dc : option loc) a w d v name,
     acme_Domain a = Some d →
     dc ≫= (heap w !!.) = Some v →
     (resolver dc a w {| tls.ServerName := name |} = Ret (types.dc_TLSCert v, None)
      ↔ name = types.Main d)
     ∧ (name ≠ types.Main d →
        resolver dc a w {| tls.ServerName := name |}
        = Ret (None, Some (errorString "Unknown server name"))))
  ∧ (∀ (clock : Clock) a tlsConfig w a' tlsConfig' tasks w',
       acme_SelfSigned a = false →
       CreateConfig clock a tlsConfig w = Ret ((None, a', tlsConfig', tasks), w') →
       ∃ d client account l v c t,
         acme_Domain a' = Some d
         ∧ (tasks = [RenewEvery (24 * time.Hour) client account]
            ∨ tasks = [RenewOnce client account;
                       RenewEvery (24 * time.Hour) client account])
         ∧ types.acct_DomainsCertificate account = Some l
         ∧ GetCertificate tlsConfig' = Some (resolver (Some l))
         ∧ heap w' !! l = Some v
         ∧ types.dc_Certificate v = Some c
         ∧ tls_X509KeyPair (types.cert_Cert c) (types.cert_PrivateKey c) = inl t
         ∧ types.dc_TLSCert v = Some t
         ∧ ∀ name,
             (resolver (Some l) a' w' {| tls.ServerName := name |} = Ret (Some t, None)
              ↔ name = types.Main d)
             ∧ (name ≠ types.Main d →
                resolver (Some l) a' w' {| tls.ServerName := name |}
                = Ret (None, Some (errorString "Unknown server name")))).
Proof.
  assert (Hresolver : ∀ (dc : option loc) a w d v name,
     acme_Domain a = Some d →
     dc ≫= (heap w !!.) = Some v →
     (resolver dc a w {| tls.ServerName := name |} = Ret (types.dc_TLSCert v, None)
      ↔ name = types.Main d)
     ∧ (name ≠ types.Main d →
        resolver dc a w {| tls.ServerName := name |}
        = Ret (None, Some (errorString "Unknown server name")))).
  { intros dc a w d v name Hd Hv. unfold resolver. rewrite Hd, Hv. simpl.
    by case_bool_decide as Hname; (split; [split|]). }
  split; [exact Hresolver|].
  intros clock a tlsConfig w a' tlsConfig' tasks w' Hself.
  unfold CreateConfig. cbv zeta.
  rewrite CreateConfig_logger_Domain, CreateConfig_logger_SelfSigned, Hself.
  destruct (acme_Domain a) as [d|] eqn:Hd; [|done].
  case_bool_decide as Hmain; [done|].
  unfold bind at 1.
  destruct (CreateConfig_client _ d w)
    as [[[[[[a1 account] needRegister] client]|[err a1]] w1]|] eqn:Hclient; [| |done].
  2:{ by intros [=]. }
  destruct (CreateConfig_client_fields _ _ _ _ _ _ _ _ Hclient) as (Hd1 & _ & _).
  rewrite CreateConfig_logger_Domain, Hd in Hd1.
  destruct (CreateConfig_client_loaded _ _ _ _ _ _ _ _ Hclient)
    as (b & w0 & loaded & l & v & _ & _ & _ & Hdc & Hl & Hloaded).
  unfold bind, ret, panic, call. intros Hrun.
  repeat case_match; simplify_eq.
  all: repeat match goal with
       | H : newDNSProvider _ _ = Ret _ |- _ => apply newDNSProvider_heap in H; simpl in H
       | H : CreateConfig_register _ _ _ _ = Ret _ |- _ =>
           apply CreateConfig_register_account in H as [? ?]; simpl in *
       | H : liftHeap (types.load _) _ = Ret _ |- _ =>
           apply liftHeap_load_inv in H as [-> ?]
       | H : retrieveCertificate _ _ _ _ = Ret _ |- _ =>
           apply retrieveCertificate_parsed in H as (l' & v' & c' & t' & ? & ? & ? & ? & ? & ?)
       end.
  all: try match goal with
       | Hacc : types.acct_DomainsCertificate ?acc = types.acct_DomainsCertificate ?acc0,
         Hacc0 : types.acct_DomainsCertificate ?acc0 = Some ?l0,
         Hl0 : heap _ !! ?l0 = Some ?v1,
         Hload : types.acct_DomainsCertificate ?acc ≫= _ = Some ?v0 |- _ =>
           rewrite Hacc, Hacc0 in Hload; simpl in Hload;
           assert (v0 = v1) as -> by congruence
       end.
  all: assert (Hserve : ∀ l0 v0 t0 w2,
         heap w2 !! l0 = Some v0 → types.dc_TLSCert v0 = Some t0 →
         ∀ name,
           (resolver (Some l0) a' w2 {| tls.ServerName := name |} = Ret (Some t0, None)
            ↔ name = types.Main d)
           ∧ (name ≠ types.Main d →
              resolver (Some l0) a' w2 {| tls.ServerName := name |}
              = Ret (None, Some (errorString "Unknown server name"))))
         by (intros l0 v0 t0 w2' Hl0 Ht0 name;
             destruct (Hresolver (Some l0) a' w2' d v0 name Hd1 Hl0) as [Hiff Hne];
             by rewrite Ht0 in Hiff).
  - (* a stored certificate: it is served, and a renewal is started at once *)
    destruct Hloaded as (_ & dcv & c & t & _ & Hc & Ht & ->).
    exists d, client. eexists _, l, _, c, t.
    split; [done|]. split; [by right|]. split; [congruence|].
    split; [by f_equal; f_equal; congruence|]. split; [eassumption|].
    split; [done|]. split; [done|]. split; [done|]. by eapply Hserve.
  - (* a new account has no certificate to renew *)
    destruct Hloaded as [_ Hempty].
    match goal with
    | H : types.dc_Certificate v = Some ?c0, H' : _ && _ = true |- _ =>
        rewrite Hempty in H; injection H as <-; by apply andb_prop in H' as [? ?]
    end.
  - (* a stored account without certificate bytes: the issued one is served *)
    exists d, client. eexists _, l', v', c', t'.
    split; [done|]. split; [by left|]. split; [done|].
    split; [by f_equal; f_equal|]. split; [done|].
    split; [done|]. split; [done|]. split; [done|]. by eapply Hserve.
  - (* a new account: the issued certificate is served *)
    exists d, client. eexists _, l', v', c', t'.
    split; [done|]. split; [by left|]. split; [done|].
    split; [by f_equal; f_equal|]. split; [done|].
    split; [done|]. split; [done|]. split; [done|]. by eapply Hserve.
Qed.

Lemma resolver_iff_main_domain_witness :
  (resolver (Some 1%positive) bootACME (mkWorld {[1%positive := goodDC]} [])
     {| tls.ServerName := "example.com" |} = Ret (Some goodTLS, None)
   ∧ resolver (Some 1%positive) bootACME (mkWorld {[1%positive := goodDC]} [])
       {| tls.ServerName := "other.org" |}
     = Ret (None, Some (errorString "Unknown server name")))
  ∧ ∃ a' tlsConfig' tasks w',
      CreateConfig (lib := toyGoLib) (rt := toyRuntime) toyClock bootACME
        (mk_tls_Config [] None) (mkWorld ∅ []) = Ret ((None, a', tlsConfig', tasks), w')
      ∧ ∃ d client account l v c t,
          acme_Domain a' = Some d
          ∧ (tasks = [RenewEvery (24 * time.Hour) client account]
             ∨ tasks = [RenewOnce client account;
                        RenewEvery (24 * time.Hour) client account])
          ∧ types.acct_DomainsCertificate account = Some l
          ∧ GetCertificate tlsConfig' = Some (resolver (Some l))
          ∧ heap w' !! l = Some v
          ∧ types.dc_Certificate v = Some c
          ∧ tls_X509KeyPair (GoLib := toyGoLib) (types.cert_Cert c) (types.cert_PrivateKey c)
            = inl t
          ∧ types.dc_TLSCert v = Some t
          ∧ ∀ name,
              (resolver (Some l) a' w' {| tls.ServerName := name |} = Ret (Some t, None)
               ↔ name = types.Main d)
              ∧ (name ≠ types.Main d →
                 resolver (Some l) a' w' {| tls.ServerName := name |}
                 = Ret (None, Some (errorString "Unknown server name"))).
Proof.
  assert (Hv : Some 1%positive ≫= (heap (mkWorld {[1%positive := goodDC]} []) !!.)
               = Some goodDC) by reflexivity.
  assert (Hrun : ∃ a' tlsConfig' tasks w',
    CreateConfig (lib := toyGoLib) (rt := toyRuntime) toyClock bootACME
      (mk_tls_Config [] None) (mkWorld ∅ []) = Ret ((None, a', tlsConfig', tasks), w'))
    by (do 4 eexists; vm_compute; reflexivity).
  split; [split|].
  - apply (proj1 (resolver_iff_main_domain (lib := toyGoLib) (rt := toyRuntime))
             (Some 1%positive) bootACME (mkWorld {[1%positive := goodDC]} [])
             exampleDomain goodDC "example.com" eq_refl Hv).
    reflexivity.
  - apply (proj1 (resolver_iff_main_domain (lib := toyGoLib) (rt := toyRuntime))
             (Some 1%positive) bootACME (mkWorld {[1%positive := goodDC]} [])
             exampleDomain goodDC "other.org" eq_refl Hv).
    discriminate.
  - destruct Hrun as (a' & tlsConfig' & tasks & w' & Hrun).
    exists a', tlsConfig', tasks, w'. split; [exact Hrun|].
    exact (proj2 (resolver_iff_main_domain (lib := toyGoLib) (rt := toyRuntime))
             toyClock bootACME (mk_tls_Config [] None) (mkWorld ∅ []) a' tlsConfig' tasks w'
             eq_refl Hrun).
Defined.

(** The whole bootstrap on the toy collaborators: no stored account, so the
    account is created and registered, a certificate is issued and saved, and
    the installed callback serves it for the main domain only. *)
Example CreateConfig_first_boot :
  ∃ a' tlsConfig' client account w' f,
    CreateConfig (lib := toyGoLib) (rt := toyRuntime) toyClock bootACME
      (mk_tls_Config [] None) (mkWorld ∅ [])
    = Ret ((None, a', tlsConfig', [RenewEvery (24 * time.Hour) client account]), w')
    ∧ GetCertificate tlsConfig' = Some f
    ∧ f a' w' {| tls.ServerName := "example.com" |} = Ret (Some goodTLS, None)
    ∧ f a' w' {| tls.ServerName := "other.org" |}
      = Ret (None, Some (errorString "Unknown server name"))
    ∧ authority_calls (trace w') = 3%nat
    ∧ saves (trace w') = 1%nat.
Proof.
  do 6 eexists. split; [vm_compute; reflexivity|].
  split; [reflexivity|]. repeat split; vm_compute; reflexivity.
Qed.

(** * Further properties *)

(** ** Package strings *)

Lemma strings_Split_nonempty sep s : strings_Split sep s ≠ [].
Proof.
  destruct s as [|c s]; simpl; [done|].
  case_decide; [done|]. by destruct (strings_Split sep s).
Qed.

Lemma strings_Join_cons x y rest sep :
  strings_Join (x :: y :: rest) sep = x +:+ sep +:+ strings_Join (y :: rest) sep.
Proof. done. Qed.

(** Joining the pieces of a split with the separator gives the string back. *)
Lemma strings_Join_Split sep s :
  strings_Join (strings_Split sep s) (String sep EmptyString) = s.
Proof.
  induction s as [|c s IH]; simpl; [done|].
  case_decide as Hc.
  - subst c. pose proof (strings_Split_nonempty sep s) as Hne.
    destruct (strings_Split sep s) as [|p ps] eqn:Hs; [done|].
    rewrite strings_Join_cons, IH. done.
  - destruct (strings_Split sep s) as [|p ps] eqn:Hs.
    + by destruct (strings_Split_nonempty sep s).
    + destruct ps as [|q qs]; simpl in *; by rewrite <- IH.
Qed.

Lemma strings_Split_free sep s : free_of sep s → strings_Split sep s = [s].
Proof.
  induction s as [|c s IH]; simpl; [done|]. intros [Hc Hs].
  rewrite decide_False by done. by rewrite (IH Hs).
Qed.

Lemma strings_Split_app sep x y :
  free_of sep x →
  strings_Split sep (x +:+ String sep y) = x :: strings_Split sep y.
Proof.
  induction x as [|c x IH]; simpl.
  - intros _. by rewrite decide_True.
  - intros [Hc Hx]. rewrite decide_False by done.
    change (String.append x (String sep y)) with (x +:+ String sep y).
    by rewrite (IH Hx).
Qed.

(** Splitting a join of pieces that are free of the separator gives the
    pieces back. *)
Lemma strings_Split_Join sep pieces :
  pieces ≠ [] → Forall (free_of sep) pieces →
  strings_Split sep (strings_Join pieces (String sep EmptyString)) = pieces.
Proof.
  induction pieces as [|x [|y rest] IH]; [done| |].
  - intros _ Hfree. apply strings_Split_free. by inversion Hfree.
  - intros _ Hfree. inversion Hfree as [|? ? Hx Hrest]; subst.
    rewrite strings_Join_cons.
    change (String sep EmptyString +:+ ?s) with (String sep s).
    rewrite strings_Split_app by done. by rewrite IH.
Qed.

Lemma strings_Split_free_of c sep s :
  free_of c s → Forall (free_of c) (strings_Split sep s).
Proof.
  induction s as [|c' s IH]; simpl.
  - by repeat constructor.
  - intros [Hc Hs]. specialize (IH Hs). case_decide.
    + by constructor.
    + destruct (strings_Split sep s) as [|p ps]; [by repeat constructor|].
      inversion IH; subst. by constructor.
Qed.

(** ** The S3 backend: the object key *)

(** The loop of [key] writes the parts in reverse order over the first
    positions of the slice. *)
Lemma key_loop_reverse (parts keySlice : list string) (idx : nat) :
  (idx + length parts = length keySlice)%nat →
  s3.key_loop (length keySlice - 1) idx parts keySlice
  = (rev parts ++ drop (length parts) keySlice)%list.
Proof.
  revert idx keySlice. induction parts as [|part rest IH]; intros idx keySlice Hlen.
  - simpl. by rewrite drop_0.
  - simpl in *.
    assert (Hlt : (length keySlice - 1 - idx < length keySlice)%nat) by lia.
    pose proof (IH (S idx) (<[(length keySlice - 1 - idx)%nat := part]> keySlice)) as IH'.
    rewrite length_insert in IH'. rewrite IH' by lia.
    rewrite <- app_assoc. f_equal. simpl.
    replace (length rest) with (length keySlice - 1 - idx)%nat by lia.
    rewrite drop_insert_ge by lia. rewrite Nat.sub_diag.
    destruct (lookup_lt_is_Some_2 keySlice _ Hlt) as [x Hx].
    rewrite (drop_S _ x _ Hx). simpl.
    by replace (S (length keySlice - 1 - idx)) with (S (length rest)) by lia.
Qed.

(** Started at index 0 on a slice as long as the parts, the loop leaves the
    parts reversed. *)
Lemma key_loop_all (parts : list string) :
  s3.key_loop (length parts - 1) 0 parts (replicate (length parts) EmptyString) = rev parts.
Proof.
  pose proof (key_loop_reverse parts (replicate (length parts) EmptyString) 0) as Hloop.
  rewrite length_replicate in Hloop. rewrite Hloop by done.
  rewrite drop_ge by (by rewrite length_replicate). by rewrite app_nil_r.
Qed.

(** X1.  The key of a domain in the bucket is made of the labels of the
    domain (its pieces between the dots) in reverse order, separated by "/",
    followed by "cert.json". *)
Theorem s3_key_reverses_labels (domain : string) :
  s3.key domain
  = strings_Join (rev (strings_Split "."%char domain) ++ [s3.storageFilename]) "/".
Proof.
  unfold s3.key.
  pose proof (key_loop_reverse (strings_Split "."%char domain)
                (replicate (length (strings_Split "."%char domain)) EmptyString) 0) as Hloop.
  rewrite length_replicate in Hloop. rewrite Hloop by done.
  rewrite drop_ge by (by rewrite length_replicate). by rewrite app_nil_r.
Qed.

Example s3_key_example : s3.key "foo.my-domain.io" = "io/my-domain/foo/cert.json".
Proof. reflexivity. Qed.

(** X2.  Two domains without a "/" that have the same key are the same
    domain: no two host names share an object of the bucket. *)
Theorem s3_key_injective (d1 d2 : string) :
  free_of "/"%char d1 → free_of "/"%char d2 →
  s3.key d1 = s3.key d2 → d1 = d2.
Proof.
  intros H1 H2 Hkey. unfold s3.key in Hkey. cbv zeta in Hkey.
  rewrite !key_loop_all in Hkey.
  assert (Hfree : ∀ d, free_of "/"%char d →
            Forall (free_of "/"%char)
              (rev (strings_Split "."%char d) ++ [s3.storageFilename])).
  { intros d Hd. apply Forall_app. split.
    - apply Forall_rev. by apply strings_Split_free_of.
    - repeat constructor; done. }
  assert (Hsplit : ∀ d, free_of "/"%char d →
            strings_Split "/"%char
              (strings_Join (rev (strings_Split "."%char d) ++ [s3.storageFilename]) "/")
            = (rev (strings_Split "."%char d) ++ [s3.storageFilename])%list).
  { intros d Hd. apply (strings_Split_Join "/"%char); [|by apply Hfree].
    by intros [_ [=]]%app_eq_nil. }
  apply (f_equal (strings_Split "/"%char)) in Hkey.
  rewrite (Hsplit d1 H1), (Hsplit d2 H2) in Hkey.
  apply app_inj_tail in Hkey as [Hrev _].
  apply (f_equal (@rev string)) in Hrev. rewrite !rev_involutive in Hrev.
  rewrite <- (strings_Join_Split "."%char d1), <- (strings_Join_Split "."%char d2).
  by rewrite Hrev.
Qed.

Lemma s3_key_injective_witness :
  free_of "/"%char "a.example.com"
  ∧ s3.key "a.example.com" = "com/example/a/cert.json"
  ∧ "a.example.com" = "a.example.com".
Proof.
  assert (Hfree : free_of "/"%char "a.example.com")
    by (vm_compute; repeat split; discriminate).
  split; [exact Hfree|]. split; [reflexivity|].
  exact (s3_key_injective "a.example.com" "a.example.com" Hfree Hfree eq_refl).
Defined.

(** With a "/" in a name the keys can collide. *)
Example s3_key_collision : s3.key "b.a" = s3.key "a/b".
Proof. reflexivity. Qed.


(** ** The filesystem backend *)

Section FilesystemLoad.
Context {lib : GoLib} {fsys : fs.FileSystem}.

(** X3.  [LoadAccount] reports an absent account (nil account, nil error) in
    exactly two cases: [os.Stat] fails with a not-exist error, or the file
    exists with size zero. *)
Theorem fs_LoadAccount_nil_iff (s : fs.storage) (domain : string) :
  fs.LoadAccount s domain = (None, None) ↔
  (∃ e, fs.os_Stat (fs.key s domain) = inr e ∧ fs.os_IsNotExist (Some e) = true)
  ∨ (∃ fileInfo, fs.os_Stat (fs.key s domain) = inl fileInfo ∧ fs.Size fileInfo = 0).
Proof.
  unfold fs.LoadAccount.
  destruct (fs.os_Stat (fs.key s domain)) as [fileInfo|e] eqn:Hstat.
  - case_bool_decide as Hsize.
    + split; [|done]. intros _. right. eauto.
    + split.
      * repeat case_match; done.
      * intros [(e & [=] & _)|(fi & [= <-] & Hz)]. done.
  - destruct (fs.os_IsNotExist (Some e)) eqn:Hne.
    + split; [|done]. intros _. left. eauto.
    + split; [done|]. intros [(e' & [= <-] & He)|(fi & [=] & _)]. congruence.
Qed.

(** X4.  [LoadAccount] never returns an account together with an error, and
    it returns an account only when the file exists with a size other than
    zero, can be read, and its content decodes to that account. *)
Theorem fs_LoadAccount_account (s : fs.storage) (domain : string) account err :
  fs.LoadAccount s domain = (Some account, err) →
  err = None
  ∧ ∃ fileInfo file,
      fs.os_Stat (fs.key s domain) = inl fileInfo ∧ fs.Size fileInfo ≠ 0
      ∧ fs.ioutil_ReadFile (fs.key s domain) = inl file
      ∧ fs.json_Unmarshal file
          (mkAccountValue EmptyString None [] (Some types.emptyDomainCertificate))
        = inl account.
Proof.
  unfold fs.LoadAccount.
  destruct (fs.os_Stat (fs.key s domain)) as [fileInfo|e] eqn:Hstat.
  - case_bool_decide as Hsize; [by case_match|].
    destruct (fs.ioutil_ReadFile _) as [file|e] eqn:Hread; [|done].
    destruct (fs.json_Unmarshal _ _) as [a|e] eqn:Hjson; [|done].
    intros [= <- <-]. split; [done|]. eauto 10.
  - by case_match.
Qed.

End FilesystemLoad.

Lemma fs_LoadAccount_account_witness :
  let fsys := toyFileSystem {[ "/var/lib/acme/example.com.json" := [Byte.x7b] ]} in
  let stored := mkAccountValue EmptyString None [] (Some types.emptyDomainCertificate) in
  ∃ fileInfo file,
    fs.os_Stat (FileSystem := fsys) (fs.key (lib := toyGoLib) exampleStorage "example.com")
      = inl fileInfo
    ∧ fs.Size fileInfo ≠ 0
    ∧ fs.ioutil_ReadFile (FileSystem := fsys)
        (fs.key (lib := toyGoLib) exampleStorage "example.com") = inl file
    ∧ fs.json_Unmarshal (FileSystem := fsys) file stored = inl stored.
Proof.
  cbv zeta.
  assert (Hload :
    fs.LoadAccount (lib := toyGoLib)
      (fsys := toyFileSystem {[ "/var/lib/acme/example.com.json" := [Byte.x7b] ]})
      exampleStorage "example.com"
    = (Some (mkAccountValue EmptyString None [] (Some types.emptyDomainCertificate)), None))
    by reflexivity.
  exact (proj2 (fs_LoadAccount_account (lib := toyGoLib) _ _ _ _ Hload)).
Defined.

Section FilesystemSave.
Context {lib : GoLib} {fw : FileWriter}.

(** X5.  [SaveAccount] encodes the account before it looks at its domain: an
    encoding error is returned with the files untouched, whatever the account
    holds; once the account is encoded, an account without
    [DomainsCertificate] or without [Domain] is a nil dereference. *)
Theorem fs_SaveAccount_edges (s : fs.storage) (account : AccountValue)
    (files : gmap string bytes) :
  (∀ e, json_MarshalIndent account = inr e →
        fs_SaveAccount s account files = Ret (Some e, files))
  ∧ (∀ data, json_MarshalIndent account = inl data →
       av_DomainsCertificate account = None
       ∨ (∃ dc, av_DomainsCertificate account = Some dc ∧ types.dc_Domain dc = None) →
       fs_SaveAccount s account files = Panic nil_dereference).
Proof.
  split.
  - intros e He. unfold fs_SaveAccount. by rewrite He.
  - intros data Hdata Hnil. unfold fs_SaveAccount. rewrite Hdata.
    destruct Hnil as [->|(dc & -> & ->)]; done.
Qed.

(** X6.  Save then load.  When the account encodes to a non-empty [data], the
    write succeeds and leaves [data] under the written name, and [data]
    decodes to [account'], then [SaveAccount] returns no error and
    [LoadAccount] for the account's main domain returns [account']: both use
    the same file name.  Were [data] empty, the same load would report an
    absent account. *)
Theorem fs_save_then_load (unmarshal : bytes → AccountValue → AccountValue + error)
    (s : fs.storage) (account account' : AccountValue) dc d data
    (files : gmap string bytes) :
  av_DomainsCertificate account = Some dc →
  types.dc_Domain dc = Some d →
  json_MarshalIndent account = inl data →
  ioutil_WriteFile files (fs.key s (types.Main d)) data
    = (None, <[fs.key s (types.Main d) := data]> files) →
  unmarshal data (mkAccountValue EmptyString None [] (Some types.emptyDomainCertificate))
    = inl account' →
  fs_SaveAccount s account files = Ret (None, <[fs.key s (types.Main d) := data]> files)
  ∧ fs.LoadAccount (fsys := filesOnDisk unmarshal (<[fs.key s (types.Main d) := data]> files))
      s (types.Main d)
    = if decide (data = []) then (None, None) else (Some account', None).
Proof.
  intros Hdc Hd Hdata Hwrite Hjson. split.
  - unfold fs_SaveAccount. by rewrite Hdata, Hdc, Hd, Hwrite.
  - unfold fs.LoadAccount. simpl. rewrite lookup_insert_eq. simpl.
    destruct data as [|b data]; [done|]. simpl length.
    rewrite bool_decide_eq_false_2 by lia. simpl.
    by rewrite lookup_insert_eq, Hjson.
Qed.

End FilesystemSave.

Lemma fs_save_then_load_witness :
  let name := "/var/lib/acme/example.com.json" in
  fs_SaveAccount (lib := toyGoLib) (fw := toyFileWriter) exampleStorage goodSaved ∅
    = Ret (None, {[ name := [Byte.x7b; Byte.x7d] ]})
  ∧ fs.LoadAccount (lib := toyGoLib)
      (fsys := filesOnDisk (λ _ _, inl goodSaved) {[ name := [Byte.x7b; Byte.x7d] ]})
      exampleStorage "example.com"
    = (Some goodSaved, None).
Proof.
  exact (fs_save_then_load (lib := toyGoLib) (fw := toyFileWriter) (λ _ _, inl goodSaved)
           exampleStorage goodSaved goodSaved goodDC exampleDomain [Byte.x7b; Byte.x7d] ∅
           eq_refl eq_refl eq_refl eq_refl eq_refl).
Defined.

Lemma fs_SaveAccount_edges_witness :
  fs_SaveAccount (lib := toyGoLib) (fw := toyFileWriter) exampleStorage null.emptyAccount ∅
  = Panic nil_dereference.
Proof.
  exact (proj2 (fs_SaveAccount_edges (lib := toyGoLib) (fw := toyFileWriter) exampleStorage
                  null.emptyAccount ∅) [Byte.x7b; Byte.x7d] eq_refl (or_introl eq_refl)).
Defined.


(** ** The registry of backends *)

(** X7.  A backend registered under a new name is the one [GetBackend] makes
    for that name, the other names are as before, and registering the same
    name again panics. *)
Theorem RegisterBackend_then_GetBackend (name : string) (f g : backend.Factory)
    (backends : gmap string backend.Factory) :
  backends !! name = None →
  ∃ backends',
    backend.RegisterBackend name f backends = Ret backends'
    ∧ (∀ w, backend.GetBackend backends' name w
            = Ret (f (trace w), mkWorld (heap w) (trace w ++ [EvFactory name])))
    ∧ (∀ other, other ≠ name → backends' !! other = backends !! other)
    ∧ backend.RegisterBackend name g backends'
      = Panic "Authenticator backend %q was registered twice".
Proof.
  intros Hnew. exists (<[name := f]> backends). unfold backend.RegisterBackend.
  rewrite Hnew. split; [done|]. split; [|split].
  - intros w. unfold backend.GetBackend. by rewrite lookup_insert_eq.
  - intros other Hother. by rewrite lookup_insert_ne.
  - by rewrite lookup_insert_eq.
Qed.

Lemma RegisterBackend_then_GetBackend_witness :
  ∃ backends',
    backend.RegisterBackend "null" null.newBackend ∅ = Ret backends'
    ∧ backend.GetBackend backends' "null" (mkWorld ∅ [])
      = Ret ((Some null.null, None), mkWorld ∅ [EvFactory "null"])
    ∧ backend.RegisterBackend "null" null.newBackend backends'
      = Panic "Authenticator backend %q was registered twice".
Proof.
  destruct (RegisterBackend_then_GetBackend "null" null.newBackend null.newBackend ∅
              (lookup_empty "null"))
    as (backends' & Hreg & Hget & _ & Htwice).
  exists backends'. split; [exact Hreg|]. split; [|exact Htwice].
  exact (Hget (mkWorld ∅ [])).
Defined.

(** X8.  For a name that is not empty, [InitBackend] returns either a backend
    and no error or an error and no backend, never both and never neither; it
    calls the factory of the name at most once, and for a name that is not
    registered it calls nothing and the error is "Unknown backend".  For the
    empty name it returns neither, and calls nothing. *)
Theorem InitBackend_backend_or_error (backends : gmap string backend.Factory)
    (name : string) (w : World) :
  (name = EmptyString → backend.InitBackend backends name w = Ret ((None, None), w))
  ∧ (name ≠ EmptyString →
     ∃ b e w',
       backend.InitBackend backends name w = Ret ((b, e), w')
       ∧ (is_Some b ↔ e = None)
       ∧ heap w' = heap w
       ∧ (trace w' = trace w ∨ trace w' = (trace w ++ [EvFactory name])%list)
       ∧ (backends !! name = None →
          e = Some (formatError "Unknown backend %q" name) ∧ trace w' = trace w)).
Proof.
  split.
  - intros ->. done.
  - intros Hname. unfold backend.InitBackend, backend.GetBackend, bind, call, ret.
    rewrite bool_decide_eq_false_2 by done.
    destruct (backends !! name) as [f|] eqn:Hf.
    + destruct (f (trace w)) as [[b|] [e|]] eqn:Hfw; simpl;
        eexists _, _, _; (split; [reflexivity|]); simpl;
        repeat split; auto; try done; try (by intros [? ?]); congruence.
    + eexists _, _, _. split; [reflexivity|]. simpl.
      repeat split; auto; try done; by intros [? ?].
Qed.

Lemma InitBackend_backend_or_error_witness :
  let w := mkWorld ∅ [] in
  ∃ b e w',
    backend.InitBackend (backends (Runtime := toyRuntime)) "fs" w = Ret ((b, e), w')
    ∧ (is_Some b ↔ e = None)
    ∧ heap w' = heap w
    ∧ (trace w' = trace w ∨ trace w' = (trace w ++ [EvFactory "fs"])%list)
    ∧ (backends (Runtime := toyRuntime) !! "fs" = None →
       e = Some (formatError "Unknown backend %q" "fs") ∧ trace w' = trace w).
Proof.
  exact (proj2 (InitBackend_backend_or_error (backends (Runtime := toyRuntime)) "fs"
                  (mkWorld ∅ [])) ltac:(discriminate)).
Defined.


(** ** The S3 backend: load and save *)

Section S3Backend.
Context {lib : s3.Lib}.

(** X9.  On the SDK client, an object that S3 reports as "NoSuchKey" is an
    absent account (nil account, nil error); any other SDK error is returned
    as it is, with no account. *)
Theorem s3_LoadAccount_sdk_error (sdk : s3.ObjectInput → s3.GetObjectOutput + s3.SdkError)
    (s : s3.storage) (domain : string) (e : s3.SdkError) :
  s3.GetObject (s3.client s) = s3.awsSdkS3_GetObject sdk →
  sdk (s3.withSSE s (s3.mkObjectInput None (Some (s3.bucket s)) (Some (s3.key domain))
                       None None None)) = inr e →
  s3.LoadAccount s domain
  = if bool_decide (s3.code e = Some s3.awsErrorNotFound) then (None, None)
    else (None, Some (s3.err e)).
Proof.
  intros Hclient Hsdk. unfold s3.LoadAccount. rewrite Hclient.
  unfold s3.awsSdkS3_GetObject. rewrite Hsdk.
  destruct (s3.code e) as [c|]; [|done].
  case_bool_decide as Hc; [subst c; by rewrite bool_decide_eq_true_2|].
  rewrite bool_decide_eq_false_2; [done|congruence].
Qed.

(** X10.  Save then load.  [SaveAccount] puts the encoded account, and
    [LoadAccount] for the account's main domain asks for the same bucket, key
    and encryption parameters, without body: when S3 answers such a request
    with the bytes that were put and they decode to [account'], the load
    returns [account']. *)
Theorem s3_save_then_load (s : s3.storage) (account account' : AccountValue) dc d data resp :
  av_DomainsCertificate account = Some dc →
  types.dc_Domain dc = Some d →
  s3.MarshalIndent account = inl data →
  let put := s3.withSSE s (s3.mkObjectInput (Some data) (Some (s3.bucket s))
                             (Some (s3.key (types.Main d))) None None None) in
  s3.SaveAccount s account = Ret (s3.PutObject (s3.client s) put)
  ∧ s3.Body put = Some data
  ∧ s3.Bucket put = Some (s3.bucket s)
  ∧ s3.Key put = Some (s3.key (types.Main d))
  ∧ ((∀ get, s3.address get = s3.address put → s3.Body get = None →
             s3.GetObject (s3.client s) get = (Some resp, None)) →
     s3.ReadAll resp = inl data →
     s3.Unmarshal data
       (mkAccountValue EmptyString None [] (Some types.emptyDomainCertificate))
     = inl account' →
     s3.LoadAccount s (types.Main d) = (Some account', None)).
Proof.
  intros Hdc Hd Hdata put. unfold s3.SaveAccount. rewrite Hdata, Hdc, Hd.
  split; [reflexivity|]. subst put.
  unfold s3.withSSE. split; [by case_match|]. split; [by case_match|].
  split; [by case_match|].
  intros Hget Hread Hjson. unfold s3.LoadAccount, s3.withSSE.
  rewrite Hget; [|by case_match|by case_match].
  by rewrite Hread, Hjson.
Qed.

(** X11.  A backend that [newBackend] returns has the bucket of the
    environment, which is not empty, and its client is the one that
    [Storage] gives for the region of the environment; when the environment
    names no region the client is the one for the empty region, whatever the
    instance identity document says. *)
Theorem s3_newBackend_region (awsServices : s3.Services) (st : s3.storage) :
  s3.newBackend awsServices = inl st →
  s3.Getenv s3.awsBucketEnv ≠ EmptyString
  ∧ s3.bucket st = s3.Getenv s3.awsBucketEnv
  ∧ s3.Storage awsServices (s3.Getenv s3.awsRegionEnv) = inl (s3.client st).
Proof.
  unfold s3.newBackend. intros Hnew.
  repeat case_match; simplify_eq; simpl; try done.
  all: repeat match goal with
       | H : bool_decide _ = true |- _ => apply bool_decide_eq_true_1 in H
       | H : bool_decide _ = false |- _ => apply bool_decide_eq_false_1 in H
       end.
  all: split; [done|]; split; [done|]; congruence.
Qed.

End S3Backend.

Lemma s3_LoadAccount_sdk_error_witness :
  s3.LoadAccount (lib := toyS3Lib) emptyBucketStorage "example.com" = (None, None).
Proof.
  exact (s3_LoadAccount_sdk_error (lib := toyS3Lib) _ emptyBucketStorage "example.com"
           {| s3.code := Some "NoSuchKey";
              s3.err := errorString "NoSuchKey: The specified key does not exist." |}
           eq_refl eq_refl).
Defined.

Lemma s3_save_then_load_witness :
  let put := s3.mkObjectInput (Some [Byte.x7b; Byte.x7d]) (Some "certs")
               (Some "com/example/cert.json") (Some "AES256") (Some "secret")
               (Some "md5:secret") in
  s3.SaveAccount (lib := toyS3Lib) toyS3Storage goodSaved = Ret (s3.PutObject toyS3 put)
  ∧ s3.LoadAccount (lib := toyS3Lib) toyS3Storage "example.com"
    = (Some (mkAccountValue EmptyString None [] (Some types.emptyDomainCertificate)), None).
Proof.
  destruct (s3_save_then_load (lib := toyS3Lib) toyS3Storage goodSaved
              (mkAccountValue EmptyString None [] (Some types.emptyDomainCertificate))
              goodDC exampleDomain [Byte.x7b; Byte.x7d]
              {| s3.ReadAll := inl [Byte.x7b; Byte.x7d] |} eq_refl eq_refl eq_refl)
    as (Hsave & _ & _ & _ & Hload).
  split; [exact Hsave|]. apply Hload; reflexivity.
Defined.

Lemma s3_newBackend_region_witness :
  s3.Storage toyServices (s3.Getenv (Lib := toyS3Lib) s3.awsRegionEnv) = inl toyS3.
Proof.
  assert (Hnew : s3.newBackend (lib := toyS3Lib) toyServices
                 = inl {| s3.bucket := "certs"; s3.encryptionAlgorithm := EmptyString;
                          s3.encryptionKey := EmptyString; s3.client := toyS3 |})
    by reflexivity.
  exact (proj2 (proj2 (s3_newBackend_region (lib := toyS3Lib) toyServices _ Hnew))).
Defined.


(** ** Package types: how the methods compose *)

Section TypesComposition.
Context {lib : GoLib}.

(** X12.  [Init] is idempotent: a second [Init] returns what the first one
    returned and leaves the state where the first one left it (a panic of the
    first is the panic of both). *)
Theorem Init_idempotent (dc : option loc) (h : gmap loc types.DomainCertificate) :
  (do _ <- types.Init dc; types.Init dc) h = types.Init dc h.
Proof.
  unfold bind at 1.
  destruct dc as [l|]; [|done].
  destruct (h !! l) as [v|] eqn:Hl.
  2:{ unfold types.Init, types.tlsCert, bind, types.load. simpl. by rewrite Hl. }
  destruct (types.dc_Certificate v) as [c|] eqn:Hc.
  2:{ unfold types.Init, types.tlsCert, bind, types.load. simpl. by rewrite Hl, Hc. }
  rewrite (Init_allocated h l v c Hl Hc).
  destruct (tls_X509KeyPair _ _) as [t|e] eqn:Hp.
  - erewrite Init_allocated; [|apply lookup_insert_eq|exact Hc].
    rewrite Hp. by rewrite insert_insert_eq.
  - by rewrite (Init_allocated h l v c Hl Hc), Hp.
Qed.

(** X13.  After [AddCertificate] with a domain, whatever it returned, a
    [RenewCertificate] with the same domain is not refused: when the bytes of
    the new certificate parse it returns no error, and the object holds the
    new certificate, the domain and the parse of the new bytes. *)
Theorem AddCertificate_then_RenewCertificate (h : gmap loc types.DomainCertificate)
    l v c1 c2 domain t :
  h !! l = Some v →
  tls_X509KeyPair (types.cert_Cert c2) (types.cert_PrivateKey c2) = inl t →
  (do _ <- types.AddCertificate (Some l) (Some c1) domain;
   types.RenewCertificate (Some l) (Some c2) domain) h
  = Ret (None, <[l := types.mkDomainCertificate (Some c2) domain (Some t)]> h).
Proof.
  intros Hl Ht. unfold bind.
  rewrite (AddCertificate_allocated h l v c1 domain Hl).
  destruct (tls_X509KeyPair (types.cert_Cert c1) _) as [t1|e1].
  - pose proof (RenewCertificate_same_domain
                  (<[l := types.mkDomainCertificate (Some c1) domain (Some t1)]> h) l _ c2
                  (lookup_insert_eq _ _ _)) as HR.
    simpl in HR. rewrite HR, Ht. by rewrite insert_insert_eq.
  - pose proof (RenewCertificate_same_domain
                  (<[l := types.mkDomainCertificate (Some c1) domain (types.dc_TLSCert v)]> h)
                  l _ c2 (lookup_insert_eq _ _ _)) as HR.
    simpl in HR. rewrite HR, Ht. by rewrite insert_insert_eq.
Qed.

End TypesComposition.

Lemma AddCertificate_then_RenewCertificate_witness :
  (do _ <- types.AddCertificate (lib := toyGoLib) (Some 1%positive) (Some brokenCert)
             (Some exampleDomain);
   types.RenewCertificate (lib := toyGoLib) (Some 1%positive) (Some goodCert)
     (Some exampleDomain)) {[1%positive := newDC]}
  = Ret (None, <[1%positive := goodDC]> {[1%positive := newDC]}).
Proof.
  assert (Hl : ({[1%positive := newDC]} : gmap loc types.DomainCertificate) !! 1%positive
               = Some newDC) by reflexivity.
  exact (AddCertificate_then_RenewCertificate (lib := toyGoLib) _ 1%positive newDC
           brokenCert goodCert (Some exampleDomain) goodTLS Hl eq_refl).
Defined.

(** ** A new account *)

(** X14.  [NewAccount] generates one 4096-bit key.  When that fails the error
    is returned and no object is made.  Otherwise the account has the given
    email, the encoded key and no registration, and its [DomainCertificate] is
    a new object, with an empty certificate, the given domain and no TLS
    object; the objects that existed are as they were. *)
Theorem NewAccount_new_object {lib : GoLib} {rt : Runtime} (email : string)
    (domain : option types.Domain) (w : World) :
  match rsa_GenerateKey (trace w) 4096 with
  | inr err =>
      NewAccount email domain w
      = Ret (inr err, mkWorld (heap w) (trace w ++ [EvGenerateKey 4096]))
  | inl privateKey =>
      ∃ l,
        heap w !! l = None
        ∧ NewAccount email domain w
          = Ret (inl (types.mkAccount email None
                        (x509_MarshalPKCS1PrivateKey privateKey) (Some l)),
                 mkWorld (<[l := types.mkDomainCertificate (Some types.emptyCertificate)
                                   domain None]> (heap w))
                   (trace w ++ [EvGenerateKey 4096]))
        ∧ ∀ l' v', heap w !! l' = Some v' →
            <[l := types.mkDomainCertificate (Some types.emptyCertificate) domain None]>
              (heap w) !! l' = Some v'
  end.
Proof.
  unfold NewAccount, bind, call.
  destruct (rsa_GenerateKey (trace w) 4096) as [key|err]; [|done].
  exists (fresh (dom (heap w))).
  assert (Hfresh : heap w !! fresh (dom (heap w)) = None).
  { apply not_elem_of_dom. apply is_fresh. }
  split; [done|]. split; [done|].
  intros l' v' Hl'. rewrite lookup_insert_ne; [done|]. congruence.
Qed.


(** ** The expiration policy over time and over the chain *)

Section ExpirationMore.
Context {lib : GoLib}.

(** X15.  A certificate that needs an update keeps needing it as time goes
    on: if [needsUpdate] is true with the clock readings [clock], it is true
    with any readings that are not earlier. *)
Theorem needsUpdate_monotone (clock clock' : Clock) (cert : tls.Certificate) :
  (∀ k, clock k ≤ clock' k) →
  needsUpdate clock (Some cert) = Ret true →
  needsUpdate clock' (Some cert) = Ret true.
Proof.
  intros Hle. unfold needsUpdate. intros [= Hdue]. f_equal.
  apply needsUpdate_range_true. apply needsUpdate_range_true in Hdue.
  destruct Hdue as (i & c & Hi & Hd). exists i, c. split; [done|].
  destruct (x509_ParseCertificate c) as [crt|]; [|done].
  specialize (Hle (0 + i)%nat). lia.
Qed.

(** X16.  The answer for a chain is the disjunction of the answers for its
    parts, the second part being examined with the clock readings that
    follow those of the first: an empty chain never needs an update, and
    bundling further certificates after a chain that needs an update cannot
    turn the answer to false. *)
Theorem needsUpdate_range_app (clock : Clock) (k : nat) (chain more : list bytes) :
  needsUpdate_range clock k (chain ++ more)
  = needsUpdate_range clock k chain
    || needsUpdate_range clock (k + length chain) more.
Proof.
  revert k. induction chain as [|c chain IH]; intros k; simpl.
  - by rewrite Nat.add_0_r.
  - destruct (x509_ParseCertificate c) as [crt|]; [|done].
    destruct (time.Before _ _); [done|].
    rewrite IH. by replace (S k + length chain)%nat with (k + S (length chain))%nat by lia.
Qed.

End ExpirationMore.

Lemma needsUpdate_monotone_witness :
  needsUpdate (lib := toyGoLib) (λ _, 84 * day) (Some goodTLS) = Ret true.
Proof.
  apply (needsUpdate_monotone (lib := toyGoLib) (λ _, 83 * day + 1) (λ _, 84 * day) goodTLS).
  - intros _. vm_compute. discriminate.
  - reflexivity.
Defined.

(** ** The self-signed certificate *)

(** X17.  The template of [generateDerCert] names the given domain as its
    only DNS name.  With a zero [expiration] the clock is read twice, first
    for [NotAfter] and then for [NotBefore], so the validity period is 365
    nanoseconds less the time between the two readings: it is empty as soon as
    the readings are more than 365 ns apart.  With any other [expiration] the
    clock is read once and [NotAfter] is the [expiration] given. *)
Theorem derTemplate_validity (clock : Clock) (serialNumber : Z) (expiration : Time)
    (domain : string) :
  let template := derTemplate clock serialNumber expiration domain in
  x509.DNSNames template = [domain]
  ∧ (expiration = time.zero →
     x509.tpl_NotAfter template - x509.NotBefore template
     = 365 - (clock 1%nat - clock 0%nat)
     ∧ (clock 0%nat + 365 < clock 1%nat →
        x509.tpl_NotAfter template < x509.NotBefore template))
  ∧ (expiration ≠ time.zero →
     x509.tpl_NotAfter template = expiration ∧ x509.NotBefore template = clock 0%nat).
Proof.
  unfold derTemplate, time.IsZero, time.zero, time.Add. cbv zeta.
  case_bool_decide as Hz; simpl; repeat split; intros; try done; lia.
Qed.

Lemma derTemplate_validity_witness :
  let template := derTemplate (λ k, 1000 * Z.of_nat k) 7 time.zero "internal.example" in
  x509.tpl_NotAfter template = 365 ∧ x509.NotBefore template = 1000
  ∧ x509.tpl_NotAfter template < x509.NotBefore template.
Proof.
  cbv zeta. split; [reflexivity|]. split; [reflexivity|].
  apply (proj1 (proj2 (derTemplate_validity (λ k, 1000 * Z.of_nat k) 7 time.zero
                         "internal.example")) eq_refl).
  vm_compute. reflexivity.
Defined.

(** ** The DNS provider *)

(** X18.  [newDNSProvider] panics exactly on the names that are none of its
    cases; on each of its cases it calls one provider constructor and returns
    what the constructor returns, a provider or an error. *)
Theorem newDNSProvider_panics_iff_unknown {rt : Runtime} (dns : string)
    (w : World) :
  (dns ∉ knownDNSProviders ↔ ∃ msg, newDNSProvider dns w = Panic msg)
  ∧ (dns ∈ knownDNSProviders →
     ∃ package,
       newDNSProvider dns w
       = Ret (NewDNSProvider (trace w) package,
              mkWorld (heap w) (trace w ++ [EvNewDNSProvider package]))).
Proof.
  assert (Hknown : dns ∈ knownDNSProviders →
     ∃ package,
       newDNSProvider dns w
       = Ret (NewDNSProvider (trace w) package,
              mkWorld (heap w) (trace w ++ [EvNewDNSProvider package]))).
  { unfold knownDNSProviders. rewrite !elem_of_cons, elem_of_nil.
    unfold newDNSProvider, call.
    intros Hin. repeat (case_bool_decide; [by eexists|]). destruct_or!; done. }
  split; [|done]. split.
  - intros Hdns. eexists. by apply newDNSProvider_unknown.
  - intros [msg Hpanic] Hin. destruct (Hknown Hin) as [package Hret]. congruence.
Qed.


(** ** Renewal and issuance: failures and calls *)

Lemma liftHeap_trace {A : Type} (m : types.St A) w a w' :
  liftHeap m w = Ret (a, w') → trace w' = trace w.
Proof. unfold liftHeap. destruct (m (heap w)) as [[? ?]|]; [|done]. by intros [= <- <-]. Qed.

Lemma backend_SaveAccount_trace b account w e w' :
  backend_SaveAccount b account w = Ret (e, w') →
  heap w' = heap w
  ∧ ∃ name av, trace w' = (trace w ++ [EvSaveAccount name av])%list.
Proof.
  unfold backend_SaveAccount, bind, snapshot, call. destruct b as [b|]; [|done].
  intros [= <- <-]. simpl. eauto.
Qed.

Lemma authority_calls_snoc (tr : list Event) (ev : Event) :
  authority_calls (tr ++ [ev])
  = (authority_calls tr + if is_authority_call ev then 1 else 0)%nat.
Proof.
  unfold authority_calls. rewrite filter_app, length_app. f_equal.
  destruct (is_authority_call ev) eqn:E.
  - by rewrite filter_cons_True.
  - rewrite filter_cons_False; [done|]. by rewrite E.
Qed.

Section RenewalFailures.
Context {lib : GoLib}.

(** X19.  When the client fails to renew a due certificate, [renewCertificate]
    returns the client's error: the certificate in memory is untouched and
    nothing is saved. *)
Theorem renewCertificate_client_error (clock : Clock) a client account w l v c e :
  types.acct_DomainsCertificate account = Some l →
  heap w !! l = Some v →
  needsUpdate clock (types.dc_TLSCert v) = Ret true →
  types.dc_Certificate v = Some c →
  client_RenewCertificate client (trace w) (to_resource c) false = inr e →
  renewCertificate clock a client account w
  = Ret (Some e, mkWorld (heap w) (trace w ++ [EvRenewCertificate (to_resource c) false])).
Proof.
  intros Hdc Hl Hdue Hc He. unfold renewCertificate, bind.
  rewrite Hdc, (liftHeap_load _ _ _ Hl), Hdue, Hc.
  unfold call. by rewrite He.
Qed.

(** X20.  Whatever [renewCertificate] returns, it has made at most one call to
    the authority and at most one save, the save after the call: the trace has
    grown by nothing (and then the state is unchanged and there is no error),
    by one renewal call, or by one renewal call followed by one save. *)
Theorem renewCertificate_calls (clock : Clock) a client account w e w' :
  renewCertificate clock a client account w = Ret (e, w') →
  (w' = w ∧ e = None)
  ∨ (∃ req, trace w' = (trace w ++ [EvRenewCertificate req false])%list
            ∧ is_Some e)
  ∨ (∃ req name av,
       trace w' = (trace w ++ [EvRenewCertificate req false; EvSaveAccount name av])%list).
Proof.
  unfold renewCertificate, bind, ret, panic, call. intros Hrun.
  repeat case_match; simplify_eq;
    repeat match goal with
    | H : liftHeap (types.load _) _ = Ret _ |- _ =>
        apply liftHeap_load_inv in H as [-> ?]
    | H : liftHeap _ _ = Ret _ |- _ => apply liftHeap_trace in H; simpl in H
    | H : backend_SaveAccount _ _ _ = Ret _ |- _ =>
        apply backend_SaveAccount_trace in H as (_ & ? & ? & H); simpl in H
    end.
  all: try (left; done).
  all: try (right; left; eexists; split; [eassumption || reflexivity|by eexists]).
  all: right; right; eexists _, _, _;
       repeat match goal with H : trace _ = _ |- _ => rewrite H; clear H end;
       by rewrite <- app_assoc.
Qed.

End RenewalFailures.

Section IssuanceFailures.
Context {lib : GoLib}.

(** X21.  [retrieveCertificate] asks the client once, for the main domain
    followed by the SANs in their order, with the CA bundled.  When the client
    reports failures, the call returns the error "Error getting ACME
    certificate ..." and no certificate: the state in memory is untouched and
    nothing is saved. *)
Theorem retrieveCertificate_failures a client account w d r failures :
  acme_Domain a = Some d →
  client_ObtainCertificate client (trace w)
    (types.Main d :: slice_elems (types.SANs d)) true = (r, failures) →
  failures ≠ [] →
  retrieveCertificate a client account w
  = Ret ((None,
          Some (wrapError "Error getting ACME certificate for domain %s: %s"
                  (failuresError "Cannot obtain certificates %s+v" failures))),
         mkWorld (heap w)
           (trace w ++ [EvObtainCertificate
                          (types.Main d :: slice_elems (types.SANs d)) true])).
Proof.
  intros Hd Hr Hfail. unfold retrieveCertificate, getDomainCertificate, bind.
  rewrite Hd. cbv zeta. simpl app. unfold call at 1. unfold bundleCA. rewrite Hr. simpl.
  by destruct failures.
Qed.

(** X22.  When the issued bytes do not parse as a key pair,
    [retrieveCertificate] returns the error "Error adding ACME certificate
    ..." and nothing is saved; the [DomainCertificate] in memory holds the
    issued certificate and the configured domain, and the TLS object it had
    before. *)
Theorem retrieveCertificate_unparsable a client account w l v d r e :
  types.acct_DomainsCertificate account = Some l →
  heap w !! l = Some v →
  acme_Domain a = Some d →
  client_ObtainCertificate client (trace w)
    (types.Main d :: slice_elems (types.SANs d)) true = (r, []) →
  tls_X509KeyPair (lego.Certificate r) (lego.PrivateKey r) = inr e →
  retrieveCertificate a client account w
  = Ret ((None, Some (wrapError "Error adding ACME certificate for domain %s: %s" e)),
         mkWorld (<[l := types.mkDomainCertificate (Some (of_resource r)) (Some d)
                           (types.dc_TLSCert v)]> (heap w))
           (trace w ++ [EvObtainCertificate
                          (types.Main d :: slice_elems (types.SANs d)) true])).
Proof.
  intros Hdc Hl Hd Hr He. unfold retrieveCertificate, getDomainCertificate, bind.
  rewrite Hd. cbv zeta. simpl app. unfold call at 1. unfold bundleCA. rewrite Hr. simpl.
  rewrite Hdc. unfold liftHeap at 1. simpl heap.
  rewrite (AddCertificate_allocated _ _ _ _ _ Hl).
  cbn [types.cert_Cert types.cert_PrivateKey of_resource]. by rewrite He.
Qed.

(** X23.  When issuance, parse and save all succeed, [retrieveCertificate]
    returns the parsed TLS certificate; it is the TLS object of the
    [DomainCertificate] in memory, and the account that was saved holds that
    same [DomainCertificate]: what is served is what was stored. *)
Theorem retrieveCertificate_success a client account w l v d b r t :
  types.acct_DomainsCertificate account = Some l →
  heap w !! l = Some v →
  acme_Domain a = Some d →
  acme_backend a = Some b →
  client_ObtainCertificate client (trace w)
    (types.Main d :: slice_elems (types.SANs d)) bundleCA = (r, []) →
  tls_X509KeyPair (lego.Certificate r) (lego.PrivateKey r) = inl t →
  let tr := (trace w ++ [EvObtainCertificate
                           (types.Main d :: slice_elems (types.SANs d)) bundleCA])%list in
  let v' := types.mkDomainCertificate (Some (of_resource r)) (Some d) (Some t) in
  let av := mkAccountValue (types.acct_Email account) (types.acct_Registration account)
              (types.acct_PrivateKey account) (Some v') in
  backend.SaveAccount b tr av = None →
  ∃ w',
    retrieveCertificate a client account w = Ret ((Some t, None), w')
    ∧ heap w' !! l = Some v'
    ∧ trace w' = (tr ++ [EvSaveAccount (backend.Name b) av])%list.
Proof.
  intros Hdc Hl Hd Hb Hr Ht tr v' av Hsave.
  rewrite (retrieveCertificate_issued a client account w l v d b r t Hdc Hl Hd Hb Hr Ht).
  cbv zeta. fold tr v' av. rewrite Hsave. eexists. split; [done|]. simpl.
  split; [apply lookup_insert_eq|done].
Qed.

End IssuanceFailures.

Lemma renewCertificate_client_error_witness :
  renewCertificate (lib := toyGoLib) toyClock (exampleACME None)
    (failingClient (errorString "rate limited")) exampleAccount
    (mkWorld {[1%positive := staleDC]} [])
  = Ret (Some (errorString "rate limited"),
         mkWorld {[1%positive := staleDC]}
           [EvRenewCertificate (to_resource staleCert) false]).
Proof.
  assert (Hl : heap (mkWorld {[1%positive := staleDC]} []) !! 1%positive = Some staleDC)
    by reflexivity.
  exact (renewCertificate_client_error (lib := toyGoLib) toyClock (exampleACME None)
           (failingClient (errorString "rate limited")) exampleAccount
           (mkWorld {[1%positive := staleDC]} []) 1%positive staleDC staleCert
           (errorString "rate limited") eq_refl Hl eq_refl eq_refl eq_refl).
Defined.

Lemma renewCertificate_calls_witness :
  let w := mkWorld {[1%positive := staleDC]} [] in
  let w' := mkWorld {[1%positive := staleDC]}
              [EvRenewCertificate (to_resource staleCert) false] in
  (w' = w ∧ Some (errorString "rate limited") = None)
  ∨ (∃ req, trace w' = (trace w ++ [EvRenewCertificate req false])%list
            ∧ is_Some (Some (errorString "rate limited")))
  ∨ (∃ req name av,
       trace w' = (trace w ++ [EvRenewCertificate req false; EvSaveAccount name av])%list).
Proof.
  cbv zeta.
  assert (Hrun :
    renewCertificate (lib := toyGoLib) toyClock (exampleACME None)
      (failingClient (errorString "rate limited")) exampleAccount
      (mkWorld {[1%positive := staleDC]} [])
    = Ret (Some (errorString "rate limited"),
           mkWorld {[1%positive := staleDC]}
             [EvRenewCertificate (to_resource staleCert) false])) by reflexivity.
  exact (renewCertificate_calls (lib := toyGoLib) _ _ _ _ _ _ _ Hrun).
Defined.

Lemma retrieveCertificate_failures_witness :
  retrieveCertificate (lib := toyGoLib) (exampleACME None)
    (failingClient (errorString "rate limited")) exampleAccount
    (mkWorld {[1%positive := newDC]} [])
  = Ret ((None,
          Some (wrapError "Error getting ACME certificate for domain %s: %s"
                  (failuresError "Cannot obtain certificates %s+v"
                     [("example.com", errorString "rate limited")]))),
         mkWorld {[1%positive := newDC]} [EvObtainCertificate ["example.com"] true]).
Proof.
  exact (retrieveCertificate_failures (lib := toyGoLib) (exampleACME None)
           (failingClient (errorString "rate limited")) exampleAccount
           (mkWorld {[1%positive := newDC]} []) exampleDomain
           (to_resource types.emptyCertificate)
           [("example.com", errorString "rate limited")] eq_refl eq_refl
           ltac:(discriminate)).
Defined.

Lemma retrieveCertificate_unparsable_witness :
  retrieveCertificate (lib := toyGoLib) (exampleACME None)
    (toyClient (to_resource brokenCert)) exampleAccount (mkWorld {[1%positive := newDC]} [])
  = Ret ((None,
          Some (wrapError "Error adding ACME certificate for domain %s: %s"
                  (errorString "tls: failed to find any PEM data in certificate input"))),
         mkWorld (<[1%positive := types.mkDomainCertificate (Some brokenCert)
                                    (Some exampleDomain) None]> {[1%positive := newDC]})
           [EvObtainCertificate ["example.com"] true]).
Proof.
  assert (Hl : heap (mkWorld {[1%positive := newDC]} []) !! 1%positive = Some newDC)
    by reflexivity.
  exact (retrieveCertificate_unparsable (lib := toyGoLib) (exampleACME None)
           (toyClient (to_resource brokenCert)) exampleAccount
           (mkWorld {[1%positive := newDC]} []) 1%positive newDC exampleDomain
           (to_resource brokenCert)
           (errorString "tls: failed to find any PEM data in certificate input")
           eq_refl Hl eq_refl eq_refl eq_refl).
Defined.

Lemma retrieveCertificate_success_witness :
  ∃ w',
    retrieveCertificate (lib := toyGoLib) (exampleACME None)
      (toyClient (to_resource goodCert)) exampleAccount (mkWorld {[1%positive := newDC]} [])
    = Ret ((Some goodTLS, None), w')
    ∧ heap w' !! 1%positive = Some goodDC
    ∧ trace w' = [EvObtainCertificate ["example.com"] true; EvSaveAccount "toy" goodSaved].
Proof.
  assert (Hl : heap (mkWorld {[1%positive := newDC]} []) !! 1%positive = Some newDC)
    by reflexivity.
  exact (retrieveCertificate_success (lib := toyGoLib) (exampleACME None)
           (toyClient (to_resource goodCert)) exampleAccount
           (mkWorld {[1%positive := newDC]} []) 1%positive newDC exampleDomain
           (toyBackend None) (to_resource goodCert) goodTLS
           eq_refl Hl eq_refl eq_refl eq_refl eq_refl eq_refl).
Defined.

Lemma newDNSProvider_panics_iff_unknown_witness :
  ∃ package,
    newDNSProvider (rt := toyRuntime) "gcloud" (mkWorld ∅ [])
    = Ret (inl (DNSProvider package), mkWorld ∅ [EvNewDNSProvider package]).
Proof.
  apply (proj2 (newDNSProvider_panics_iff_unknown (rt := toyRuntime) "gcloud"
                  (mkWorld ∅ []))).
  unfold knownDNSProviders. rewrite !elem_of_cons. tauto.
Defined.


(** ** The bootstrap *)

Section BootstrapProperties.
Context {lib : GoLib} {rt : Runtime}.

(** X24.  When [CreateConfig] returns an error, it has installed nothing and
    started nothing: the [tls.Config] is as it was given and no goroutine
    runs. *)
Theorem CreateConfig_error_installs_nothing (clock : Clock) a tlsConfig w e a' tlsConfig'
    tasks w' :
  CreateConfig clock a tlsConfig w = Ret ((Some e, a', tlsConfig', tasks), w') →
  tlsConfig' = tlsConfig ∧ tasks = [].
Proof.
  unfold CreateConfig, bind, ret, panic. intros Hrun.
  repeat case_match; simplify_eq; done.
Qed.

(** X25.  In self-signed mode [CreateConfig] touches neither the backend nor
    the authority: whatever it returns, the calls it has made are key
    generation, random numbers and certificate signing only, and no goroutine
    is started.  The [ACME] struct is as it was when it had a logger; a nil
    [Logger] has been replaced by the logger to standard output, and no other
    field has changed.  The certificate callback is as it was, and on success
    the [tls.Config] holds exactly one certificate. *)
Theorem CreateConfig_self_signed (clock : Clock) a tlsConfig w e a' tlsConfig' tasks w' :
  acme_SelfSigned a = true →
  CreateConfig clock a tlsConfig w = Ret ((e, a', tlsConfig', tasks), w') →
  (is_Some (acme_Logger a) → a' = a)
  ∧ (acme_Logger a = None →
     a' = set_Logger
            (Some (logger.log_New "os.Stdout" "[go-acme] "
                     (Z.lor (Z.lor log.Ldate log.Ltime) log.Lshortfile))) a)
  ∧ tasks = [] ∧ heap w' = heap w
  ∧ GetCertificate tlsConfig' = GetCertificate tlsConfig
  ∧ (e = None → ∃ cert, Certificates tlsConfig' = [cert])
  ∧ ∃ calls,
      trace w' = (trace w ++ calls)%list
      ∧ Forall (λ ev, match ev with
                      | EvGenerateKey _ | EvRandInt _ | EvCreateCertificate _ _ => True
                      | _ => False
                      end) calls.
Proof.
  intros Hself. unfold CreateConfig. cbv zeta.
  rewrite CreateConfig_logger_Domain, CreateConfig_logger_SelfSigned, Hself.
  assert (Hlogger :
    (is_Some (acme_Logger a) → CreateConfig_logger a = a)
    ∧ (acme_Logger a = None →
       CreateConfig_logger a
       = set_Logger
           (Some (logger.log_New "os.Stdout" "[go-acme] "
                    (Z.lor (Z.lor log.Ldate log.Ltime) log.Lshortfile))) a)).
  { unfold CreateConfig_logger. destruct (acme_Logger a); split; try done;
      by intros [? ?]. }
  destruct Hlogger as [Hset Hnil]. revert Hset Hnil.
  generalize (CreateConfig_logger a). intros a0 Hset Hnil.
  unfold generateSelfSignedCertificate, generatePemCert, generateDerCert, bind, ret, panic,
    call.
  intros Hrun. repeat case_match; simplify_eq; simpl.
  all: split; [exact Hset|]; split; [exact Hnil|].
  all: repeat split; try done; eauto.
  all: eexists; (split; [rewrite <- ?app_assoc; reflexivity|]); by repeat constructor.
Qed.

(** X26.  With the null backend [CreateConfig] panics: the backend's
    [LoadAccount] returns an account without [DomainCertificate], and
    [CreateConfig] calls [Init] through that nil pointer. *)
Theorem CreateConfig_null_backend_panics (clock : Clock) a tlsConfig w d :
  acme_Domain a = Some d →
  types.Main d ≠ EmptyString →
  acme_SelfSigned a = false →
  acme_BackendName a = null.backendName →
  backends !! null.backendName = Some null.newBackend →
  CreateConfig clock a tlsConfig w = Panic nil_dereference.
Proof.
  intros Hd Hmain Hself Hname Hreg. unfold CreateConfig. cbv zeta.
  rewrite CreateConfig_logger_Domain, CreateConfig_logger_SelfSigned.
  rewrite Hd, bool_decide_eq_false_2, Hself by done.
  unfold bind at 1. unfold CreateConfig_client.
  rewrite CreateConfig_logger_BackendName.
  rewrite Hname. case_bool_decide; [done|]. cbv beta iota zeta.
  rewrite CreateConfig_logger_BackendName.
  unfold backend.InitBackend, backend.GetBackend, bind at 1 2.
  rewrite Hname. case_bool_decide; [done|]. cbv beta iota zeta.
  destruct (backends !! null.backendName) as [f|] eqn:Hf; [|done].
  injection Hreg as ->. done.
Qed.

(** X27.  With an empty [BackendName], [CreateConfig] in ACME mode does what
    it does with the name "fs". *)
Theorem CreateConfig_default_backend (clock : Clock) a tlsConfig w :
  acme_BackendName a = EmptyString →
  acme_SelfSigned a = false →
  CreateConfig clock a tlsConfig w = CreateConfig clock (set_BackendName "fs" a) tlsConfig w.
Proof.
  intros Hname Hself. unfold CreateConfig. cbv zeta.
  assert (Hlogger : CreateConfig_logger (set_BackendName "fs" a)
                    = set_BackendName "fs" (CreateConfig_logger a))
    by (unfold CreateConfig_logger; simpl; by destruct (acme_Logger a)).
  rewrite Hlogger. simpl.
  rewrite CreateConfig_logger_Domain, CreateConfig_logger_SelfSigned, Hself.
  destruct (acme_Domain a) as [d|]; [|done].
  case_bool_decide; [done|].
  unfold CreateConfig_client. simpl. by rewrite CreateConfig_logger_BackendName, Hname.
Qed.

End BootstrapProperties.


Section BootstrapInversion.
Context {lib : GoLib} {rt : Runtime}.

Lemma Init_success_inv (dc : option loc) (h h' : gmap loc types.DomainCertificate) :
  types.Init dc h = Ret (None, h') →
  ∃ l v, dc = Some l ∧ h' !! l = Some v ∧ is_Some (types.dc_TLSCert v).
Proof.
  unfold types.Init, types.tlsCert, types.load, types.update, bind, ret, panic.
  destruct dc as [l|]; simpl; [|done].
  destruct (h !! l) as [v|] eqn:Hl; [|done].
  destruct (types.dc_Certificate v); [|done].
  destruct (tls_X509KeyPair _ _); [|done].
  rewrite Hl. intros [= <-]. eexists l, _. rewrite lookup_insert_eq. eauto.
Qed.

Lemma AddCertificate_success_inv (dc : option loc) acmeCert domain
    (h h' : gmap loc types.DomainCertificate) :
  types.AddCertificate dc acmeCert domain h = Ret (None, h') →
  ∃ l v, dc = Some l ∧ h' !! l = Some v ∧ is_Some (types.dc_TLSCert v).
Proof.
  unfold types.AddCertificate, bind. intros Hrun.
  repeat case_match; simplify_eq. by eapply Init_success_inv.
Qed.

(** A successful issuance leaves a TLS object in the account's
    [DomainCertificate] and returns it. *)
Lemma retrieveCertificate_success_inv a client account w t w' :
  retrieveCertificate a client account w = Ret ((t, None), w') →
  ∃ l v, types.acct_DomainsCertificate account = Some l
         ∧ heap w' !! l = Some v ∧ is_Some (types.dc_TLSCert v).
Proof.
  unfold retrieveCertificate, bind, ret, panic. intros Hrun.
  repeat case_match; simplify_eq.
  repeat match goal with
  | H : liftHeap (types.load _) _ = Ret _ |- _ => apply liftHeap_load_inv in H as [-> ?]
  | H : backend_SaveAccount _ _ _ = Ret _ |- _ =>
      apply backend_SaveAccount_trace in H as [Hheap _]
  | H : liftHeap (types.AddCertificate _ _ _) ?w0 = Ret (None, _) |- _ =>
      unfold liftHeap in H;
      destruct (types.AddCertificate _ _ _ (heap w0)) as [[? ?]|] eqn:HAdd; [|done];
      injection H as -> <-;
      apply AddCertificate_success_inv in HAdd as (l & v & Hdc & Hl & HT)
  end.
  simpl in Hheap. exists l, v. by rewrite Hheap.
Qed.

(** The account that [CreateConfig] works with has an allocated
    [DomainCertificate]: a stored one with its TLS object, or a new one with
    the empty certificate. *)
Lemma CreateConfig_loadAccount_account a b d w account needRegister w' :
  CreateConfig_loadAccount a b d w = Ret (inl (account, needRegister), w') →
  ∃ l v, types.acct_DomainsCertificate account = Some l ∧ heap w' !! l = Some v
         ∧ if needRegister then types.dc_Certificate v = Some types.emptyCertificate
           else is_Some (types.dc_TLSCert v).
Proof.
  unfold CreateConfig_loadAccount, NewAccount, materialise, bind, call, ret.
  intros Hrun. repeat case_match; simplify_eq.
  - match goal with
    | H : liftHeap (types.Init _) ?w0 = Ret (None, _) |- _ =>
        unfold liftHeap in H;
        destruct (types.Init _ (heap w0)) as [[? ?]|] eqn:HInit; [|done];
        injection H as -> <-;
        apply Init_success_inv in HInit as (l' & v & Hdc & Hl & HT)
    end.
    simpl in *. eauto.
  - match goal with
    | H : liftHeap (alloc _) _ = Ret _ |- _ =>
        unfold liftHeap, alloc in H; simpl in H; injection H as <- <-
    end.
    simpl. eexists _, _. split; [done|]. by rewrite lookup_insert_eq.
Qed.

Lemma CreateConfig_client_account a d w a' account needRegister client w' :
  CreateConfig_client a d w = Ret (inl (a', account, needRegister, client), w') →
  ∃ l v, types.acct_DomainsCertificate account = Some l ∧ heap w' !! l = Some v
         ∧ if needRegister then types.dc_Certificate v = Some types.emptyCertificate
           else is_Some (types.dc_TLSCert v).
Proof.
  unfold CreateConfig_client, bind, call, ret, panic. intros Hrun.
  repeat case_match; simplify_eq.
  all: match goal with
       | H : CreateConfig_loadAccount _ _ _ _ = Ret _ |- _ =>
           apply CreateConfig_loadAccount_account in H as (l & v & Hdc & Hl & Hv)
       end.
  all: match goal with
       | H : buildACMEClient _ _ _ = Ret _ |- _ => apply buildACMEClient_heap in H
       end.
  all: simpl; exists l, v; split; [done|]; split; [congruence|done].
Qed.

End BootstrapInversion.


Section BootstrapSuccess.
Context {lib : GoLib} {rt : Runtime}.

(** X28.  After a [CreateConfig] that succeeds in ACME mode, the installed
    callback returns a certificate, not nil, for the configured main domain;
    the 24-hour renewal loop has been started, preceded by at most one
    immediate renewal, and these tasks work on the [DomainCertificate] that
    the callback reads. *)
Theorem CreateConfig_success_serves (clock : Clock) a tlsConfig w a' tlsConfig' tasks w' :
  acme_SelfSigned a = false →
  CreateConfig clock a tlsConfig w = Ret ((None, a', tlsConfig', tasks), w') →
  ∃ d t client account,
    acme_Domain a' = Some d
    ∧ GetCertificate tlsConfig' = Some (resolver (types.acct_DomainsCertificate account))
    ∧ resolver (types.acct_DomainsCertificate account) a' w'
        {| tls.ServerName := types.Main d |} = Ret (Some t, None)
    ∧ (tasks = [RenewEvery (24 * time.Hour) client account]
       ∨ tasks = [RenewOnce client account; RenewEvery (24 * time.Hour) client account]).
Proof.
  intros Hself. unfold CreateConfig. cbv zeta.
  rewrite CreateConfig_logger_Domain, CreateConfig_logger_SelfSigned, Hself.
  destruct (acme_Domain a) as [d|] eqn:Hd; [|done].
  case_bool_decide as Hmain; [done|].
  unfold bind at 1.
  destruct (CreateConfig_client _ d w) as [[[[[[a1 account] needRegister] client]|[err a1]] w1]|]
    eqn:Hclient; [| |done].
  2:{ by intros [=]. }
  destruct (CreateConfig_client_fields _ _ _ _ _ _ _ _ Hclient) as (Hd1 & _ & _).
  rewrite CreateConfig_logger_Domain in Hd1.
  destruct (CreateConfig_client_account _ _ _ _ _ _ _ _ Hclient) as (l & v & Hdc & Hl & Hv).
  unfold bind, ret, panic, call. intros Hrun.
  set (stored := if needRegister then _ else _) in Hv.
  repeat case_match; simplify_eq.
  all: repeat match goal with
       | H : newDNSProvider _ _ = Ret _ |- _ => apply newDNSProvider_heap in H; simpl in H
       | H : CreateConfig_register _ _ _ _ = Ret _ |- _ =>
           apply CreateConfig_register_account in H as [? ?]; simpl in *
       | H : liftHeap (types.load _) _ = Ret _ |- _ =>
           apply liftHeap_load_inv in H as [-> ?]
       | H : retrieveCertificate _ _ _ _ = Ret _ |- _ =>
           apply retrieveCertificate_success_inv in H as (l' & v' & ? & ? & [t' ?])
       end.
  - (* a certificate was there: immediate renewal started *)
    match goal with
    | Hload : types.acct_DomainsCertificate ?acc ≫= _ = Some ?v0 |- _ =>
        assert (Hv0 : v0 = v)
          by (assert (types.acct_DomainsCertificate acc = Some l) as Ha by congruence;
              rewrite Ha in Hload; simpl in Hload; congruence)
    end.
    subst. subst stored. destruct needRegister.
    + match goal with
      | H : types.dc_Certificate v = Some ?c, H' : types.dc_Certificate v = Some _ |- _ =>
          rewrite H in H'; injection H' as <-
      end.
      match goal with H : _ && _ = true |- _ => by apply andb_prop in H as [? ?] end.
    + destruct Hv as [t Ht]. eexists d, t, _, _. rewrite Hd1.
      split; [done|]. split; [done|]. split; [|right; done].
      unfold resolver. rewrite Hd1, Hd. rewrite bool_decide_eq_false_2 by (intros ?; done).
      match goal with Hload : _ ≫= _ = Some v |- _ => rewrite Hload end.
      by rewrite Ht.
  - (* a certificate was issued *)
    eexists d, t', _, _. rewrite Hd1.
    split; [done|]. split; [done|]. split; [|left; done].
    unfold resolver. rewrite Hd1, Hd. rewrite bool_decide_eq_false_2 by (intros ?; done).
    match goal with
    | Ha : types.acct_DomainsCertificate _ = Some l', Hh : heap w' !! l' = Some v' |- _ =>
        rewrite Ha; simpl; rewrite Hh
    end.
    congruence.
Qed.

End BootstrapSuccess.


(** ** What the bootstrap costs *)

Lemma authority_calls_app (tr calls : list Event) :
  authority_calls (tr ++ calls) = (authority_calls tr + authority_calls calls)%nat.
Proof. unfold authority_calls. by rewrite filter_app, length_app. Qed.

Lemma saves_app (tr calls : list Event) :
  saves (tr ++ calls) = (saves tr + saves calls)%nat.
Proof. unfold saves. by rewrite filter_app, length_app. Qed.

Lemma cost_calls w w' calls :
  trace w' = (trace w ++ calls)%list → cost w w' (authority_calls calls) (saves calls).
Proof. intros Htr. unfold cost. by rewrite Htr, authority_calls_app, saves_app. Qed.

Lemma cost_trans w1 w2 w3 n1 m1 n2 m2 :
  cost w1 w2 n1 m1 → cost w2 w3 n2 m2 → cost w1 w3 (n1 + n2) (m1 + m2).
Proof. unfold cost. intros [? ?] [? ?]. lia. Qed.

Section BootstrapCost.
Context {lib : GoLib} {rt : Runtime}.

Lemma cost_refl w : cost w w 0 0.
Proof. unfold cost. lia. Qed.

Lemma InitBackend_cost registry name w r w' :
  backend.InitBackend registry name w = Ret (r, w') → cost w w' 0 0.
Proof.
  unfold backend.InitBackend, backend.GetBackend, bind, call, ret. intros Hrun.
  repeat case_match; simplify_eq.
  all: unfold cost; simpl; rewrite ?authority_calls_snoc, ?saves_snoc; simpl; lia.
Qed.







End BootstrapCost.


Section BootstrapCalls.
Context {lib : GoLib} {rt : Runtime}.


End BootstrapCalls.


Section CorruptStorage.
Context {lib : GoLib} {rt : Runtime}.

(** X30.  When the backend holds an account whose certificate bytes do not
    parse as a key pair, [CreateConfig] returns the parse error right after
    the load: no client is built, the authority is not called and nothing is
    saved.  The [ACME] struct has its logger, the backend name and the
    backend. *)
Theorem CreateConfig_corrupt_storage (clock : Clock) a tlsConfig w d b w0 stored dc c e :
  acme_Domain a = Some d →
  types.Main d ≠ EmptyString →
  acme_SelfSigned a = false →
  let a0 := if bool_decide (acme_BackendName a = EmptyString) then set_BackendName "fs" a
            else a in
  backend.InitBackend backends (acme_BackendName a0) w = Ret ((Some b, None), w0) →
  backend.LoadAccount b (trace w0) (types.Main d) = (Some stored, None) →
  av_DomainsCertificate stored = Some dc →
  types.dc_Certificate dc = Some c →
  tls_X509KeyPair (types.cert_Cert c) (types.cert_PrivateKey c) = inr e →
  ∃ w',
    CreateConfig clock a tlsConfig w
    = Ret ((Some e, CreateConfig_logger (set_backend (Some b) a0), tlsConfig, []), w')
    ∧ trace w' = (trace w0 ++ [EvLoadAccount (backend.Name b) (types.Main d)])%list
    ∧ cost w w' 0 0.
Proof.
  intros Hd Hmain Hself a0 Hinit Hload Hdc Hc He.
  pose proof (InitBackend_cost _ _ _ _ _ Hinit) as Hcost.
  assert (Hclient : ∃ w',
    CreateConfig_client a d w = Ret (inr (e, set_backend (Some b) a0), w')
    ∧ trace w' = (trace w0 ++ [EvLoadAccount (backend.Name b) (types.Main d)])%list
    ∧ cost w w' 0 0).
  { unfold CreateConfig_client. fold a0. cbv zeta.
    unfold bind at 1. rewrite Hinit.
    unfold bind at 1. unfold CreateConfig_loadAccount, bind at 1, call at 1.
    rewrite Hload. unfold bind at 1. unfold materialise. rewrite Hdc.
    unfold bind at 1, liftHeap at 1, alloc. simpl.
    unfold bind at 1, liftHeap at 1. simpl.
    erewrite Init_allocated; [|apply lookup_insert_eq|exact Hc]. rewrite He. simpl.
    eexists. split; [reflexivity|]. simpl. split; [done|].
    unfold cost in *. simpl. rewrite authority_calls_snoc, saves_snoc. simpl. lia. }
  destruct Hclient as (w' & Hclient & Htrace & Hcost').
  exists w'. split; [|done].
  unfold CreateConfig. cbv zeta.
  rewrite CreateConfig_logger_Domain, CreateConfig_logger_SelfSigned.
  rewrite Hd, bool_decide_eq_false_2, Hself by done.
  unfold bind at 1. by rewrite CreateConfig_client_logger, Hclient.
Qed.

End CorruptStorage.

Lemma CreateConfig_corrupt_storage_witness :
  ∃ w',
    CreateConfig (lib := toyGoLib) (rt := storedRuntime brokenStored) toyClock storedACME
      (mk_tls_Config [] None) (mkWorld ∅ [])
    = Ret ((Some (errorString "tls: failed to find any PEM data in certificate input"),
            set_backend (Some (storedBackend brokenStored)) storedACME,
            mk_tls_Config [] None, []), w')
    ∧ trace w' = [EvFactory "stored"; EvLoadAccount "stored" "example.com"]
    ∧ cost (mkWorld ∅ []) w' 0 0.
Proof.
  exact (CreateConfig_corrupt_storage (lib := toyGoLib) (rt := storedRuntime brokenStored)
           toyClock storedACME (mk_tls_Config [] None) (mkWorld ∅ []) exampleDomain
           (storedBackend brokenStored) (mkWorld ∅ [EvFactory "stored"]) brokenStored
           (types.mkDomainCertificate (Some brokenCert) (Some exampleDomain) None) brokenCert
           (errorString "tls: failed to find any PEM data in certificate input")
           eq_refl ltac:(discriminate) eq_refl eq_refl eq_refl eq_refl eq_refl eq_refl).
Defined.

Lemma CreateConfig_error_installs_nothing_witness :
  ∃ e a' tlsConfig' tasks w',
    CreateConfig (lib := toyGoLib) (rt := toyRuntime) toyClock defaultBackendACME
      (mk_tls_Config [] None) (mkWorld ∅ []) = Ret ((Some e, a', tlsConfig', tasks), w')
    ∧ tlsConfig' = mk_tls_Config [] None ∧ tasks = [].
Proof.
  assert (Hrun : ∃ e a' tlsConfig' tasks w',
    CreateConfig (lib := toyGoLib) (rt := toyRuntime) toyClock defaultBackendACME
      (mk_tls_Config [] None) (mkWorld ∅ []) = Ret ((Some e, a', tlsConfig', tasks), w'))
    by (do 5 eexists; vm_compute; reflexivity).
  destruct Hrun as (e & a' & tlsConfig' & tasks & w' & Hrun).
  exists e, a', tlsConfig', tasks, w'. split; [exact Hrun|].
  exact (CreateConfig_error_installs_nothing (lib := toyGoLib) (rt := toyRuntime)
           _ _ _ _ _ _ _ _ _ Hrun).
Defined.

Lemma CreateConfig_self_signed_witness :
  ∃ a' tlsConfig' tasks w',
    CreateConfig (lib := toyGoLib) (rt := toyRuntime) toyClock selfSignedACME
      (mk_tls_Config [] None) (mkWorld ∅ []) = Ret ((None, a', tlsConfig', tasks), w')
    ∧ a' = set_Logger
             (Some (logger.log_New "os.Stdout" "[go-acme] "
                      (Z.lor (Z.lor log.Ldate log.Ltime) log.Lshortfile))) selfSignedACME
    ∧ tasks = [] ∧ GetCertificate tlsConfig' = None
    ∧ (∃ cert, Certificates tlsConfig' = [cert])
    ∧ cost (mkWorld ∅ []) w' 0 0.
Proof.
  assert (Hrun : ∃ a' tlsConfig' tasks w',
    CreateConfig (lib := toyGoLib) (rt := toyRuntime) toyClock selfSignedACME
      (mk_tls_Config [] None) (mkWorld ∅ []) = Ret ((None, a', tlsConfig', tasks), w')
    ∧ cost (mkWorld ∅ []) w' 0 0)
    by (do 4 eexists; split; [vm_compute; reflexivity|split; reflexivity]).
  destruct Hrun as (a' & tlsConfig' & tasks & w' & Hrun & Hcost).
  exists a', tlsConfig', tasks, w'. split; [exact Hrun|].
  destruct (CreateConfig_self_signed (lib := toyGoLib) (rt := toyRuntime) toyClock
              selfSignedACME (mk_tls_Config [] None) (mkWorld ∅ []) None a' tlsConfig' tasks w'
              eq_refl Hrun) as (_ & Ha & Htasks & _ & Hget & Hcert & _).
  split; [exact (Ha eq_refl)|]. split; [exact Htasks|]. split; [exact Hget|].
  split; [exact (Hcert eq_refl)|exact Hcost].
Defined.

Lemma CreateConfig_null_backend_panics_witness :
  CreateConfig (lib := toyGoLib) (rt := nullRuntime) toyClock nullACME
    (mk_tls_Config [] None) (mkWorld ∅ []) = Panic nil_dereference.
Proof.
  exact (CreateConfig_null_backend_panics (lib := toyGoLib) (rt := nullRuntime) toyClock
           nullACME (mk_tls_Config [] None) (mkWorld ∅ []) exampleDomain
           eq_refl ltac:(discriminate) eq_refl eq_refl eq_refl).
Defined.

Lemma CreateConfig_default_backend_witness :
  CreateConfig (lib := toyGoLib) (rt := toyRuntime) toyClock defaultBackendACME
    (mk_tls_Config [] None) (mkWorld ∅ [])
  = CreateConfig (lib := toyGoLib) (rt := toyRuntime) toyClock
      (set_BackendName "fs" defaultBackendACME) (mk_tls_Config [] None) (mkWorld ∅ []).
Proof.
  exact (CreateConfig_default_backend (lib := toyGoLib) (rt := toyRuntime) toyClock
           defaultBackendACME (mk_tls_Config [] None) (mkWorld ∅ []) eq_refl eq_refl).
Defined.

Lemma CreateConfig_success_serves_witness :
  ∃ a' tlsConfig' tasks w',
    CreateConfig (lib := toyGoLib) (rt := storedRuntime goodStored) toyClock storedACME
      (mk_tls_Config [] None) (mkWorld ∅ []) = Ret ((None, a', tlsConfig', tasks), w')
    ∧ ∃ d t client account,
        acme_Domain a' = Some d
        ∧ GetCertificate tlsConfig' = Some (resolver (types.acct_DomainsCertificate account))
        ∧ resolver (types.acct_DomainsCertificate account) a' w'
            {| tls.ServerName := types.Main d |} = Ret (Some t, None)
        ∧ (tasks = [RenewEvery (24 * time.Hour) client account]
           ∨ tasks = [RenewOnce client account; RenewEvery (24 * time.Hour) client account]).
Proof.
  assert (Hrun : ∃ a' tlsConfig' tasks w',
    CreateConfig (lib := toyGoLib) (rt := storedRuntime goodStored) toyClock storedACME
      (mk_tls_Config [] None) (mkWorld ∅ []) = Ret ((None, a', tlsConfig', tasks), w'))
    by (do 4 eexists; vm_compute; reflexivity).
  destruct Hrun as (a' & tlsConfig' & tasks & w' & Hrun).
  exists a', tlsConfig', tasks, w'. split; [exact Hrun|].
  exact (CreateConfig_success_serves (lib := toyGoLib) (rt := storedRuntime goodStored)
           toyClock storedACME (mk_tls_Config [] None) (mkWorld ∅ []) a' tlsConfig' tasks w'
           eq_refl Hrun).
Defined.


(** A boot on a stored account with 90 days left: no call to the authority,
    no save, an immediate renewal and the loop started. *)
Example CreateConfig_warm_boot :
  ∃ a' tlsConfig' client account w',
    CreateConfig (lib := toyGoLib) (rt := storedRuntime goodStored) toyClock storedACME
      (mk_tls_Config [] None) (mkWorld ∅ [])
    = Ret ((None, a', tlsConfig',
            [RenewOnce client account; RenewEvery (24 * time.Hour) client account]), w')
    ∧ authority_calls (trace w') = 0%nat ∧ saves (trace w') = 0%nat
    ∧ heap w' !! 1%positive = Some goodDC.
Proof.
  do 5 eexists. split; [vm_compute; reflexivity|]. repeat split; vm_compute; reflexivity.
Qed.
